(** * sfsimodels: the Soil consistency cluster, bulk load and serialisation,
      and the layered SoilProfile with its vertical stress integration.

    The development is a shallow embedding of
      - [sfsimodels/models/soils.py]            (Soil, SoilProfile),
      - [sfsimodels/models/abstract_models.py]  (PhysicalObject, CustomObject),
      - [sfsimodels/files.py]                   (add_to_obj, the soils loop of
        ecp_dict_to_objects, Output.add_to_dict, Output.add_to_output).

    Conventions of the embedding.
      - A Python number is an exact rational ([Q]); IEEE rounding, infinities
        and NaN are not part of the model.  [==] and [!=] on numbers are
        [Qeq_bool] and its negation, so [0 == 0.0] holds as in Python.
        Since the arithmetic of the code rounds, a numeric result is stated
        as the expression the code evaluates, in its order of operations,
        and a check of the code as the comparison of the two expressions it
        compares; order relations are stated where rounding keeps them.
      - An attribute value of the data model is a nullable real:
        [None] or a number ([value := option Q]).
      - A Python object is its instance dictionary ([gmap string value]) read
        over the dictionary of its class; properties are descriptors of the
        class and take precedence, as in Python.
      - Mutating code is a state-and-exception computation: an exception
        leaves the object in the state reached when it was raised. *)

From Stdlib Require Import QArith Qminmax Lqa Lia String List Sorted Permutation Bool.
From stdpp Require Import base option gmap strings fin_maps.
Import ListNotations.

Local Open Scope string_scope.
Local Open Scope list_scope.
Local Open Scope Q_scope.

(* ===================================================================== *)
(** ** Exceptions, outcomes, and the state-and-exception monad            *)
(* ===================================================================== *)

(** The Python exceptions that the modelled code can raise.  [ModelError]
    is the library's own exception (an [Exception] subclass, hence never
    caught by [except TypeError]).  [Unmodelled] is not a Python exception:
    it marks an attribute whose value is not a nullable real (a bound
    method, a list, a float produced by [math.sin]). *)
Inductive exn : Type :=
| ModelError (msg : string)
| TypeError
| AttributeError
| KeyError
| ZeroDivisionError
| RecursionError
| IndexError
| Unmodelled (name : string).

Inductive outcome (A : Type) : Type :=
| Ok (a : A)
| Raise (e : exn).
Arguments Ok {A} a.
Arguments Raise {A} e.

Definition obind {A B} (m : outcome A) (f : A -> outcome B) : outcome B :=
  match m with
  | Ok a => f a
  | Raise e => Raise e
  end.

(** [M S A]: a computation on a mutable object of type [S]. *)
Definition M (S A : Type) : Type := S -> outcome A * S.

Definition ret {S A} (a : A) : M S A := fun s => (Ok a, s).
Definition raise {S A} (e : exn) : M S A := fun s => (Raise e, s).
Definition bind {S A B} (m : M S A) (f : A -> M S B) : M S B :=
  fun s => match m s with
           | (Ok a, s') => f a s'
           | (Raise e, s') => (Raise e, s')
           end.
Definition get {S} : M S S := fun s => (Ok s, s).
Definition eval {S A} (f : S -> outcome A) : M S A := fun s => (f s, s).

(** [try: body except TypeError: handler].  Any other exception of [body]
    propagates. *)
Definition try_except_TypeError {S A} (body handler : M S A) : M S A :=
  fun s => match body s with
           | (Raise TypeError, s') => handler s'
           | r => r
           end.

Declare Scope py_monad_scope.
Delimit Scope py_monad_scope with pym.
Notation "x <- m ;; k" := (bind m (fun x => k))
  (at level 100, m at next level, right associativity) : py_monad_scope.
Notation "m ;; k" := (bind m (fun _ => k))
  (at level 100, right associativity) : py_monad_scope.
Notation "x <~ m ;; k" := (obind m (fun x => k))
  (at level 100, m at next level, right associativity) : py_monad_scope.

(* ===================================================================== *)
(** ** Values and arithmetic                                              *)
(* ===================================================================== *)

Definition value : Type := option Q.

(** An arithmetic expression under evaluation: its value, or the exception
    raised by a sub-expression. *)
Definition expr : Type := outcome value.
Definition of_value (v : value) : expr := Ok v.
Coercion of_value : value >-> expr.
Definition lit (q : Q) : expr := Ok (Some q).

(** A binary operator: operands are evaluated left to right; [None] as an
    operand raises [TypeError]. *)
Definition binop (f : Q -> Q -> outcome Q) (a b : expr) : expr :=
  match a with
  | Raise e => Raise e
  | Ok x =>
    match b with
    | Raise e => Raise e
    | Ok y =>
      match x, y with
      | Some p, Some q =>
        match f p q with
        | Ok r => Ok (Some r)
        | Raise e => Raise e
        end
      | _, _ => Raise TypeError
      end
    end
  end.

Definition py_add : expr -> expr -> expr := binop (fun p q => Ok (p + q)).
Definition py_sub : expr -> expr -> expr := binop (fun p q => Ok (p - q)).
Definition py_mul : expr -> expr -> expr := binop (fun p q => Ok (p * q)).
Definition py_div : expr -> expr -> expr :=
  binop (fun p q => if Qeq_bool q 0 then Raise ZeroDivisionError else Ok (p / q)).

Declare Scope py_scope.
Delimit Scope py_scope with py.
Bind Scope py_scope with expr.
Notation "a + b" := (py_add a b) : py_scope.
Notation "a - b" := (py_sub a b) : py_scope.
Notation "a * b" := (py_mul a b) : py_scope.
Notation "a / b" := (py_div a b) : py_scope.

(** [a != b] on values. *)
Definition py_ne (a b : value) : bool :=
  match a, b with
  | Some p, Some q => negb (Qeq_bool p q)
  | None, None => false
  | _, _ => true
  end.

(** [v is not None]. *)
Definition is_not_None (v : value) : bool :=
  match v with Some _ => true | None => false end.

(** Truth value of [v] in [if v:]. *)
Definition truthy (v : value) : bool :=
  match v with Some q => negb (Qeq_bool q 0) | None => false end.

(* ===================================================================== *)
(** ** Soil                                                               *)
(* ===================================================================== *)

(** A [Soil] instance is its [__dict__]. *)
Abbreviation Soil := (gmap string value).

(** The data attributes bound in the class body of [Soil] (and
    [PhysicalObject._counter]). *)
Definition Soil_class : gmap string value :=
  list_to_map
    [ ("_phi", None); ("_cohesion", None);
      ("_unit_dry_weight", None); ("_e_min", None); ("_e_max", None);
      ("_e_curr", None); ("_relative_density", None);
      ("_specific_gravity", None); ("_unit_sat_weight", None);
      ("_saturation", None); ("_pw", Some 1000);
      ("_g_mod", None); ("_poissons_ratio", None);
      ("e_cr0", Some 0); ("p_cr0", Some 0); ("lamb_crl", Some 0);
      ("_counter", Some 0) ].

(** The fresh instance [Soil()]. *)
Definition Soil_new : Soil := ∅.

(** Plain attribute lookup: instance dictionary, then class. *)
Definition attr (self : Soil) (name : string) : option value :=
  match self !! name with
  | Some v => Some v
  | None => Soil_class !! name
  end.

(** [self._x] for a name the class declares. *)
Definition slot (self : Soil) (name : string) : value :=
  match attr self name with
  | Some v => v
  | None => None
  end.

Definition store (name : string) (v : value) : M Soil unit :=
  fun self => (Ok tt, <[name := v]> self).

Definition Soil_inputs : list string :=
  [ "g_mod"; "phi"; "relative_density"; "unit_dry_weight"; "unit_sat_weight";
    "cohesion"; "poissons_ratio"; "e_min"; "e_max"; "e_cr0"; "p_cr0";
    "lamb_crl" ].

(** *** Getters *)

Definition _phi (self : Soil) : value := slot self "_phi".
Definition _cohesion (self : Soil) : value := slot self "_cohesion".
Definition _unit_dry_weight (self : Soil) : value := slot self "_unit_dry_weight".
Definition _e_min (self : Soil) : value := slot self "_e_min".
Definition _e_max (self : Soil) : value := slot self "_e_max".
Definition _e_curr (self : Soil) : value := slot self "_e_curr".
Definition _relative_density (self : Soil) : value := slot self "_relative_density".
Definition _specific_gravity (self : Soil) : value := slot self "_specific_gravity".
Definition _unit_sat_weight (self : Soil) : value := slot self "_unit_sat_weight".
Definition _saturation (self : Soil) : value := slot self "_saturation".
Definition _pw (self : Soil) : value := slot self "_pw".

Definition phi (self : Soil) : value := _phi self.
Definition cohesion (self : Soil) : value := _cohesion self.
Definition unit_dry_weight (self : Soil) : value := _unit_dry_weight self.
Definition e_curr (self : Soil) : value := _e_curr self.
Definition specific_gravity (self : Soil) : value := _specific_gravity self.
Definition saturation (self : Soil) : value := _saturation self.
Definition unit_sat_weight (self : Soil) : value := _unit_sat_weight self.
Definition e_min (self : Soil) : value := _e_min self.
Definition e_max (self : Soil) : value := _e_max self.
Definition relative_density (self : Soil) : value := _relative_density self.

(** [unit_weight]: [hasattr(self, 'saturation')] always holds, the
    property being defined by the class. *)
Definition unit_weight (self : Soil) : value :=
  if truthy (saturation self) then unit_sat_weight self
  else unit_dry_weight self.

Definition porosity (self : Soil) : expr :=
  (e_curr self / (lit 1 + e_curr self))%py.

Definition _unit_void_volume (self : Soil) : expr :=
  (e_curr self / (lit 1 + e_curr self))%py.

(** [_unit_solid_volume] returns [1.0 - self._unit_solid_volume]: the
    getter calls itself without end. *)
Definition _unit_solid_volume (self : Soil) : expr := Raise RecursionError.

Definition _unit_moisture_weight (self : Soil) : expr :=
  (saturation self * _unit_void_volume self * _pw self)%py.

Definition moisture_content (self : Soil) : expr :=
  (_unit_moisture_weight self / unit_dry_weight self)%py.

Definition n1_60 (self : Soil) : expr :=
  let x := (relative_density self * lit 100 / lit 15)%py in (x * x)%py.

(** *** Setters *)

Local Open Scope py_monad_scope.

Definition set_phi (value : value) : M Soil unit := store "_phi" value.
Definition set_cohesion (value : value) : M Soil unit := store "_cohesion" value.
Definition set_saturation (value : value) : M Soil unit := store "_saturation" value.
Definition set_e_min (value : value) : M Soil unit := store "_e_min" value.
Definition set_e_max (value : value) : M Soil unit := store "_e_max" value.

Definition set_e_curr (value : value) : M Soil unit :=
  try_except_TypeError
    (void_ratio <- eval (fun self =>
        (e_max self - relative_density self * (e_max self - e_min self))%py) ;;
     if py_ne void_ratio value
     then raise (ModelError "New void ratio inconsistent with relative_density")
     else ret tt)
    (store "_e_curr" value).

Definition set_unit_dry_weight (value : value) (override : bool) : M Soil unit :=
  store "_unit_dry_weight" value ;;
  self <- get ;;
  if is_not_None (e_curr self) then
    specific_gravity' <- eval (fun self =>
        ((lit 1 + e_curr self) * unit_dry_weight self / _pw self)%py) ;;
    if is_not_None (specific_gravity self) && negb override then
      if py_ne (_specific_gravity self) specific_gravity'
      then raise (ModelError
             "New unit dry weight is inconsistent with specific gravity and void ratio")
      else ret tt
    else store "_specific_gravity" specific_gravity'
  else if is_not_None (_specific_gravity self) then
    e <- eval (fun self =>
        (_specific_gravity self * _pw self / _unit_dry_weight self - lit 1)%py) ;;
    set_e_curr e
  else ret tt.

Definition set_specific_gravity (value : value) (override : bool) : M Soil unit :=
  store "_specific_gravity" value ;;
  self <- get ;;
  if is_not_None (e_curr self) then
    unit_dry_weight' <- eval (fun self =>
        (_specific_gravity self * _pw self / (lit 1 + _e_curr self))%py) ;;
    if is_not_None (_unit_dry_weight self) && negb override then
      if py_ne (_unit_dry_weight self) unit_dry_weight'
      then raise (ModelError
             "specific gravity is inconsistent with set unit_dry_weight and void_ratio")
      else ret tt
    else set_unit_dry_weight unit_dry_weight' false
  else ret tt.

Definition set_unit_sat_weight (value : value) : M Soil unit :=
  try_except_TypeError
    (unit_sat_weight' <- eval (fun self =>
        (_unit_moisture_weight self + unit_dry_weight self)%py) ;;
     if py_ne unit_sat_weight' value
     then raise (ModelError
            "new unit_sat_weight is inconsistent with other soil parameters")
     else ret tt)
    (store "_unit_sat_weight" value ;;
     self <- get ;;
     if is_not_None (unit_dry_weight self) then
       unit_moisture_weight <- eval (fun self =>
           (unit_sat_weight self - unit_dry_weight self)%py) ;;
       unit_moisture_volume <- eval (fun self =>
           (unit_moisture_weight / _pw self)%py) ;;
       (if is_not_None (e_curr self) then
          sat <- eval (fun self =>
              (unit_moisture_volume / _unit_void_volume self)%py) ;;
          set_saturation sat
        else ret tt) ;;
       self <- get ;;
       if is_not_None (saturation self) then
         unit_void_volume <- eval (fun self =>
             (unit_moisture_volume / saturation self)%py) ;;
         if is_not_None (specific_gravity self) then
           w <- eval (fun self =>
               ((lit 1 - unit_void_volume) * specific_gravity self * _pw self)%py) ;;
           set_unit_dry_weight w false
         else if is_not_None (e_curr self) then
           w <- eval (fun self =>
               (unit_sat_weight self - unit_moisture_weight)%py) ;;
           set_unit_dry_weight w false
         else ret tt
       else ret tt
     else ret tt).

Definition set_relative_density (value : value) (override : bool) : M Soil unit :=
  try_except_TypeError
    (relative_density' <- eval (fun self =>
        ((e_max self - e_curr self) / (e_max self - e_min self))%py) ;;
     (if is_not_None relative_density' && py_ne relative_density' value
         && negb override
      then raise (ModelError "New relative_density is inconsistent with e_curr")
      else ret tt) ;;
     store "_relative_density" value)
    (store "_relative_density" value).

(** *** Attribute access by name *)

(** A property of the class: its getter and, when it has one, its setter. *)
Record property : Type := Property {
  fget : Soil -> expr;
  fset : option (value -> M Soil unit)
}.

(** [math.radians(None)] raises [TypeError]; on a number the result is a
    float computed by the C library, which is outside the model. *)
Definition phi_r (self : Soil) : expr :=
  match phi self with
  | None => Raise TypeError
  | Some _ => Raise (Unmodelled "phi_r")
  end.

Definition k_0 (self : Soil) : expr :=
  match phi_r self with
  | Raise e => Raise e
  | Ok _ => Raise (Unmodelled "k_0")
  end.

(** The properties defined by [Soil] and [PhysicalObject].  A property
    assigned through [@x.setter] is called with [override] at its default. *)
Definition Soil_properties : gmap string property :=
  list_to_map
    [ ("unit_weight", Property (fun self => unit_weight self) None);
      ("phi", Property (fun self => phi self) (Some set_phi));
      ("cohesion", Property (fun self => cohesion self) (Some set_cohesion));
      ("unit_dry_weight",
         Property (fun self => unit_dry_weight self)
                  (Some (fun v => set_unit_dry_weight v false)));
      ("e_curr", Property (fun self => e_curr self) (Some set_e_curr));
      ("specific_gravity",
         Property (fun self => specific_gravity self)
                  (Some (fun v => set_specific_gravity v false)));
      ("saturation", Property (fun self => saturation self) (Some set_saturation));
      ("porosity", Property porosity None);
      ("_unit_void_volume", Property _unit_void_volume None);
      ("_unit_solid_volume", Property _unit_solid_volume None);
      ("_unit_moisture_weight", Property _unit_moisture_weight None);
      ("moisture_content", Property moisture_content None);
      ("unit_sat_weight",
         Property (fun self => unit_sat_weight self) (Some set_unit_sat_weight));
      ("e_min", Property (fun self => e_min self) (Some set_e_min));
      ("e_max", Property (fun self => e_max self) (Some set_e_max));
      ("relative_density",
         Property (fun self => relative_density self)
                  (Some (fun v => set_relative_density v false)));
      ("phi_r", Property phi_r None);
      ("k_0", Property k_0 None);
      ("n1_60", Property n1_60 None);
      ("attributes", Property (fun _ => Raise (Unmodelled "attributes")) None);
      ("ancestor_types", Property (fun _ => Raise (Unmodelled "ancestor_types")) None) ].

(** Names the class binds to methods or to attributes that are not
    nullable reals; double-underscore names belong to [object]. *)
Definition Soil_class_other : list string :=
  [ "inputs"; "type"; "skip_list"; "e_critical"; "set"; "deepcopy";
    "add_from_same"; "to_dict" ].

Definition mem (x : string) (l : list string) : bool :=
  existsb (String.eqb x) l.

Definition dunder (name : string) : bool := String.prefix "__" name.

Definition Soil_getattr (self : Soil) (name : string) : outcome value :=
  match Soil_properties !! name with
  | Some p => fget p self
  | None =>
    if dunder name then Raise (Unmodelled name)
    else match attr self name with
         | Some v => Ok v
         | None => if mem name Soil_class_other then Raise (Unmodelled name)
                   else Raise AttributeError
         end
  end.

(** [setattr(self, name, v)]: a property is assigned through its setter
    (a property without one cannot be assigned); any other name is bound
    in the instance dictionary. *)
Definition Soil_setattr (name : string) (v : value) : M Soil unit :=
  match Soil_properties !! name with
  | Some p =>
    match fset p with
    | Some f => f v
    | None => raise AttributeError
    end
  | None => if dunder name then raise (Unmodelled name) else store name v
  end.

(* ===================================================================== *)
(** ** PhysicalObject: bulk load and serialisation                        *)
(* ===================================================================== *)

(** What the generic code of [PhysicalObject] and [add_to_obj] uses of an
    object.  [get_inputs] and [get_skip_list] are [self.inputs] and
    [self.skip_list] read as sequences of names: [AttributeError] when the
    object has no such attribute, [TypeError] when what the attribute
    holds cannot be iterated. *)
Class PyObject (T : Type) : Type := {
  get_inputs : T -> outcome (list string);
  get_skip_list : T -> outcome (list string);
  getattr : T -> string -> outcome value;
  setattr : string -> value -> M T unit
}.

(** The names that [self.inputs] and [self.skip_list] hold, when they are
    sequences of names. *)
Definition inputs {T : Type} `{PyObject T} (obj : T) : list string :=
  match get_inputs obj with
  | Ok items => items
  | Raise _ => []
  end.

Definition skip_list {T : Type} `{PyObject T} (obj : T) : list string :=
  match get_skip_list obj with
  | Ok items => items
  | Raise _ => []
  end.

(** No instance attribute hides the [inputs] and [skip_list] of the
    class. *)
Definition unshadowed (s : Soil) : Prop :=
  s !! "inputs" = None /\ s !! "skip_list" = None.

(** [Soil] as such an object.  [self.inputs] and [self.skip_list] are
    looked up in the instance first: they are the lists of the class
    unless an assignment such as [soil.inputs = v] has bound an instance
    attribute of that name, which hides the list of the class; what it
    holds is a number or [None], and iterating over it, or testing
    membership in it, raises [TypeError]. *)
#[global] Instance Soil_PyObject : PyObject Soil := {
  get_inputs := fun s =>
    match s !! "inputs" with
    | None => Ok Soil_inputs
    | Some _ => Raise TypeError
    end;
  get_skip_list := fun s =>
    match s !! "skip_list" with
    | None => Ok []
    | Some _ => Raise TypeError
    end;
  getattr := Soil_getattr;
  setattr := Soil_setattr
}.

(** [hasattr(obj, name)]: only [AttributeError] means absence. *)
Definition hasattr {T : Type} `{PyObject T} (obj : T) (name : string) : outcome bool :=
  match getattr obj name with
  | Ok _ => Ok true
  | Raise AttributeError => Ok false
  | Raise e => Raise e
  end.

(** A Python [dict] (or [OrderedDict]) in insertion order, over keys
    compared by [eqb]: [d[k]], [d[k] = v] (an existing key keeps its key
    object and its position) and [del d[k]]. *)
Section OrderedDict.
Context {K V : Type} (eqb : K -> K -> bool).

Fixpoint od_get (d : list (K * V)) (k : K) : option V :=
  match d with
  | [] => None
  | (k', v') :: rest => if eqb k' k then Some v' else od_get rest k
  end.

Fixpoint od_set (d : list (K * V)) (k : K) (v : V) : list (K * V) :=
  match d with
  | [] => [(k, v)]
  | (k', v') :: rest =>
    if eqb k' k then (k', v) :: rest else (k', v') :: od_set rest k v
  end.

Fixpoint od_del (d : list (K * V)) (k : K) : option (list (K * V)) :=
  match d with
  | [] => None
  | (k', v') :: rest =>
    if eqb k' k then Some rest
    else match od_del rest k with
         | Some rest' => Some ((k', v') :: rest')
         | None => None
         end
  end.
End OrderedDict.

Definition dict_get {V} : list (string * V) -> string -> option V :=
  od_get String.eqb.
Definition dict_set {V} : list (string * V) -> string -> V -> list (string * V) :=
  od_set String.eqb.

(** Modelled from the spec: [sfsimodels.functions.collect_serial_value] is
    not among the sources; the spec says that nested values are flattened to
    serialisable primitives, so a value that is already [None] or a number
    is returned as it is. *)
Definition collect_serial_value (v : value) : value := v.

Module PhysicalObject.
Section Generic.
Context {T : Type} `{PyObject T}.

(** [for item in self.inputs: if hasattr(self, item):
      setattr(self, item, values[item])] *)
Fixpoint set_loop (items : list string) (values : list (string * value))
  : M T unit :=
  match items with
  | [] => ret tt
  | item :: rest =>
    has <- eval (fun self => hasattr self item) ;;
    (if has : bool then
       match dict_get values item with
       | Some v => setattr item v
       | None => raise KeyError
       end
     else ret tt) ;;
    set_loop rest values
  end.

(** [if hasattr(self, "inputs"): for item in self.inputs: ...] *)
Definition set (values : list (string * value)) : M T unit :=
  self <- get ;;
  match get_inputs self with
  | Ok items => set_loop items values
  | Raise AttributeError => ret tt
  | Raise e => raise e
  end.

Fixpoint to_dict_loop (self : T) (items : list string) (export_none : bool)
         (outputs : list (string * value)) : outcome (list (string * value)) :=
  match items with
  | [] => Ok outputs
  | item :: rest =>
    match get_skip_list self with
    | Raise e => Raise e
    | Ok skip =>
      if negb (mem item skip) then
        match getattr self item with
        | Raise e => Raise e
        | Ok v =>
          if negb export_none && negb (is_not_None v)
          then to_dict_loop self rest export_none outputs
          else to_dict_loop self rest export_none
                 (dict_set outputs item (collect_serial_value v))
        end
      else to_dict_loop self rest export_none outputs
    end
  end.

(** [full_inputs] is [list(self.inputs) + list(extra)] when the object has
    an attribute [inputs], and [list(extra)] when it has none. *)
Definition to_dict (self : T) (extra : list string) (export_none : bool)
  : outcome (list (string * value)) :=
  match get_inputs self with
  | Ok items => to_dict_loop self (items ++ extra) export_none []
  | Raise AttributeError => to_dict_loop self extra export_none []
  | Raise e => Raise e
  end.
End Generic.
End PhysicalObject.

(** [files.add_to_obj]: the loop visits each key of [dictionary] once,
    with the value bound to it. *)
Fixpoint add_to_obj {T : Type} `{PyObject T} (dictionary : list (string * value))
         (exceptions : list string) : M T unit :=
  match dictionary with
  | [] => ret tt
  | (item, v) :: rest =>
    if mem item exceptions then add_to_obj rest exceptions
    else if is_not_None v
         then setattr item v ;; add_to_obj rest exceptions
         else add_to_obj rest exceptions
  end.

(** Successive assignments [obj.k1 = v1; obj.k2 = v2; ...]. *)
Fixpoint assign (l : list (string * value)) : M Soil unit :=
  match l with
  | [] => ret tt
  | (k, v) :: rest => Soil_setattr k v ;; assign rest
  end.

(* ===================================================================== *)
(** ** SoilProfile                                                        *)
(* ===================================================================== *)

(** A profile: its two scalar attributes, the [OrderedDict] of layers keyed
    by depth, and the instance attribute [id] when one has been bound
    ([None] here is an absent attribute; the class declares none). *)
Record SoilProfile : Type := mkSoilProfile {
  gwl : value;
  unit_weight_water : Q;
  _layers : list (Q * Soil);
  profile_id : option value
}.

(** [SoilProfile()] *)
Definition SoilProfile_new : SoilProfile :=
  {| gwl := None; unit_weight_water := 9800;
     _layers := [(0, Soil_new)]; profile_id := None |}.

Definition with_layers (self : SoilProfile) (l : list (Q * Soil)) : SoilProfile :=
  {| gwl := gwl self; unit_weight_water := unit_weight_water self;
     _layers := l; profile_id := profile_id self |}.

Definition set_gwl (v : value) : M SoilProfile unit :=
  fun self => (Ok tt, {| gwl := v; unit_weight_water := unit_weight_water self;
                         _layers := _layers self; profile_id := profile_id self |}).

(** [sorted(items, key=lambda t: t[0])]: a stable sort by depth. *)
Fixpoint insert_by_depth (x : Q * Soil) (l : list (Q * Soil)) : list (Q * Soil) :=
  match l with
  | [] => [x]
  | y :: l' =>
    if Qle_bool (fst x) (fst y) then x :: y :: l'
    else y :: insert_by_depth x l'
  end.

Fixpoint sorted (l : list (Q * Soil)) : list (Q * Soil) :=
  match l with
  | [] => []
  | x :: l' => insert_by_depth x (sorted l')
  end.

Definition _sort_layers : M SoilProfile unit :=
  fun self => (Ok tt, with_layers self (sorted (_layers self))).

Definition add_layer (depth : Q) (soil : Soil) : M SoilProfile unit :=
  (fun self => (Ok tt, with_layers self (od_set Qeq_bool (_layers self) depth soil))) ;;
  _sort_layers.

Definition layers (self : SoilProfile) : list (Q * Soil) := _layers self.

Definition remove_layer (depth : Q) : M SoilProfile unit :=
  fun self => match od_del Qeq_bool (_layers self) depth with
              | Some l => (Ok tt, with_layers self l)
              | None => (Raise KeyError, self)
              end.

(** [a_list[i]] for a non-negative index. *)
Definition index {A} (l : list A) (i : nat) : outcome A :=
  match nth_error l i with
  | Some a => Ok a
  | None => Raise IndexError
  end.

Definition layer (self : SoilProfile) (i : nat) : outcome Soil :=
  index (map snd (_layers self)) i.

Definition depths (self : SoilProfile) : list Q := map fst (_layers self).

Definition layer_depth (self : SoilProfile) (i : nat) : outcome Q :=
  index (depths self) i.

Definition n_layers (self : SoilProfile) : nat := length (_layers self).

(** [a > b] on numbers. *)
Definition Qgt_bool (a b : Q) : bool := negb (Qle_bool a b).

(** [total_stress + height * soil.unit_weight] *)
Definition add_weight (soil : Soil) (height total_stress : Q) : outcome Q :=
  match (lit total_stress + lit height * unit_weight soil)%py with
  | Ok (Some t) => Ok t
  | Ok None => Raise TypeError
  | Raise e => Raise e
  end.

(** [total_stress += height * self.layer(i).unit_weight] *)
Definition accumulate (self : SoilProfile) (i : nat) (height total_stress : Q)
  : outcome Q :=
  soil <~ layer self i ;;
  add_weight soil height total_stress.

(** The body of [for i in range(len(depths))], over the indices still to
    visit; [break] ends the loop with the current total. *)
Fixpoint stress_loop (self : SoilProfile) (depths : list Q) (z_c : Q)
         (range : list nat) (total_stress : Q) : outcome Q :=
  match range with
  | [] => Ok total_stress
  | i :: range' =>
    d_i <~ index depths i ;;
    if Qgt_bool z_c d_i then
      if (i <? length depths - 1)%nat then
        d_next <~ index depths (i + 1) ;;
        if Qgt_bool z_c d_next then
          total_stress' <~ accumulate self i (d_next - d_i) total_stress ;;
          stress_loop self depths z_c range' total_stress'
        else accumulate self i (z_c - d_i) total_stress
      else accumulate self i (z_c - d_i) total_stress
    else stress_loop self depths z_c range' total_stress
  end.

Definition one_vertical_total_stress (self : SoilProfile) (z_c : Q) : outcome Q :=
  let depths := depths self in
  stress_loop self depths z_c (seq 0 (length depths)) 0.

(** [vertical_total_stress] on a number, and on a sequence of numbers. *)
Definition vertical_total_stress (self : SoilProfile) (z : Q) : outcome Q :=
  one_vertical_total_stress self z.

Fixpoint vertical_total_stress_array (self : SoilProfile) (z : list Q)
  : outcome (list Q) :=
  match z with
  | [] => Ok []
  | value :: z' =>
    s <~ one_vertical_total_stress self value ;;
    rest <~ vertical_total_stress_array self z' ;;
    Ok (s :: rest)
  end.

(** The built-in [max(a, b)]: [b] when [b > a], else [a]. *)
Definition py_max (a b : Q) : Q := if Qgt_bool b a then b else a.

Definition vertical_effective_stress (self : SoilProfile) (z_c : Q) : outcome Q :=
  sigma_v_c <~ vertical_total_stress self z_c ;;
  match (lit z_c - gwl self)%py with
  | Ok (Some d) => Ok (sigma_v_c - py_max d 0 * unit_weight_water self)
  | Ok None => Raise TypeError
  | Raise e => Raise e
  end.

(** The object after running [m] on [s]; it is the object reached when an
    exception was raised, if one was. *)
Definition exec {S A} (m : M S A) (s : S) : S := snd (m s).

(* ===================================================================== *)
(** ** CustomObject and the Output aggregator                             *)
(* ===================================================================== *)

Module CustomObject.
Record t : Type := mk {
  _id : value;
  name : option string;
  base_type : string;
  type : string
}.

(** [CustomObject()] *)
Definition new : t :=
  {| _id := None; name := None;
     base_type := "custom_object"; type := "custom_object" |}.

Definition id (self : t) : value := _id self.
End CustomObject.

(** Serialised values: a nullable real, a string, [str(v)] of a nullable
    real, a list, or a mapping with string keys. *)
#[local] Unset Elimination Schemes.
Inductive sval : Type :=
| SVal (v : value)
| SStr (s : string)
| SStrOf (v : value)
| SList (l : list sval)
| SDict (d : list (string * sval)).
#[local] Set Elimination Schemes.

(** The objects that reach [Output.add_to_dict] and whose classes are among
    the sources ([Foundation], [Building], [Structure] and
    [SoilStructureSystem] are not). *)
Inductive entity : Type :=
| ESoil (s : Soil)
| EProfile (p : SoilProfile)
| ECustom (c : CustomObject.t).

(** [an_object.id] *)
Definition entity_id (an_object : entity) : outcome value :=
  match an_object with
  | ESoil s => getattr s "id"
  | EProfile p =>
    match profile_id p with
    | Some v => Ok v
    | None => Raise AttributeError
    end
  | ECustom c => Ok (CustomObject.id c)
  end.

(** [Output.models]: an [OrderedDict] of [OrderedDict]s, model type to
    id to serialised model. *)
Record Output : Type := mkOutput {
  models : list (string * list (value * sval))
}.

Definition Output_new : Output :=
  {| models := [("soils", []); ("soil_profiles", []); ("foundations", []);
                ("buildings", []); ("systems", [])] |}.

(** [a == b] on dictionary keys that are ids. *)
Definition value_eqb (a b : value) : bool := negb (py_ne a b).

(** [self.models[mtype][m_id] = d] *)
Definition models_put (mtype : string) (m_id : value) (d : sval) : M Output unit :=
  fun self =>
    match od_get String.eqb (models self) mtype with
    | Some inner =>
      (Ok tt, {| models := od_set String.eqb (models self) mtype
                                  (od_set value_eqb inner m_id d) |})
    | None => (Raise KeyError, self)
    end.

Definition Soil_to_sval (s : Soil) : outcome sval :=
  d <~ PhysicalObject.to_dict s [] true ;;
  Ok (SDict (map (fun kv => (fst kv, SVal (snd kv))) d)).

(** [CustomObject.to_dict()], over its inputs [id], [name], [base_type]
    and [type]; the strings are serialised as they are. *)
Definition CustomObject_to_sval (c : CustomObject.t) : sval :=
  SDict [ ("id", SVal (CustomObject.id c));
          ("name", match CustomObject.name c with
                   | Some n => SStr n
                   | None => SVal None
                   end);
          ("base_type", SStr (CustomObject.base_type c));
          ("type", SStr (CustomObject.type c)) ].

Section Serialisation.
(** [collect_serial_value] on the [layers] mapping of a profile: the
    helper is not among the sources and the entry it fills is replaced
    by [add_to_dict], so it is left as a parameter. *)
Variable collect_serial_layers : list (Q * Soil) -> outcome sval.

(** [SoilProfile.to_dict()], over [inputs = gwl, unit_weight_water,
    layers]. *)
Definition SoilProfile_to_dict (self : SoilProfile)
  : outcome (list (string * sval)) :=
  l <~ collect_serial_layers (layers self) ;;
  Ok [ ("gwl", SVal (gwl self));
       ("unit_weight_water", SVal (Some (unit_weight_water self)));
       ("layers", l) ].

(** The loop [for layer in an_object.layers] of [add_to_dict]; [acc] is
    the list at [profile_dict["layers"]]. *)
Fixpoint add_layers_to_dict (ls : list (Q * Soil)) (acc : list sval)
  : M Output (list sval) :=
  match ls with
  | [] => ret acc
  | (layer, soil) :: rest =>
    d <- eval (fun _ => Soil_to_sval soil) ;;
    soil_id <- eval (fun _ => getattr soil "id") ;;
    models_put "soils" soil_id d ;;
    add_layers_to_dict rest
      (acc ++ [SDict [("soil_id", SStrOf soil_id); ("depth", SVal (Some layer))]])
  end.

Definition add_to_dict (an_object : entity) : M Output unit :=
  an_object_id <- eval (fun _ => entity_id an_object) ;;
  if negb (is_not_None an_object_id) then
    raise (ModelError "id must be set on object before adding to output.")
  else
    match an_object with
    | ESoil s =>
      d <- eval (fun _ => Soil_to_sval s) ;;
      models_put "soils" an_object_id d
    | EProfile p =>
      profile_dict <- eval (fun _ => SoilProfile_to_dict p) ;;
      ls <- add_layers_to_dict (layers p) [] ;;
      models_put "soil_profiles" an_object_id
        (SDict (od_set String.eqb profile_dict "layers" (SList ls)))
    | ECustom c =>
      let mtype := CustomObject.type c in
      (fun self =>
         match od_get String.eqb (models self) mtype with
         | Some _ => (Ok tt, self)
         | None => (Ok tt, {| models := od_set String.eqb (models self) mtype [] |})
         end) ;;
      models_put mtype an_object_id (CustomObject_to_sval c) ;;
      models_put "systems" an_object_id (CustomObject_to_sval c)
    end.
End Serialisation.

(* ===================================================================== *)
(** ** Notions used by the statements                                     *)
(* ===================================================================== *)

(** Two outcomes agree: the same exception, or numerically equal results. *)
Definition outcome_Qeq (a b : outcome Q) : Prop :=
  match a, b with
  | Ok x, Ok y => x == y
  | Raise e, Raise e' => e = e'
  | _, _ => False
  end.

(** The profile of the two-layer scenario: [SoilProfile()], then layers at
    depths 0 and 5 with dry unit weights 18000 and 19000, then [gwl = 2]. *)
Definition scenario_profile : SoilProfile :=
  exec (add_layer 0 (exec (assign [("unit_dry_weight", Some 18000)]) Soil_new) ;;
        add_layer 5 (exec (assign [("unit_dry_weight", Some 19000)]) Soil_new) ;;
        set_gwl (Some 2))
       SoilProfile_new.



(** A caller's sequence of structural operations on a profile.  A
    [remove_layer] that raises leaves the profile as it was, and the caller
    goes on with the next operation. *)
Inductive op : Type :=
| AddLayer (depth : Q) (soil : Soil)
| RemoveLayer (depth : Q).

Definition apply_op (o : op) : M SoilProfile unit :=
  match o with
  | AddLayer depth soil => add_layer depth soil
  | RemoveLayer depth => remove_layer depth
  end.

Fixpoint run_ops (ops : list op) (p : SoilProfile) : SoilProfile :=
  match ops with
  | [] => p
  | o :: ops' => run_ops ops' (exec (apply_op o) p)
  end.

(** Sorted ascending, without repeated depth. *)
Definition ascending (l : list Q) : Prop := StronglySorted Qlt l.

(** No two entries of the mapping have equal keys. *)
Fixpoint distinct_depths (l : list (Q * Soil)) : Prop :=
  match l with
  | [] => True
  | x :: l' => Forall (fun y => ~ fst y == fst x) l' /\ distinct_depths l'
  end.

(** The loop of [one_vertical_total_stress] read off the list of layers
    instead of through indices ([stress_loop_from] shows they agree). *)
Fixpoint stress_from (ls : list (Q * Soil)) (z_c total_stress : Q) : outcome Q :=
  match ls with
  | [] => Ok total_stress
  | (d_i, soil) :: rest =>
    if Qgt_bool z_c d_i then
      match rest with
      | (d_next, _) :: _ =>
        if Qgt_bool z_c d_next then
          total_stress' <~ add_weight soil (d_next - d_i) total_stress ;;
          stress_from rest z_c total_stress'
        else add_weight soil (z_c - d_i) total_stress
      | [] => add_weight soil (z_c - d_i) total_stress
      end
    else stress_from rest z_c total_stress
  end.

(** Every layer has a set, non-negative [unit_weight]. *)
Definition weighted (ls : list (Q * Soil)) : Prop :=
  Forall (fun y => exists w, unit_weight (snd y) = Some w /\ 0 <= w) ls.

(** [z] is at or above the top of the first layer. *)
Definition above_first_top (p : SoilProfile) (z : Q) : Prop :=
  match depths p with
  | [] => True
  | d :: _ => z <= d
  end.

(** C4 as the specification words it, for a profile [p]. *)
Definition C4_as_stated (p : SoilProfile) : Prop :=
  ascending (depths p) -> weighted (layers p) ->
  (forall z1 z2 : Q, z1 <= z2 ->
     exists s1 s2, one_vertical_total_stress p z1 = Ok s1
                   /\ one_vertical_total_stress p z2 = Ok s2 /\ s1 <= s2)
  /\ (forall z : Q, above_first_top p z ->
        outcome_Qeq (one_vertical_total_stress p z) (Ok 0))
  /\ outcome_Qeq (vertical_total_stress p 0) (Ok 0).

(** A profile with a layer top above depth 0: layers at depths -2 and 0,
    both of dry unit weight 10. *)
Definition raised_profile : SoilProfile :=
  exec (add_layer (-2) (exec (assign [("unit_dry_weight", Some 10)]) Soil_new) ;;
        add_layer 0 (exec (assign [("unit_dry_weight", Some 10)]) Soil_new))
       SoilProfile_new.

(** Successive [setattr(obj, k, v)] over a list of entries. *)
Fixpoint setattr_all {T : Type} `{PyObject T} (l : list (string * value)) : M T unit :=
  match l with
  | [] => ret tt
  | (k, v) :: rest => setattr k v ;; setattr_all rest
  end.

(** The entries that [add_to_obj] assigns. *)
Definition kept (exceptions : list string) (kv : string * value) : bool :=
  negb (mem (fst kv) exceptions) && is_not_None (snd kv).

(** C5 as the specification words it, for a bulk-load operation [load] on
    a Soil: a key of the mapping that is not an attribute of the object is
    ignored, and an entry whose value is [None] leaves its attribute as it
    was. *)
Definition C5_as_stated (load : list (string * value) -> M Soil unit) : Prop :=
  (forall (s s' : Soil) (d : list (string * value)) (k : string) (v : value),
      hasattr s k = Ok false -> dict_get d k = Some v ->
      load d s = (Ok tt, s') -> hasattr s' k = Ok false)
  /\ (forall (s s' : Soil) (d : list (string * value)) (k : string),
        dict_get d k = Some None ->
        load d s = (Ok tt, s') -> getattr s' k = getattr s k).

(** The mapping that binds every input of [Soil] to [None]. *)
Definition all_None : list (string * value) :=
  map (fun k => (k, None)) Soil_inputs.

(** Where each input of [Soil] is kept: the private slot behind a
    property, or the name itself for a plain attribute. *)
Definition Soil_storage : list (string * string) :=
  [ ("g_mod", "g_mod"); ("phi", "_phi");
    ("relative_density", "_relative_density");
    ("unit_dry_weight", "_unit_dry_weight");
    ("unit_sat_weight", "_unit_sat_weight");
    ("cohesion", "_cohesion"); ("poissons_ratio", "poissons_ratio");
    ("e_min", "_e_min"); ("e_max", "_e_max");
    ("e_cr0", "e_cr0"); ("p_cr0", "p_cr0"); ("lamb_crl", "lamb_crl") ].

Definition storage (k : string) : string :=
  match dict_get Soil_storage k with
  | Some slot_name => slot_name
  | None => k
  end.

(** A Soil on which nothing of the cluster can yet be derived or checked
    from [e_curr], [specific_gravity] or [saturation]. *)
Definition underived (t : Soil) : Prop :=
  e_curr t = None /\ specific_gravity t = None /\ saturation t = None
  /\ _pw t = Some 1000.

(** C2 as the specification words it, for a Soil [s]. *)
Definition C2_as_stated (s : Soil) : Prop :=
  exists (d : list (string * value)) (s' : Soil),
    PhysicalObject.to_dict s [] true = Ok d
    /\ add_to_obj d [] Soil_new = (Ok tt, s')
    /\ forall k, In k Soil_inputs -> getattr s' k = getattr s k.

(** A Soil on which [g_mod] and [poissons_ratio] have been assigned and
    [e_cr0] has been set to [None]. *)
Definition null_e_cr0_soil : Soil :=
  exec (assign [("g_mod", Some 1); ("poissons_ratio", Some (3#10));
                ("e_cr0", None)]) Soil_new.

(** A Soil on which [g_mod], [poissons_ratio] and some of the other inputs
    have been assigned. *)
Definition sand : Soil :=
  exec (assign [("g_mod", Some 40000000); ("poissons_ratio", Some (3#10));
                ("phi", Some 30); ("unit_dry_weight", Some 17000);
                ("e_min", Some (1#2)); ("e_max", Some 1)]) Soil_new.

(* ===================================================================== *)
(** ** Further operations of the modelled classes                         *)
(* ===================================================================== *)

(** [SoilProfile.crust_effective_unit_weight]: a value only when the
    profile has more than one layer, [None] otherwise. *)
Definition crust_effective_unit_weight (self : SoilProfile) : expr :=
  if (1 <? length (layers self))%nat then
    crust <~ layer self 0 ;;
    crust_height <~ layer_depth self 1 ;;
    ((lit crust_height * unit_weight crust
      - (lit crust_height - gwl self) * lit (unit_weight_water self))
     / lit crust_height)%py
  else Ok None.

(** [Output.add_to_output(mtype, m_id, serialisable_dict)] *)
Definition add_to_output (mtype : string) (m_id : value) (serialisable_dict : sval)
  : M Output unit :=
  (fun self =>
     match od_get String.eqb (models self) mtype with
     | Some _ => (Ok tt, self)
     | None => (Ok tt, {| models := od_set String.eqb (models self) mtype [] |})
     end) ;;
  models_put mtype m_id serialisable_dict.

(** [self.models[mtype][m_id]], when both keys are present. *)
Definition models_get (self : Output) (mtype : string) (m_id : value) : option sval :=
  match od_get String.eqb (models self) mtype with
  | Some inner => od_get value_eqb inner m_id
  | None => None
  end.

(** A profile whose crust has no thickness below depth 0: a dry layer put at
    depth -1 above the layer that [SoilProfile()] creates at depth 0, and
    [gwl = 0]. *)
Definition raised_crust_profile : SoilProfile :=
  exec (add_layer (-1) (exec (assign [("unit_dry_weight", Some 18000)]) Soil_new) ;;
        set_gwl (Some 0))
       SoilProfile_new.

(** What holds of an entry [(k, v)] that [to_dict] exports from the names
    [all]. *)
Definition exported {T : Type} `{PyObject T} (obj : T) (export_none : bool)
           (all : list string) (k : string) (v : value) : Prop :=
  In k all /\ mem k (skip_list obj) = false /\ getattr obj k = Ok v
  /\ (export_none = false -> v <> None).

(** The computation [m] leaves the instance dictionary as it was at the
    key [k], whether it returns or raises. *)
Definition preserves {A : Type} (k : string) (m : M Soil A) : Prop :=
  forall s : Soil, snd (m s) !! k = s !! k.

(** The model types that [Output()] creates and [add_to_dict] writes to
    are present. *)
Definition standard (out : Output) : Prop :=
  forall mtype, In mtype ["soils"; "soil_profiles"; "systems"] ->
    od_get String.eqb (models out) mtype <> None.

(** [soil.id] and [soil.to_dict()] of a layer's soil when they return;
    the values chosen for the raising cases are never used. *)
Definition soil_id_of (s : Soil) : value :=
  match getattr s "id" with
  | Ok v => v
  | Raise _ => None
  end.

Definition soil_sval_of (s : Soil) : sval :=
  match Soil_to_sval s with
  | Ok d => d
  | Raise _ => SDict []
  end.

(** Both [to_dict()] and [id] return on the Soil. *)
Definition serialisable (s : Soil) : Prop :=
  (exists d, Soil_to_sval s = Ok d) /\ (exists v, getattr s "id" = Ok v).

(** [soils[soil.id] = soil.to_dict()] for the soil of a layer. *)
Definition register_layer (inner : list (value * sval)) (y : Q * Soil)
  : list (value * sval) :=
  od_set value_eqb inner (soil_id_of (snd y)) (soil_sval_of (snd y)).

(** The entry that [add_to_dict] appends to [profile_dict["layers"]]. *)
Definition layer_entry (y : Q * Soil) : sval :=
  SDict [("soil_id", SStrOf (soil_id_of (snd y))); ("depth", SVal (Some (fst y)))].

(** [sand] with an id, and a profile with an id whose layers are that
    Soil at depth 0 and a [Soil()] at depth 5. *)
Definition sand_1 : Soil := exec (assign [("id", Some 1)]) sand.

Definition profile_1 : SoilProfile :=
  {| gwl := Some 2; unit_weight_water := 9800;
     _layers := [(0, sand_1); (5, Soil_new)]; profile_id := Some (Some 1) |}.

Definition profile_2 : SoilProfile :=
  {| gwl := Some 2; unit_weight_water := 9800;
     _layers := [(0, sand_1); (5, sand_1)]; profile_id := Some (Some 2) |}.

(** A Soil with an id on which [g_mod] was never assigned, and a
    [CustomObject] with an id. *)
Definition bare_soil_4 : Soil := exec (assign [("id", Some 4)]) Soil_new.

Definition custom_3 : CustomObject.t :=
  {| CustomObject._id := Some 3; CustomObject.name := None;
     CustomObject.base_type := "custom_object";
     CustomObject.type := "custom_object" |}.

(** A stand-in for [collect_serial_value] on the layers of a profile. *)
Definition collect_nothing (ls : list (Q * Soil)) : outcome sval := Ok (SDict []).

(** [int(v)]: a number is truncated towards zero; [int(None)] raises. *)
Definition py_int (v : value) : outcome Z :=
  match v with
  | Some q => Ok (Z.quot (Qnum q) (Zpos (Qden q)))
  | None => Raise TypeError
  end.

(** The loop of [files.ecp_dict_to_objects] over [data_models["soils"]],
    for entries whose values are numbers or [None]:
    [new_soil = Soil(); add_to_obj(new_soil, entry);
     soil_objs[int(entry["id"])] = new_soil]. *)
Fixpoint load_soils (section : list (string * list (string * value)))
         (soil_objs : list (Z * Soil)) : outcome (list (Z * Soil)) :=
  match section with
  | [] => Ok soil_objs
  | (m_id, entry) :: rest =>
    match add_to_obj entry [] Soil_new with
    | (Raise e, _) => Raise e
    | (Ok _, new_soil) =>
      match dict_get entry "id" with
      | None => Raise KeyError
      | Some v =>
        i <~ py_int v ;;
        load_soils rest (od_set Z.eqb soil_objs i new_soil)
      end
    end
  end.

(** The amended statement of C5 for [set], as a relation between the names
    of [inputs] still to visit, the object, and the outcome with the
    object it leaves.  The names are visited in order.  A name the object
    does not have is passed over.  A name it has is assigned the value the
    mapping binds to it, whatever that value is, and the load goes on with
    the object the setter leaves; when the mapping has no such key the load
    ends with [KeyError], and when [hasattr] or the setter raises it ends
    with that exception.  The mapping is read at no other key. *)
Inductive set_assigns {T : Type} `{PyObject T} (values : list (string * value))
  : list string -> T -> outcome unit * T -> Prop :=
| set_assigns_done (obj : T) :
    set_assigns values [] obj (Ok tt, obj)
| set_assigns_lacks (item : string) (items : list string) (obj : T)
                    (r : outcome unit * T) :
    hasattr obj item = Ok false ->
    set_assigns values items obj r ->
    set_assigns values (item :: items) obj r
| set_assigns_hasattr_raises (item : string) (items : list string) (obj : T)
                             (e : exn) :
    hasattr obj item = Raise e ->
    set_assigns values (item :: items) obj (Raise e, obj)
| set_assigns_missing (item : string) (items : list string) (obj : T) :
    hasattr obj item = Ok true ->
    dict_get values item = None ->
    set_assigns values (item :: items) obj (Raise KeyError, obj)
| set_assigns_assigned (item : string) (items : list string) (obj obj' : T)
                       (v : value) (r : outcome unit * T) :
    hasattr obj item = Ok true ->
    dict_get values item = Some v ->
    setattr item v obj = (Ok tt, obj') ->
    set_assigns values items obj' r ->
    set_assigns values (item :: items) obj r
| set_assigns_setter_raises (item : string) (items : list string) (obj obj' : T)
                            (v : value) (e : exn) :
    hasattr obj item = Ok true ->
    dict_get values item = Some v ->
    setattr item v obj = (Raise e, obj') ->
    set_assigns values (item :: items) obj (Raise e, obj').

(** A mapping that binds every input of [Soil] to [None], except
    [unit_sat_weight]. *)
Definition mostly_None : list (string * value) :=
  ("unit_sat_weight", Some 19000) :: all_None.
(* ===================================================================== *)
(** * Properties                                                          *)
(* ===================================================================== *)

(** ** Reading slots after a store *)

Lemma slot_store_eq (s : Soil) (name : string) (v : value) :
  slot (<[name := v]> s) name = v.
Proof. unfold slot, attr. rewrite lookup_insert_eq. reflexivity. Qed.

Lemma slot_store_ne (s : Soil) (name name' : string) (v : value) :
  name <> name' -> slot (<[name := v]> s) name' = slot s name'.
Proof. intros Hne. unfold slot, attr. rewrite lookup_insert_ne by exact Hne. reflexivity. Qed.

Lemma slot_new_pw : _pw Soil_new = Some 1000.
Proof. reflexivity. Qed.

Ltac unfold_getters :=
  unfold phi, cohesion, unit_dry_weight, e_curr, specific_gravity, saturation,
    unit_sat_weight, e_min, e_max, relative_density,
    _phi, _cohesion, _unit_dry_weight, _e_min, _e_max, _e_curr,
    _relative_density, _specific_gravity, _unit_sat_weight, _saturation, _pw in *.

Ltac unfold_monad :=
  unfold bind, eval, get, ret, raise, store, try_except_TypeError in *.

(** ** The e_curr setter *)

(** With [e_max], [e_min] and [relative_density] set, the setter only
    checks: it raises on a different value and otherwise returns, and in
    both cases the object is left as it was. *)
Lemma set_e_curr_checked (s : Soil) (a b r : Q) (v : value) :
  e_max s = Some a -> e_min s = Some b -> relative_density s = Some r ->
  set_e_curr v s =
    if py_ne (Some (a - r * (a - b))) v
    then (Raise (ModelError "New void ratio inconsistent with relative_density"), s)
    else (Ok tt, s).
Proof.
  intros Ha Hb Hr. unfold set_e_curr. unfold_monad.
  rewrite Ha, Hb, Hr. cbn.
  destruct v as [q|]; cbn; [destruct (Qeq_bool _ q)|]; reflexivity.
Qed.

(** When one of the three is unset the value is stored unchecked. *)
Lemma set_e_curr_unchecked (s : Soil) (v : value) :
  e_max s = None \/ e_min s = None \/ relative_density s = None ->
  set_e_curr v s = (Ok tt, <["_e_curr" := v]> s).
Proof.
  intros H. unfold set_e_curr. unfold_monad.
  destruct (e_max s) as [a|], (e_min s) as [b|], (relative_density s) as [r|];
    cbn; try reflexivity.
  destruct H as [H | [H | H]]; discriminate H.
Qed.

(** C1.  The claim expects that, with [e_max], [e_min] and
    [relative_density] set and [e_curr] unset, assigning the consistent
    value [e_max - relative_density * (e_max - e_min)] to [e_curr] does not
    raise and that [e_curr] then reads back that value.  On the Soil with
    [e_max = 1.0], [e_min = 0.5], [relative_density = 0.5] the assignment
    [e_curr = 0.75] indeed returns without raising, but the setter stores
    nothing on that path: the object is unchanged and [e_curr] still reads
    [None]. *)
Theorem C1_consistent_e_curr_is_not_stored :
  let s := exec (assign [("e_max", Some 1); ("e_min", Some (1#2));
                         ("relative_density", Some (1#2))]) Soil_new in
  e_max s = Some 1 /\ e_min s = Some (1#2) /\ relative_density s = Some (1#2)
  /\ e_curr s = None
  /\ Soil_setattr "e_curr" (Some (3#4)) s = (Ok tt, s)
  /\ Soil_getattr (exec (Soil_setattr "e_curr" (Some (3#4))) s) "e_curr" = Ok None.
Proof.
  intros s.
  assert (Ha : e_max s = Some 1) by (vm_compute; reflexivity).
  assert (Hb : e_min s = Some (1#2)) by (vm_compute; reflexivity).
  assert (Hr : relative_density s = Some (1#2)) by (vm_compute; reflexivity).
  assert (Hc : e_curr s = None) by (vm_compute; reflexivity).
  assert (Hset : Soil_setattr "e_curr" (Some (3#4)) s = (Ok tt, s)).
  { change (Soil_setattr "e_curr" (Some (3#4))) with (set_e_curr (Some (3#4))).
    rewrite (set_e_curr_checked s 1 (1#2) (1#2)) by assumption. reflexivity. }
  repeat split; assumption || (unfold exec; rewrite Hset; vm_compute; reflexivity).
Qed.

(** ** Failed assignments of unit_dry_weight and specific_gravity *)

(** Whatever exception the [unit_dry_weight] setter raises, the new value
    has already been stored, and nothing else has changed. *)
Lemma set_unit_dry_weight_raise (s s' : Soil) (v : value) (o : bool) (e : exn) :
  set_unit_dry_weight v o s = (Raise e, s') ->
  s' = <["_unit_dry_weight" := v]> s.
Proof.
  unfold set_unit_dry_weight. unfold_monad.
  set (s1 := <["_unit_dry_weight" := v]> s).
  destruct (is_not_None (e_curr s1)).
  - destruct ((lit 1 + e_curr s1) * unit_dry_weight s1 / _pw s1)%py as [g|e1].
    + destruct (is_not_None (specific_gravity s1) && negb o).
      * destruct (py_ne (_specific_gravity s1) g); intros H; inversion H; reflexivity.
      * intros H; inversion H.
    + intros H; inversion H; reflexivity.
  - destruct (is_not_None (_specific_gravity s1)).
    + destruct (_specific_gravity s1 * _pw s1 / _unit_dry_weight s1 - lit 1)%py
        as [x|e1].
      * unfold set_e_curr. unfold_monad.
        destruct (e_max s1 - relative_density s1 * (e_max s1 - e_min s1))%py
          as [vr|e2].
        -- destruct (py_ne vr x); intros H; inversion H; reflexivity.
        -- destruct e2; intros H; inversion H; reflexivity.
      * intros H; inversion H; reflexivity.
    + intros H; inversion H.
Qed.

(** Whatever exception the [specific_gravity] setter raises, the new value
    is what [specific_gravity] reads afterwards. *)
Lemma set_specific_gravity_raise (s s' : Soil) (v : value) (o : bool) (e : exn) :
  set_specific_gravity v o s = (Raise e, s') ->
  specific_gravity s' = v.
Proof.
  unfold set_specific_gravity. unfold_monad.
  set (s1 := <["_specific_gravity" := v]> s).
  assert (H1 : specific_gravity s1 = v) by apply slot_store_eq.
  destruct (is_not_None (e_curr s1)).
  - destruct (_specific_gravity s1 * _pw s1 / (lit 1 + _e_curr s1))%py as [w|e1].
    + destruct (is_not_None (_unit_dry_weight s1) && negb o).
      * destruct (py_ne (_unit_dry_weight s1) w); intros H; inversion H; subst s'; exact H1.
      * intros H. apply set_unit_dry_weight_raise in H. subst s'.
        unfold specific_gravity, _specific_gravity.
        rewrite slot_store_ne by discriminate. exact H1.
    + intros H; inversion H; subst s'; exact H1.
  - intros H; inversion H.
Qed.

(** C10.  The claim expects a failed assignment of [unit_dry_weight] or
    [specific_gravity] to leave the Soil unchanged.  On the Soil with
    [e_curr = 0.5] and [unit_dry_weight = 16000] (whence
    [specific_gravity = 24]) the assignments [unit_dry_weight = 17000] and
    [specific_gravity = 25] both raise [ModelError], and in both cases the
    attribute being set holds the rejected value afterwards. *)
Theorem C10_failed_assignment_keeps_rejected_value :
  let s := exec (assign [("e_curr", Some (1#2));
                         ("unit_dry_weight", Some 16000)]) Soil_new in
  unit_dry_weight s = Some 16000
  /\ value_eqb (specific_gravity s) (Some 24) = true
  /\ fst (Soil_setattr "unit_dry_weight" (Some 17000) s)
     = Raise (ModelError
         "New unit dry weight is inconsistent with specific gravity and void ratio")
  /\ unit_dry_weight (exec (Soil_setattr "unit_dry_weight" (Some 17000)) s)
     = Some 17000
  /\ fst (Soil_setattr "specific_gravity" (Some 25) s)
     = Raise (ModelError
         "specific gravity is inconsistent with set unit_dry_weight and void_ratio")
  /\ specific_gravity (exec (Soil_setattr "specific_gravity" (Some 25)) s)
     = Some 25.
Proof. vm_compute. repeat split; reflexivity. Qed.

(** ** Vertical stress: the two-layer scenario *)

(** C6.  Layers at depths 0 and 5 with dry unit weights 18000 and 19000,
    saturation unset, [gwl = 2]: the total stress at depth 3 is
    [3 * 18000 = 54000] and at depth 7 it is [5 * 18000 + 2 * 19000]. *)
Theorem C6_two_layer_scenario :
  let soilA := exec (assign [("unit_dry_weight", Some 18000)]) Soil_new in
  let soilB := exec (assign [("unit_dry_weight", Some 19000)]) Soil_new in
  let p := exec (add_layer 0 soilA ;; add_layer 5 soilB ;; set_gwl (Some 2))
                SoilProfile_new in
  depths p = [0; 5]
  /\ saturation soilA = None /\ saturation soilB = None
  /\ one_vertical_total_stress p 3 = Ok (3 * 18000)
  /\ one_vertical_total_stress p 3 = Ok 54000
  /\ one_vertical_total_stress p 7 = Ok (5 * 18000 + 2 * 19000).
Proof. vm_compute. repeat split; reflexivity. Qed.

(** ** The id check of Output.add_to_dict *)

(** An object whose [id] reads [None] is rejected with [ModelError], and
    the output is left as it was. *)
Lemma add_to_dict_null_id collect (an_object : entity) (out : Output) :
  entity_id an_object = Ok None ->
  add_to_dict collect an_object out =
    (Raise (ModelError "id must be set on object before adding to output."), out).
Proof.
  intros Hid. unfold add_to_dict. unfold_monad. rewrite Hid. reflexivity.
Qed.

(** C9.  The claim expects every entity to expose an [id] for the
    aggregator to read, so that a missing id is reported as [ModelError].
    [Soil] and [SoilProfile] declare no [id]: on a newly constructed one,
    [add_to_dict] fails with [AttributeError] when it reads [an_object.id].
    A [CustomObject], whose class declares [_id = None], is rejected with
    [ModelError]. *)
Theorem C9_soil_without_id_raises_AttributeError :
  forall collect (out : Output),
    add_to_dict collect (ESoil Soil_new) out = (Raise AttributeError, out)
    /\ add_to_dict collect (EProfile SoilProfile_new) out = (Raise AttributeError, out)
    /\ add_to_dict collect (ECustom CustomObject.new) out
       = (Raise (ModelError "id must be set on object before adding to output."), out).
Proof. intros collect out. repeat split; reflexivity. Qed.

(** ** Effective stress *)

Lemma Qgt_bool_true (a b : Q) : Qgt_bool a b = true <-> b < a.
Proof.
  unfold Qgt_bool. rewrite negb_true_iff.
  destruct (Qle_bool a b) eqn:E.
  - apply Qle_bool_iff in E. split; [discriminate | intros H; lra].
  - split; [intros _ | reflexivity].
    apply Qnot_le_lt. intros H. apply Qle_bool_iff in H. congruence.
Qed.

Lemma Qgt_bool_false (a b : Q) : Qgt_bool a b = false <-> a <= b.
Proof.
  unfold Qgt_bool. rewrite negb_false_iff. apply Qle_bool_iff.
Qed.

Lemma py_max_0_le (a : Q) : a <= 0 -> py_max a 0 == 0.
Proof.
  intros H. unfold py_max. destruct (Qgt_bool 0 a) eqn:E.
  - reflexivity.
  - apply Qgt_bool_false in E. lra.
Qed.

Lemma py_max_0_gt (a : Q) : 0 < a -> py_max a 0 = a.
Proof.
  intros H. unfold py_max. destruct (Qgt_bool 0 a) eqn:E.
  - apply Qgt_bool_true in E. lra.
  - reflexivity.
Qed.

(** C7.  With [gwl] set to [g]: at a depth [z <= g] the effective stress
    equals the total stress, and at a depth [z > g] it equals the total
    stress less [(z - g) * unit_weight_water]; when the total stress raises
    (a layer without unit weight), the effective stress raises the same
    exception. *)
Theorem C7_effective_stress (p : SoilProfile) (z g : Q) :
  gwl p = Some g ->
  (z <= g ->
   outcome_Qeq (vertical_effective_stress p z) (vertical_total_stress p z))
  /\ (g < z ->
      outcome_Qeq (vertical_effective_stress p z)
        (obind (vertical_total_stress p z)
               (fun sigma => Ok (sigma - (z - g) * unit_weight_water p)))).
Proof.
  intros Hg. unfold vertical_effective_stress.
  destruct (vertical_total_stress p z) as [sigma|e]; cbn; [|split; reflexivity].
  rewrite Hg. cbn. split; intros Hz.
  - rewrite (py_max_0_le (z - g)) by lra. ring.
  - rewrite (py_max_0_gt (z - g)) by lra. reflexivity.
Qed.

Lemma scenario_gwl : gwl scenario_profile = Some 2.
Proof. vm_compute. reflexivity. Qed.

Lemma C7_effective_stress_witness :
  outcome_Qeq (vertical_effective_stress scenario_profile 1)
              (vertical_total_stress scenario_profile 1)
  /\ outcome_Qeq (vertical_effective_stress scenario_profile 7)
       (obind (vertical_total_stress scenario_profile 7)
              (fun sigma => Ok (sigma - (7 - 2) * unit_weight_water scenario_profile))).
Proof.
  pose proof (C7_effective_stress scenario_profile 1 2 scenario_gwl) as [H1 _].
  pose proof (C7_effective_stress scenario_profile 7 2 scenario_gwl) as [_ H2].
  split.
  - apply H1. discriminate.
  - apply H2. reflexivity.
Defined.

(** ** unit_dry_weight and specific_gravity *)

Lemma Soil_setattr_e_curr (v : value) : Soil_setattr "e_curr" v = set_e_curr v.
Proof. reflexivity. Qed.

Lemma Soil_setattr_unit_dry_weight (v : value) :
  Soil_setattr "unit_dry_weight" v = set_unit_dry_weight v false.
Proof. reflexivity. Qed.

Lemma Soil_setattr_specific_gravity (v : value) :
  Soil_setattr "specific_gravity" v = set_specific_gravity v false.
Proof. reflexivity. Qed.

Ltac slots :=
  repeat (rewrite slot_store_eq || rewrite slot_store_ne by discriminate).

(** Run a setter symbolically: reduce the monadic plumbing, read slots
    through the stores made so far, and use what is known of the slots. *)
Ltac soil_run :=
  unfold_monad; unfold_getters;
  repeat first
    [ progress cbv beta iota
    | progress cbn [is_not_None andb negb]
    | progress slots
    | match goal with H : slot _ _ = _ |- _ => rewrite H end ].

(** Without [e_curr] and [specific_gravity] the dry weight is stored and
    nothing is derived or checked. *)
Lemma set_unit_dry_weight_stored (s : Soil) (v : value) (o : bool) :
  e_curr s = None -> specific_gravity s = None ->
  set_unit_dry_weight v o s = (Ok tt, <["_unit_dry_weight" := v]> s).
Proof.
  intros He Hg. unfold set_unit_dry_weight. soil_run. reflexivity.
Qed.

(** Without [e_curr] the specific gravity is stored and nothing is derived
    or checked. *)
Lemma set_specific_gravity_stored (s : Soil) (v : value) (o : bool) :
  e_curr s = None ->
  set_specific_gravity v o s = (Ok tt, <["_specific_gravity" := v]> s).
Proof.
  intros He. unfold set_specific_gravity. soil_run. reflexivity.
Qed.










(** ** Layer management *)

Lemma insert_by_depth_In (x y : Q * Soil) (l : list (Q * Soil)) :
  In y (insert_by_depth x l) <-> y = x \/ In y l.
Proof.
  induction l as [|z l IH]; simpl.
  - intuition.
  - destruct (Qle_bool (fst x) (fst z)); simpl.
    + intuition.
    + rewrite IH. intuition.
Qed.

Lemma sorted_In (y : Q * Soil) (l : list (Q * Soil)) :
  In y (sorted l) <-> In y l.
Proof.
  induction l as [|z l IH]; simpl.
  - reflexivity.
  - rewrite insert_by_depth_In, IH. intuition.
Qed.

Lemma insert_ascending (x : Q * Soil) (l : list (Q * Soil)) :
  ascending (map fst l) ->
  Forall (fun y => ~ fst y == fst x) l ->
  ascending (map fst (insert_by_depth x l)).
Proof.
  unfold ascending.
  induction l as [|y l IH]; intros Hasc Hne; simpl.
  - constructor; constructor.
  - simpl in Hasc. inversion Hasc as [|? ? Hl Hy]; subst.
    inversion Hne as [|? ? Hxy Hne']; subst.
    destruct (Qle_bool (fst x) (fst y)) eqn:E; simpl.
    + apply Qle_bool_iff in E.
      assert (Hlt : fst x < fst y).
      { apply Qle_lteq in E. destruct E as [E|E]; [exact E|].
        exfalso. apply Hxy. symmetry. exact E. }
      constructor; [exact Hasc|].
      constructor; [exact Hlt|].
      eapply List.Forall_impl; [|exact Hy].
      intros k Hk. cbv beta in Hk. lra.
    + assert (Hlt : fst y < fst x).
      { apply Qnot_le_lt. intros H. apply Qle_bool_iff in H. congruence. }
      constructor; [apply IH; assumption|].
      apply List.Forall_forall. intros k Hk.
      apply in_map_iff in Hk. destruct Hk as (z & <- & Hz).
      apply (proj1 (insert_by_depth_In _ _ _)) in Hz. destruct Hz as [-> | Hz]; [exact Hlt|].
      rewrite List.Forall_forall in Hy. apply Hy. apply in_map. exact Hz.
Qed.

Lemma sorted_ascending (l : list (Q * Soil)) :
  distinct_depths l -> ascending (map fst (sorted l)).
Proof.
  induction l as [|x l IH]; simpl.
  - intros _. constructor.
  - intros [Hx Hl]. apply insert_ascending; [apply IH; exact Hl|].
    apply List.Forall_forall. intros y Hy. apply (proj1 (sorted_In _ _)) in Hy.
    rewrite List.Forall_forall in Hx. apply Hx. exact Hy.
Qed.

Lemma ascending_distinct (l : list (Q * Soil)) :
  ascending (map fst l) -> distinct_depths l.
Proof.
  unfold ascending.
  induction l as [|x l IH]; simpl; intros Hasc.
  - exact I.
  - inversion Hasc as [|? ? Hl Hx]; subst. split; [|apply IH; exact Hl].
    apply List.Forall_forall. intros y Hy.
    rewrite List.Forall_forall in Hx. specialize (Hx (fst y) (in_map fst _ _ Hy)).
    cbv beta in Hx. intros H. lra.
Qed.

Lemma od_set_keys (P : Q -> Prop) (l : list (Q * Soil)) (d : Q) (s : Soil) :
  Forall (fun y => P (fst y)) l -> P d ->
  Forall (fun y => P (fst y)) (od_set Qeq_bool l d s).
Proof.
  induction l as [|[k v] l IH]; simpl; intros Hl Hd.
  - constructor; [exact Hd | constructor].
  - inversion Hl as [|? ? Hk Hl']; subst.
    destruct (Qeq_bool k d); constructor; auto.
Qed.

Lemma od_set_distinct (l : list (Q * Soil)) (d : Q) (s : Soil) :
  distinct_depths l -> distinct_depths (od_set Qeq_bool l d s).
Proof.
  induction l as [|[k v] l IH]; simpl.
  - intros _. split; [constructor | exact I].
  - intros [Hk Hl]. destruct (Qeq_bool k d) eqn:E; simpl.
    + split; assumption.
    + split; [|apply IH; exact Hl].
      apply (od_set_keys (fun q => ~ q == k)); [exact Hk|].
      intros H. apply Qeq_bool_neq in E. apply E. symmetry. exact H.
Qed.

Lemma add_layer_ascending (p : SoilProfile) (d : Q) (s : Soil) :
  ascending (depths p) -> ascending (depths (exec (add_layer d s) p)).
Proof.
  intros Hasc. unfold exec, add_layer, _sort_layers, bind, depths. simpl.
  apply sorted_ascending, od_set_distinct, ascending_distinct. exact Hasc.
Qed.

Lemma od_del_ascending (l l' : list (Q * Soil)) (d : Q) :
  od_del Qeq_bool l d = Some l' ->
  ascending (map fst l) -> ascending (map fst l').
Proof.
  unfold ascending. revert l'.
  induction l as [|[k v] l IH]; simpl; intros l' Hdel Hasc.
  - discriminate Hdel.
  - inversion Hasc as [|? ? Hl Hk]; subst.
    destruct (Qeq_bool k d).
    + injection Hdel as <-. exact Hl.
    + destruct (od_del Qeq_bool l d) as [r|] eqn:E; [|discriminate Hdel].
      injection Hdel as <-. simpl. constructor; [apply IH; auto|].
      clear IH Hasc Hl. revert r E.
      induction l as [|[k' v'] l IHl]; simpl; intros r E.
      * discriminate E.
      * inversion Hk as [|? ? Hk' Hkl]; subst.
        destruct (Qeq_bool k' d).
        -- injection E as <-. exact Hkl.
        -- destruct (od_del Qeq_bool l d) as [r'|]; [|discriminate E].
           injection E as <-. simpl. constructor; [exact Hk'|].
           apply IHl; [exact Hkl | reflexivity].
Qed.

Lemma remove_layer_ascending (p : SoilProfile) (d : Q) :
  ascending (depths p) -> ascending (depths (exec (remove_layer d) p)).
Proof.
  intros Hasc. unfold exec, remove_layer, depths.
  destruct (od_del Qeq_bool (_layers p) d) as [l|] eqn:E; simpl.
  - eapply od_del_ascending; eauto.
  - exact Hasc.
Qed.

(** The depths are ascending after every prefix of a sequence of
    operations started on an ascending profile. *)
Lemma run_ops_ascending (ops : list op) (p : SoilProfile) :
  ascending (depths p) -> ascending (depths (run_ops ops p)).
Proof.
  revert p. induction ops as [|o ops IH]; simpl; intros p Hasc.
  - exact Hasc.
  - apply IH. destruct o; simpl.
    + apply add_layer_ascending. exact Hasc.
    + apply remove_layer_ascending. exact Hasc.
Qed.

Lemma sorted_fixed (l : list (Q * Soil)) :
  ascending (map fst l) -> sorted l = l.
Proof.
  unfold ascending.
  induction l as [|x l IH]; simpl; intros Hasc.
  - reflexivity.
  - inversion Hasc as [|? ? Hl Hx]; subst. rewrite IH by exact Hl.
    destruct l as [|y l]; simpl.
    + reflexivity.
    + inversion Hx as [|? ? Hxy _]; subst.
      assert (E : Qle_bool (fst x) (fst y) = true) by (apply Qle_bool_iff; lra).
      rewrite E. reflexivity.
Qed.

Lemma od_set_present (l : list (Q * Soil)) (d : Q) (s : Soil) :
  od_get Qeq_bool l d <> None ->
  map fst (od_set Qeq_bool l d s) = map fst l
  /\ od_get Qeq_bool (od_set Qeq_bool l d s) d = Some s.
Proof.
  induction l as [|[k v] l IH]; simpl; intros H.
  - contradiction.
  - destruct (Qeq_bool k d) eqn:E; simpl.
    + rewrite E. split; reflexivity.
    + rewrite E. destruct (IH H) as [H1 H2]. rewrite H1. split; [reflexivity | exact H2].
Qed.

Lemma od_get_od_set_other (l : list (Q * Soil)) (d d' : Q) (s : Soil) :
  ~ d' == d ->
  od_get Qeq_bool (od_set Qeq_bool l d s) d' = od_get Qeq_bool l d'.
Proof.
  intros Hne.
  assert (Hdd : Qeq_bool d d' = false).
  { destruct (Qeq_bool d d') eqn:E; [|reflexivity].
    apply Qeq_bool_iff in E. exfalso. apply Hne. symmetry. exact E. }
  induction l as [|[k v] l IH]; simpl.
  - rewrite Hdd. reflexivity.
  - destruct (Qeq_bool k d) eqn:E; simpl.
    + destruct (Qeq_bool k d') eqn:E'; [|reflexivity].
      apply Qeq_bool_iff in E, E'. exfalso. apply Hne. rewrite <- E, <- E'. reflexivity.
    + destruct (Qeq_bool k d'); [reflexivity | exact IH].
Qed.

Lemma od_del_None_iff (l : list (Q * Soil)) (d : Q) :
  od_del Qeq_bool l d = None <-> od_get Qeq_bool l d = None.
Proof.
  induction l as [|[k v] l IH]; simpl.
  - tauto.
  - destruct (Qeq_bool k d).
    + split; discriminate.
    + rewrite <- IH. destruct (od_del Qeq_bool l d); split; intros H;
        (reflexivity || discriminate H).
Qed.

Lemma SoilProfile_new_ascending : ascending (depths SoilProfile_new).
Proof. repeat constructor. Qed.

(** C8.  Started from [SoilProfile()], after any sequence of [add_layer]
    and [remove_layer] calls the depths are in ascending order;
    [add_layer] at a depth that is present raises nothing, keeps the depths
    and every other layer, and puts the new soil at that depth;
    [remove_layer] raises [KeyError] exactly when no layer is at the
    depth. *)
Theorem C8_layers_sorted_overwrite_and_remove :
  (forall ops : list op, ascending (depths (run_ops ops SoilProfile_new)))
  /\ (forall (ops : list op) (depth : Q) (soil : Soil),
        let p := run_ops ops SoilProfile_new in
        let p' := exec (add_layer depth soil) p in
        od_get Qeq_bool (layers p) depth <> None ->
        fst (add_layer depth soil p) = Ok tt
        /\ depths p' = depths p
        /\ od_get Qeq_bool (layers p') depth = Some soil
        /\ (forall d' : Q, ~ d' == depth ->
              od_get Qeq_bool (layers p') d' = od_get Qeq_bool (layers p) d'))
  /\ (forall (p : SoilProfile) (depth : Q),
        fst (remove_layer depth p) = Raise KeyError
        <-> od_get Qeq_bool (layers p) depth = None).
Proof.
  split; [|split].
  - intros ops. apply run_ops_ascending, SoilProfile_new_ascending.
  - intros ops depth soil p p' Hin.
    assert (Hasc : ascending (depths p))
      by apply run_ops_ascending, SoilProfile_new_ascending.
    unfold layers in *.
    destruct (od_set_present (_layers p) depth soil Hin) as [Hk Hg].
    assert (Hfix : _layers p' = od_set Qeq_bool (_layers p) depth soil).
    { unfold p', exec, add_layer, _sort_layers, bind. simpl.
      apply sorted_fixed. rewrite Hk. exact Hasc. }
    split; [reflexivity|]. split; [|split].
    + unfold depths. rewrite Hfix. exact Hk.
    + rewrite Hfix. exact Hg.
    + intros d' Hne. rewrite Hfix. apply od_get_od_set_other. exact Hne.
  - intros p depth. unfold remove_layer, layers.
    rewrite <- od_del_None_iff.
    destruct (od_del Qeq_bool (_layers p) depth); simpl; split; intros H;
      (reflexivity || discriminate H).
Qed.

Lemma C8_witness_present :
  od_get Qeq_bool (layers (run_ops [AddLayer 5 Soil_new] SoilProfile_new)) 5 <> None.
Proof. vm_compute. discriminate. Qed.

Lemma C8_layers_sorted_witness :
  let p := run_ops [AddLayer 5 Soil_new] SoilProfile_new in
  let p' := exec (add_layer 5 (<["_phi" := Some 30]> Soil_new)) p in
  ascending (depths p)
  /\ depths p' = depths p
  /\ od_get Qeq_bool (layers p') 5 = Some (<["_phi" := Some 30]> Soil_new).
Proof.
  destruct C8_layers_sorted_overwrite_and_remove as (Hsorted & Hadd & _).
  destruct (Hadd [AddLayer 5 Soil_new] 5 (<["_phi" := Some 30]> Soil_new)
                 C8_witness_present) as (_ & Hd & Hg & _).
  split; [apply Hsorted | split; [exact Hd | exact Hg]].
Defined.

(** ** Total stress *)

Lemma index_app_here {A B} (f : A -> B) (pre : list A) (x : A) (rest : list A) :
  index (map f (pre ++ x :: rest)) (length pre) = Ok (f x).
Proof. induction pre as [|a pre IH]; simpl; [reflexivity | exact IH]. Qed.

Lemma index_app_next {A B} (f : A -> B) (pre : list A) (x y : A) (rest : list A) :
  index (map f (pre ++ x :: y :: rest)) (length pre + 1) = Ok (f y).
Proof. induction pre as [|a pre IH]; simpl; [reflexivity | exact IH]. Qed.

(** The index loop over the layers from position [length pre] on is the
    structural loop over the remaining layers. *)
Lemma stress_loop_from (self : SoilProfile) (pre suf : list (Q * Soil)) (z t : Q) :
  _layers self = pre ++ suf ->
  stress_loop self (depths self) z (seq (length pre) (length suf)) t
  = stress_from suf z t.
Proof.
  revert pre t. induction suf as [|[d s] rest IH]; intros pre t Hl.
  - reflexivity.
  - assert (Hlen : length (depths self) = (length pre + S (length rest))%nat).
    { unfold depths. rewrite Hl, length_map, length_app. reflexivity. }
    assert (Hnext : forall t', stress_loop self (depths self) z
                      (seq (S (length pre)) (length rest)) t'
                    = stress_from rest z t').
    { intros t'. specialize (IH (pre ++ [(d, s)]) t').
      rewrite length_app in IH. simpl in IH. rewrite Nat.add_1_r in IH.
      apply IH. rewrite <- app_assoc. exact Hl. }
    assert (Hd : index (depths self) (length pre) = Ok d).
    { unfold depths. rewrite Hl. apply (index_app_here fst). }
    assert (Hs : forall h, accumulate self (length pre) h t = add_weight s h t).
    { intros h. unfold accumulate, layer. rewrite Hl, (index_app_here snd).
      reflexivity. }
    simpl. rewrite Hd, Hlen. cbn [obind].
    destruct (Qgt_bool z d); [|exact (Hnext t)].
    destruct rest as [|[d' s'] rest'].
    + destruct (_ <? _)%nat eqn:E;
        [apply Nat.ltb_lt in E; simpl in E; lia | apply Hs].
    + destruct (_ <? _)%nat eqn:E;
        [clear E | apply Nat.ltb_ge in E; simpl in E; lia].
      assert (Hd' : index (depths self) (length pre + 1) = Ok d').
      { unfold depths. rewrite Hl. apply (index_app_next fst). }
      rewrite Hd'. cbn [obind].
      destruct (Qgt_bool z d'); [|apply Hs].
      rewrite Hs.
      destruct (add_weight s (d' - d) t) as [t'|e]; cbn [obind]; [|reflexivity].
      exact (Hnext t').
Qed.

Lemma one_vertical_total_stress_from (p : SoilProfile) (z : Q) :
  one_vertical_total_stress p z = stress_from (_layers p) z 0.
Proof.
  unfold one_vertical_total_stress.
  replace (length (depths p)) with (length (_layers p))
    by (unfold depths; rewrite length_map; reflexivity).
  apply (stress_loop_from p [] (_layers p)). reflexivity.
Qed.

Lemma add_weight_set (soil : Soil) (w h t : Q) :
  unit_weight soil = Some w -> add_weight soil h t = Ok (t + h * w).
Proof. intros Hw. unfold add_weight. rewrite Hw. reflexivity. Qed.

(** At or above every layer top, nothing is accumulated. *)
Lemma stress_from_above (ls : list (Q * Soil)) (z t : Q) :
  Forall (fun d => z <= d) (map fst ls) -> stress_from ls z t = Ok t.
Proof.
  induction ls as [|[d s] rest IH]; simpl; intros H.
  - reflexivity.
  - inversion H as [|? ? Hd Hrest]; subst.
    apply Qgt_bool_false in Hd. rewrite Hd. apply IH. exact Hrest.
Qed.

(** The loop returns, and never below the total it starts from. *)
Lemma stress_from_lower (ls : list (Q * Soil)) :
  ascending (map fst ls) -> weighted ls ->
  forall z t : Q, exists s, stress_from ls z t = Ok s /\ t <= s.
Proof.
  unfold ascending, weighted.
  induction ls as [|[d soil] rest IH]; simpl; intros Hasc Hw z t.
  - exists t. split; [reflexivity | lra].
  - inversion Hasc as [|? ? Hrest Hd]; subst.
    inversion Hw as [|? ? (w & Hsoil & Hw0) Hwrest]; subst. simpl in Hsoil.
    destruct (Qgt_bool z d) eqn:Ez; [|apply IH; assumption].
    apply Qgt_bool_true in Ez.
    destruct rest as [|[d' soil'] rest'].
    + rewrite (add_weight_set soil w) by exact Hsoil.
      eexists. split; [reflexivity | nra].
    + inversion Hd as [|? ? Hdd' _]; subst.
      destruct (Qgt_bool z d') eqn:Ez'.
      * rewrite (add_weight_set soil w) by exact Hsoil. cbn [obind].
        destruct (IH Hrest Hwrest z (t + (d' - d) * w)) as (s & Hs & Hle).
        exists s. split; [exact Hs | nra].
      * rewrite (add_weight_set soil w) by exact Hsoil.
        eexists. split; [reflexivity | nra].
Qed.

Lemma ascending_above (d z : Q) (l : list Q) :
  Forall (Qlt d) l -> z <= d -> Forall (fun d' => z <= d') l.
Proof.
  intros H Hz. eapply List.Forall_impl; [|exact H].
  intros d' Hd'. cbv beta in Hd'. lra.
Qed.

(** The loop is non-decreasing in the query depth and in the starting
    total. *)
Lemma stress_from_mono (ls : list (Q * Soil)) :
  ascending (map fst ls) -> weighted ls ->
  forall z1 z2 t1 t2 : Q, z1 <= z2 -> t1 <= t2 ->
  exists s1 s2, stress_from ls z1 t1 = Ok s1 /\ stress_from ls z2 t2 = Ok s2
                /\ s1 <= s2.
Proof.
  intros Hasc Hw.
  induction ls as [|[d soil] rest IH]; intros z1 z2 t1 t2 Hz Ht.
  - exists t1, t2. simpl. auto.
  - pose proof (stress_from_lower _ Hasc Hw z2 t2) as (s2 & Hs2 & Hlow2).
    unfold ascending in Hasc. simpl in Hasc.
    inversion Hasc as [|? ? Hrest Hd]; subst.
    pose proof Hw as Hw'. unfold weighted in Hw'.
    inversion Hw' as [|? ? (w & Hsoil & Hw0) Hwrest]; subst. simpl in Hsoil.
    destruct (Qgt_bool z1 d) eqn:E1.
    + assert (E2 : Qgt_bool z2 d = true)
        by (apply Qgt_bool_true; apply Qgt_bool_true in E1; lra).
      simpl. rewrite E1, E2. apply Qgt_bool_true in E1.
      destruct rest as [|[d' soil'] rest'].
      * rewrite !(add_weight_set soil w) by exact Hsoil.
        do 2 eexists. split; [reflexivity|]. split; [reflexivity | nra].
      * inversion Hd as [|? ? Hdd' _]; subst.
        destruct (Qgt_bool z1 d') eqn:E1'.
        -- apply Qgt_bool_true in E1'.
           assert (E2' : Qgt_bool z2 d' = true) by (apply Qgt_bool_true; lra).
           rewrite E2'. rewrite !(add_weight_set soil w) by exact Hsoil.
           cbn [obind]. apply (IH Hrest Hwrest); [exact Hz | lra].
        -- apply Qgt_bool_false in E1'.
           rewrite (add_weight_set soil w _ t1) by exact Hsoil.
           destruct (Qgt_bool z2 d') eqn:E2'.
           ++ rewrite (add_weight_set soil w) by exact Hsoil. cbn [obind].
              destruct (stress_from_lower _ Hrest Hwrest z2 (t2 + (d' - d) * w))
                as (s & Hs & Hle).
              exists (t1 + (z1 - d) * w), s.
              split; [reflexivity|]. split; [exact Hs | nra].
           ++ apply Qgt_bool_false in E2'.
              rewrite (add_weight_set soil w) by exact Hsoil.
              do 2 eexists. split; [reflexivity|]. split; [reflexivity | nra].
    + pose proof E1 as E1b. apply Qgt_bool_false in E1b.
      exists t1, s2. split; [|split; [exact Hs2 | lra]].
      simpl. rewrite E1. apply stress_from_above.
      eapply ascending_above; eauto.
Qed.

(** C4 (as amended).  For a profile whose layers all have a set,
    non-negative [unit_weight] (the depths being ascending, as the layer
    operations keep them): [one_vertical_total_stress] returns at every
    depth and is non-decreasing in the depth; it is 0 at or above the top
    of the first layer; and [vertical_total_stress(0)] is 0 when depth 0 is
    at or above the top of the first layer. *)
Theorem C4_total_stress_monotone (p : SoilProfile) :
  ascending (depths p) -> weighted (layers p) ->
  (forall z1 z2 : Q, z1 <= z2 ->
     exists s1 s2, one_vertical_total_stress p z1 = Ok s1
                   /\ one_vertical_total_stress p z2 = Ok s2 /\ s1 <= s2)
  /\ (forall z : Q, above_first_top p z -> one_vertical_total_stress p z = Ok 0)
  /\ (above_first_top p 0 -> vertical_total_stress p 0 = Ok 0).
Proof.
  intros Hasc Hw. unfold layers in Hw.
  assert (Habove : forall z : Q, above_first_top p z ->
                     one_vertical_total_stress p z = Ok 0).
  { intros z Hz. rewrite one_vertical_total_stress_from.
    apply stress_from_above. unfold above_first_top in Hz.
    unfold depths, ascending in Hz, Hasc.
    destruct (map fst (_layers p)) as [|d l]; [constructor|].
    inversion Hasc as [|? ? _ Hd]; subst.
    constructor; [exact Hz | eapply ascending_above; eauto]. }
  split; [|split].
  - intros z1 z2 Hz. rewrite !one_vertical_total_stress_from.
    apply (stress_from_mono _ Hasc Hw); [exact Hz | lra].
  - exact Habove.
  - apply Habove.
Qed.

Lemma scenario_ascending : ascending (depths scenario_profile).
Proof.
  assert (H : depths scenario_profile = [0; 5]) by (vm_compute; reflexivity).
  rewrite H. repeat constructor.
Qed.

Lemma dry_soil_unit_weight (w : Q) :
  unit_weight (exec (assign [("unit_dry_weight", Some w)]) Soil_new) = Some w.
Proof.
  unfold exec, assign, bind. rewrite Soil_setattr_unit_dry_weight.
  rewrite set_unit_dry_weight_stored by reflexivity. cbn [snd].
  unfold unit_weight. unfold_getters. slots. reflexivity.
Qed.

Lemma scenario_layers :
  _layers scenario_profile
  = [(0, exec (assign [("unit_dry_weight", Some 18000)]) Soil_new);
     (5, exec (assign [("unit_dry_weight", Some 19000)]) Soil_new)].
Proof.
  unfold scenario_profile.
  generalize (exec (assign [("unit_dry_weight", Some 18000)]) Soil_new). intros a.
  generalize (exec (assign [("unit_dry_weight", Some 19000)]) Soil_new). intros b.
  vm_compute. reflexivity.
Qed.

Lemma scenario_weighted : weighted (layers scenario_profile).
Proof.
  unfold layers. rewrite scenario_layers.
  repeat constructor; simpl; eexists;
    (split; [apply dry_soil_unit_weight | discriminate]).
Qed.

Lemma C4_total_stress_witness :
  (exists s1 s2, one_vertical_total_stress scenario_profile 3 = Ok s1
                 /\ one_vertical_total_stress scenario_profile 7 = Ok s2 /\ s1 <= s2)
  /\ one_vertical_total_stress scenario_profile (-1) = Ok 0
  /\ vertical_total_stress scenario_profile 0 = Ok 0.
Proof.
  destruct (C4_total_stress_monotone scenario_profile scenario_ascending
              scenario_weighted) as (Hmono & Hzero & Hzero0).
  assert (H37 : 3 <= 7) by discriminate.
  assert (Hm1 : above_first_top scenario_profile (-1)).
  { unfold above_first_top.
    replace (depths scenario_profile) with [0; 5] by (vm_compute; reflexivity).
    discriminate. }
  assert (H0 : above_first_top scenario_profile 0).
  { unfold above_first_top.
    replace (depths scenario_profile) with [0; 5] by (vm_compute; reflexivity).
    discriminate. }
  split; [exact (Hmono 3 7 H37) | split; [exact (Hzero (-1) Hm1) | exact (Hzero0 H0)]].
Defined.

Lemma raised_profile_layers :
  _layers raised_profile
  = [(-2, exec (assign [("unit_dry_weight", Some 10)]) Soil_new);
     (0, exec (assign [("unit_dry_weight", Some 10)]) Soil_new)].
Proof.
  unfold raised_profile.
  generalize (exec (assign [("unit_dry_weight", Some 10)]) Soil_new). intros a.
  vm_compute. reflexivity.
Qed.

(** C4 as stated fails on a profile that has a layer top above depth 0:
    with layers at depths -2 and 0, both of unit weight 10, the total
    stress at depth 0 is 20. *)
Lemma C4_counterexample :
  vertical_total_stress raised_profile 0 = Ok 20 /\ ~ C4_as_stated raised_profile.
Proof.
  assert (Hv : vertical_total_stress raised_profile 0 = Ok 20).
  { unfold vertical_total_stress. rewrite one_vertical_total_stress_from.
    rewrite raised_profile_layers. simpl.
    rewrite (add_weight_set _ 10) by apply dry_soil_unit_weight.
    reflexivity. }
  split; [exact Hv|].
  intros H. destruct H as (_ & _ & H0).
  - unfold depths. rewrite raised_profile_layers. repeat constructor.
  - unfold layers. rewrite raised_profile_layers.
    repeat constructor; simpl; eexists;
      (split; [apply dry_soil_unit_weight | discriminate]).
  - rewrite Hv in H0. simpl in H0. discriminate H0.
Qed.

(** ** Bulk load *)

Section BulkLoad.
Context {T : Type} `{PyObject T}.

(** [add_to_obj] assigns, in the order of the mapping, exactly the entries
    whose key is not excepted and whose value is not [None]. *)
Lemma add_to_obj_kept (d : list (string * value)) (exceptions : list string) (obj : T) :
  add_to_obj d exceptions obj = setattr_all (List.filter (kept exceptions) d) obj.
Proof.
  revert obj. induction d as [|[k v] d IH]; intros obj; simpl.
  - reflexivity.
  - unfold kept. simpl. destruct (mem k exceptions); simpl; [apply IH|].
    destruct (is_not_None v); simpl; [|apply IH].
    unfold bind. destruct (setattr k v obj) as [[[]|e] obj']; [apply IH | reflexivity].
Qed.

(** [set] reads the mapping only at the names of [inputs]. *)
Lemma set_loop_agree (items : list string) (values values' : list (string * value))
      (obj : T) :
  (forall k, In k items -> dict_get values k = dict_get values' k) ->
  PhysicalObject.set_loop items values obj = PhysicalObject.set_loop items values' obj.
Proof.
  revert obj. induction items as [|item items IH]; intros obj Hag; simpl.
  - reflexivity.
  - unfold bind, eval. destruct (hasattr obj item) as [[|]|e]; [| |reflexivity].
    + rewrite <- (Hag item) by (left; reflexivity).
      destruct (dict_get values item) as [v|].
      * destruct (setattr item v obj) as [[[]|e] obj']; [|reflexivity].
        apply IH. intros k Hk. apply Hag. right. exact Hk.
      * reflexivity.
    + apply IH. intros k Hk. apply Hag. right. exact Hk.
Qed.

(** One step of [set]: a name the object has is assigned the value bound
    to it, [None] included; a missing key raises [KeyError]; a name the
    object does not have is passed over. *)
Lemma set_loop_step (item : string) (items : list string)
      (values : list (string * value)) (obj : T) :
  PhysicalObject.set_loop (item :: items) values obj =
    match hasattr obj item with
    | Ok true =>
      match dict_get values item with
      | Some v => (setattr item v ;; PhysicalObject.set_loop items values)%pym obj
      | None => (Raise KeyError, obj)
      end
    | Ok false => PhysicalObject.set_loop items values obj
    | Raise e => (Raise e, obj)
    end.
Proof.
  simpl. unfold bind, eval, raise, ret.
  destruct (hasattr obj item) as [[|]|e]; try reflexivity.
  destruct (dict_get values item); reflexivity.
Qed.
End BulkLoad.

Lemma Soil_setattr_plain (k : string) (v : value) :
  Soil_properties !! k = None -> dunder k = false ->
  Soil_setattr k v = store k v.
Proof. intros Hp Hd. unfold Soil_setattr. rewrite Hp, Hd. reflexivity. Qed.

Lemma Soil_getattr_plain (s : Soil) (k : string) (v : value) :
  Soil_properties !! k = None -> dunder k = false -> s !! k = Some v ->
  Soil_getattr s k = Ok v.
Proof.
  intros Hp Hd Hs. unfold Soil_getattr, attr. rewrite Hp, Hd, Hs. reflexivity.
Qed.

(** ** Serialising a Soil and loading it back *)

Lemma dict_set_absent {V} (out : list (string * V)) (k : string) (v : V) :
  dict_get out k = None -> dict_set out k v = out ++ [(k, v)].
Proof.
  unfold dict_get, dict_set.
  induction out as [|[k' v'] out IH]; simpl; [reflexivity|].
  destruct (String.eqb k' k); [discriminate|].
  intros Hout. rewrite IH by exact Hout. reflexivity.
Qed.

Lemma dict_get_app_other {V} (out : list (string * V)) (k k' : string) (v : V) :
  k <> k' -> dict_get (out ++ [(k, v)]) k' = dict_get out k'.
Proof.
  intros Hne. unfold dict_get.
  induction out as [|[k0 v0] out IH]; simpl.
  - destruct (String.eqb k k') eqn:E; [|reflexivity].
    apply String.eqb_eq in E. contradiction.
  - destruct (String.eqb k0 k'); [reflexivity | exact IH].
Qed.

Section ToDict.
Context {T : Type} `{PyObject T}.

Lemma to_dict_loop_shape (obj : T) (items : list string) :
  get_skip_list obj = Ok [] -> List.NoDup items ->
  forall out d : list (string * value),
    (forall k, In k items -> dict_get out k = None) ->
    PhysicalObject.to_dict_loop obj items true out = Ok d ->
    exists tail,
      d = out ++ tail
      /\ Forall2 (fun k kv => fst kv = k /\ getattr obj k = Ok (snd kv)) items tail.
Proof.
  intros Hskip. induction items as [|item items IH]; intros Hnd out d Hout Hd.
  - simpl in Hd. injection Hd as <-. exists []. rewrite app_nil_r.
    split; [reflexivity | constructor].
  - inversion Hnd as [|? ? Hnotin Hnd']; subst.
    cbn [PhysicalObject.to_dict_loop] in Hd. rewrite Hskip in Hd.
    cbn [mem existsb negb] in Hd.
    destruct (getattr obj item) as [v|e] eqn:E; [|discriminate Hd].
    cbn [andb] in Hd. unfold collect_serial_value in Hd.
    rewrite dict_set_absent in Hd by (apply Hout; left; reflexivity).
    apply IH in Hd; [|exact Hnd'|].
    + destruct Hd as (tail & -> & Htail). exists ((item, v) :: tail).
      rewrite <- app_assoc. split; [reflexivity|].
      constructor; [split; [reflexivity | exact E] | exact Htail].
    + intros k Hk. rewrite dict_get_app_other.
      * apply Hout. right. exact Hk.
      * intros ->. contradiction.
Qed.

(** A successful [to_dict()] lists the inputs in order, each with the
    value [getattr] reads. *)
Lemma to_dict_inputs (obj : T) (items : list string) (d : list (string * value)) :
  get_skip_list obj = Ok [] -> get_inputs obj = Ok items -> List.NoDup items ->
  PhysicalObject.to_dict obj [] true = Ok d ->
  Forall2 (fun k kv => fst kv = k /\ getattr obj k = Ok (snd kv)) items d.
Proof.
  intros Hskip Hitems Hnd Hd. unfold PhysicalObject.to_dict in Hd.
  rewrite Hitems, app_nil_r in Hd.
  apply (to_dict_loop_shape obj _ Hskip Hnd []) in Hd; [|reflexivity].
  destruct Hd as (tail & -> & Htail). exact Htail.
Qed.
End ToDict.

Lemma Soil_inputs_NoDup : List.NoDup Soil_inputs.
Proof.
  unfold Soil_inputs.
  repeat (constructor; [simpl; intuition discriminate|]). constructor.
Qed.

Lemma Soil_get_inputs (s : Soil) :
  get_inputs s = match s !! "inputs" with
                 | None => Ok Soil_inputs
                 | Some _ => Raise TypeError
                 end.
Proof. reflexivity. Qed.

Lemma Soil_get_skip_list (s : Soil) :
  get_skip_list s = match s !! "skip_list" with
                    | None => Ok []
                    | Some _ => Raise TypeError
                    end.
Proof. reflexivity. Qed.

Lemma unshadowed_lists (s : Soil) :
  unshadowed s -> get_inputs s = Ok Soil_inputs /\ get_skip_list s = Ok [].
Proof.
  intros [Hi Hs]. rewrite Soil_get_inputs, Soil_get_skip_list, Hi, Hs.
  split; reflexivity.
Qed.

Lemma to_dict_loop_reads_skip_list {T : Type} `{PyObject T} (obj : T)
      (item : string) (items : list string) (export_none : bool)
      (out d : list (string * value)) :
  PhysicalObject.to_dict_loop obj (item :: items) export_none out = Ok d ->
  exists skip, get_skip_list obj = Ok skip.
Proof.
  cbn [PhysicalObject.to_dict_loop].
  destruct (get_skip_list obj) as [skip|e]; [|discriminate].
  intros _. exists skip. reflexivity.
Qed.

(** [to_dict] returns only on a Soil whose [inputs] and [skip_list] are
    those of the class. *)
Lemma to_dict_returns_unshadowed (s : Soil) (extra : list string)
      (export_none : bool) (d : list (string * value)) :
  PhysicalObject.to_dict s extra export_none = Ok d -> unshadowed s.
Proof.
  unfold PhysicalObject.to_dict. rewrite Soil_get_inputs.
  destruct (s !! "inputs") eqn:Ei; [discriminate|].
  intros Hd. apply to_dict_loop_reads_skip_list in Hd.
  destruct Hd as (skip & Hskip). rewrite Soil_get_skip_list in Hskip.
  destruct (s !! "skip_list") eqn:Es; [discriminate Hskip|].
  split; assumption.
Qed.

Lemma attr_store_eq (t : Soil) (name : string) (v : value) :
  attr (<[name := v]> t) name = Some v.
Proof. unfold attr. rewrite lookup_insert_eq. reflexivity. Qed.

Lemma attr_store_ne (t : Soil) (name name' : string) (v : value) :
  name <> name' -> attr (<[name := v]> t) name' = attr t name'.
Proof. intros Hne. unfold attr. rewrite lookup_insert_ne by exact Hne. reflexivity. Qed.

Ltac each_input H :=
  unfold Soil_inputs in H; simpl in H;
  repeat (destruct H as [<- | H]); [..| contradiction H].

Ltac storage_of_literal :=
  repeat match goal with
  | |- context [storage ?k] =>
    let x := eval vm_compute in (storage k) in change (storage k) with x
  end.

(** Reading an input of a Soil reads the place where it is kept. *)
Lemma Soil_getattr_input (s : Soil) (k : string) :
  In k Soil_inputs ->
  Soil_getattr s k = match attr s (storage k) with
                     | Some v => Ok v
                     | None => Raise AttributeError
                     end.
Proof.
  intros Hin. each_input Hin; storage_of_literal; try reflexivity.
  - transitivity (of_value (phi s)); [reflexivity|].
    unfold_getters. unfold slot, attr. destruct (s !! "_phi"); reflexivity.
  - transitivity (of_value (relative_density s)); [reflexivity|].
    unfold_getters. unfold slot, attr. destruct (s !! "_relative_density"); reflexivity.
  - transitivity (of_value (unit_dry_weight s)); [reflexivity|].
    unfold_getters. unfold slot, attr. destruct (s !! "_unit_dry_weight"); reflexivity.
  - transitivity (of_value (unit_sat_weight s)); [reflexivity|].
    unfold_getters. unfold slot, attr. destruct (s !! "_unit_sat_weight"); reflexivity.
  - transitivity (of_value (cohesion s)); [reflexivity|].
    unfold_getters. unfold slot, attr. destruct (s !! "_cohesion"); reflexivity.
  - transitivity (of_value (e_min s)); [reflexivity|].
    unfold_getters. unfold slot, attr. destruct (s !! "_e_min"); reflexivity.
  - transitivity (of_value (e_max s)); [reflexivity|].
    unfold_getters. unfold slot, attr. destruct (s !! "_e_max"); reflexivity.
Qed.

Lemma Soil_setattr_relative_density (v : value) :
  Soil_setattr "relative_density" v = set_relative_density v false.
Proof. reflexivity. Qed.

Lemma Soil_setattr_unit_sat_weight (v : value) :
  Soil_setattr "unit_sat_weight" v = set_unit_sat_weight v.
Proof. reflexivity. Qed.

(** Without [e_curr] the relative density is stored unchecked. *)
Lemma set_relative_density_stored (t : Soil) (v : value) (o : bool) :
  e_curr t = None ->
  set_relative_density v o t = (Ok tt, <["_relative_density" := v]> t).
Proof.
  intros He. unfold set_relative_density. soil_run.
  destruct (slot t "_e_max"); reflexivity.
Qed.

(** Without [e_curr] and [saturation] the saturated weight is stored and
    nothing is derived or checked. *)
Lemma set_unit_sat_weight_stored (t : Soil) (q : Q) :
  underived t ->
  set_unit_sat_weight (Some q) t = (Ok tt, <["_unit_sat_weight" := Some q]> t).
Proof.
  intros (He & Hg & Hs & Hpw). unfold set_unit_sat_weight.
  unfold _unit_moisture_weight, _unit_void_volume. unfold_getters.
  destruct (slot t "_unit_dry_weight") as [u|] eqn:Hu;
    soil_run; cbn; soil_run; reflexivity.
Qed.

(** On an underived Soil, assigning a number to an input stores it where
    the input is kept and does nothing else. *)
Lemma Soil_setattr_input (t : Soil) (k : string) (q : Q) :
  underived t -> In k Soil_inputs ->
  Soil_setattr k (Some q) t = (Ok tt, <[storage k := Some q]> t).
Proof.
  intros Hu Hin. each_input Hin; storage_of_literal; try reflexivity.
  - rewrite Soil_setattr_relative_density.
    apply set_relative_density_stored. apply Hu.
  - rewrite Soil_setattr_unit_dry_weight.
    apply set_unit_dry_weight_stored; apply Hu.
  - rewrite Soil_setattr_unit_sat_weight.
    apply set_unit_sat_weight_stored. exact Hu.
Qed.

Lemma underived_store (t : Soil) (k : string) (v : value) :
  underived t -> In k Soil_inputs -> underived (<[storage k := v]> t).
Proof.
  intros (He & Hg & Hs & Hpw) Hin. unfold underived in *. unfold_getters.
  each_input Hin; storage_of_literal; slots; auto.
Qed.

Lemma storage_inj (k k' : string) :
  In k Soil_inputs -> In k' Soil_inputs -> storage k = storage k' -> k = k'.
Proof.
  intros Hin Hin' Heq. each_input Hin; each_input Hin';
    first [reflexivity | vm_compute in Heq; discriminate Heq].
Qed.

Lemma dict_get_absent (d : list (string * value)) (k : string) :
  ~ In k (map fst d) -> dict_get d k = None.
Proof.
  unfold dict_get. induction d as [|[k' v'] d IH]; simpl; intros Hk.
  - reflexivity.
  - destruct (String.eqb k' k) eqn:E.
    + apply String.eqb_eq in E. exfalso. apply Hk. left. exact E.
    + apply IH. intros H. apply Hk. right. exact H.
Qed.

(** Loading a mapping over inputs into an underived Soil: it returns, and
    each input holds the number the mapping gives it, or what it held
    before when the mapping gives [None] or nothing. *)
Lemma add_to_obj_inputs (d : list (string * value)) :
  (forall kv, In kv d -> In (fst kv) Soil_inputs) ->
  List.NoDup (map fst d) ->
  forall t : Soil, underived t ->
  exists t' : Soil,
    add_to_obj d [] t = (Ok tt, t')
    /\ underived t'
    /\ forall k, In k Soil_inputs ->
         attr t' (storage k) =
           match dict_get d k with
           | Some (Some q) => Some (Some q)
           | _ => attr t (storage k)
           end.
Proof.
  induction d as [|[k0 v0] d IH]; intros Hkeys Hnd t Hu.
  - exists t. split; [reflexivity|]. split; [exact Hu|]. intros k _. reflexivity.
  - simpl in Hnd. inversion Hnd as [|? ? Hk0 Hnd']; subst.
    assert (Hin0 : In k0 Soil_inputs) by (apply (Hkeys (k0, v0)); left; reflexivity).
    assert (Hkeys' : forall kv, In kv d -> In (fst kv) Soil_inputs)
      by (intros kv Hkv; apply Hkeys; right; exact Hkv).
    assert (Habs : dict_get d k0 = None) by (apply dict_get_absent; exact Hk0).
    destruct v0 as [q|].
    + destruct (IH Hkeys' Hnd' (<[storage k0 := Some q]> t)
                   (underived_store t k0 (Some q) Hu Hin0))
        as (t' & Hload & Hu' & Hattr).
      exists t'. split; [|split; [exact Hu'|]].
      * simpl. unfold bind.
        change (setattr k0 (Some q) t) with (Soil_setattr k0 (Some q) t).
        rewrite Soil_setattr_input by assumption. exact Hload.
      * intros k Hk. rewrite (Hattr k Hk).
        unfold dict_get at 2. simpl. fold (dict_get d k).
        destruct (String.eqb k0 k) eqn:E.
        -- apply String.eqb_eq in E. subst k. rewrite Habs. apply attr_store_eq.
        -- destruct (dict_get d k) as [[q'|]|]; try reflexivity;
             apply attr_store_ne; intros Hs; apply storage_inj in Hs; auto;
             subst k; rewrite String.eqb_refl in E; discriminate E.
    + destruct (IH Hkeys' Hnd' t Hu) as (t' & Hload & Hu' & Hattr).
      exists t'. split; [exact Hload|]. split; [exact Hu'|].
      intros k Hk. rewrite (Hattr k Hk).
      unfold dict_get at 2. simpl. fold (dict_get d k).
      destruct (String.eqb k0 k) eqn:E; [|reflexivity].
      apply String.eqb_eq in E. subst k. rewrite Habs. reflexivity.
Qed.

Lemma Soil_new_underived : underived Soil_new.
Proof. repeat split. Qed.

Lemma Forall2_keys (s : Soil) (ks : list string) (d : list (string * value)) :
  Forall2 (fun k kv => fst kv = k /\ getattr s k = Ok (snd kv)) ks d ->
  map fst d = ks
  /\ (List.NoDup ks -> forall k, In k ks ->
        exists v, getattr s k = Ok v /\ dict_get d k = Some v).
Proof.
  induction 1 as [|k [k' v] ks d [Hk Hv] Hrest [IHk IHv]]; simpl in *.
  - split; [reflexivity | intros _ k []].
  - subst k'. split; [rewrite IHk; reflexivity|].
    intros Hnd k0 Hin. inversion Hnd as [|? ? Hnotin Hnd']; subst.
    unfold dict_get. simpl. fold (dict_get d k0).
    destruct (String.eqb k k0) eqn:E.
    + apply String.eqb_eq in E. subst k0. exists v. split; [exact Hv | reflexivity].
    + destruct Hin as [-> | Hin]; [rewrite String.eqb_refl in E; discriminate E|].
      apply IHv; assumption.
Qed.

(** C2 (as amended).  For every Soil on which [to_dict()] returns a
    mapping, loading that mapping into a fresh Soil with [add_to_obj] does
    not raise; every key of [inputs] is in the mapping with the value the
    Soil holds; a key whose value is a number reads back that number on the
    loaded Soil; a key whose value is [None] is skipped, so the loaded Soil
    reads there what [Soil()] reads. *)
Theorem C2_round_trip (s : Soil) (d : list (string * value)) :
  PhysicalObject.to_dict s [] true = Ok d ->
  exists s' : Soil,
    add_to_obj d [] Soil_new = (Ok tt, s')
    /\ forall k, In k Soil_inputs ->
         exists v, getattr s k = Ok v /\ dict_get d k = Some v
                   /\ match v with
                      | Some q => getattr s' k = Ok (Some q)
                      | None => getattr s' k = getattr Soil_new k
                      end.
Proof.
  intros Hd.
  destruct (unshadowed_lists s (to_dict_returns_unshadowed s [] true d Hd))
    as [Hins Hskip].
  apply (to_dict_inputs s Soil_inputs d Hskip Hins Soil_inputs_NoDup) in Hd.
  apply Forall2_keys in Hd. destruct Hd as [Hkeys Hvals].
  destruct (add_to_obj_inputs d) with (t := Soil_new) as (s' & Hload & _ & Hattr).
  - intros kv Hkv. rewrite <- Hkeys. apply in_map. exact Hkv.
  - rewrite Hkeys. exact Soil_inputs_NoDup.
  - exact Soil_new_underived.
  - exists s'. split; [exact Hload|]. intros k Hk.
    destruct (Hvals Soil_inputs_NoDup k Hk) as (v & Hv & Hdk).
    exists v. split; [exact Hv|]. split; [exact Hdk|].
    change (getattr s' k) with (Soil_getattr s' k).
    change (getattr Soil_new k) with (Soil_getattr Soil_new k).
    rewrite !Soil_getattr_input by exact Hk.
    rewrite (Hattr k Hk), Hdk. destruct v; reflexivity.
Qed.

Lemma sand_to_dict : exists d, PhysicalObject.to_dict sand [] true = Ok d.
Proof. vm_compute. eexists. reflexivity. Qed.

Lemma C2_round_trip_witness :
  exists (d : list (string * value)) (s' : Soil),
    PhysicalObject.to_dict sand [] true = Ok d
    /\ add_to_obj d [] Soil_new = (Ok tt, s')
    /\ forall k, In k Soil_inputs ->
         exists v, getattr sand k = Ok v /\ dict_get d k = Some v
                   /\ match v with
                      | Some q => getattr s' k = Ok (Some q)
                      | None => getattr s' k = getattr Soil_new k
                      end.
Proof.
  destruct sand_to_dict as [d Hd].
  destruct (C2_round_trip sand d Hd) as (s' & Hload & Hall).
  exists d, s'. split; [exact Hd | split; [exact Hload | exact Hall]].
Defined.

(** [Soil()] declares [_g_mod] and [_poissons_ratio] but no attribute
    [g_mod] or [poissons_ratio], although [inputs] names them:
    [to_dict()] on a Soil on which they were never assigned raises. *)
Lemma to_dict_Soil_new :
  PhysicalObject.to_dict Soil_new [] true = Raise AttributeError.
Proof. vm_compute. reflexivity. Qed.

Lemma null_e_cr0_before : getattr null_e_cr0_soil "e_cr0" = Ok None.
Proof. vm_compute. reflexivity. Qed.

Lemma null_e_cr0_after (d : list (string * value)) :
  PhysicalObject.to_dict null_e_cr0_soil [] true = Ok d ->
  fst (add_to_obj d [] Soil_new) = Ok tt
  /\ getattr (snd (add_to_obj d [] Soil_new)) "e_cr0" = Ok (Some 0).
Proof.
  intros Hd. vm_compute in Hd. injection Hd as <-.
  vm_compute. split; reflexivity.
Qed.

(** C2 as stated fails on a Soil that holds [None] at an input whose class
    default is not [None]: with [e_cr0 = None] (and [g_mod],
    [poissons_ratio] assigned), [to_dict()] exports [e_cr0: None],
    [add_to_obj] skips the entry, and the loaded Soil reads [e_cr0 = 0.0].
    It also fails on [Soil()], where [to_dict()] raises. *)
Lemma C2_counterexample :
  ~ C2_as_stated null_e_cr0_soil /\ ~ C2_as_stated Soil_new.
Proof.
  split.
  - intros (d & s' & Hd & Hload & Hall).
    destruct (null_e_cr0_after d Hd) as [_ Hafter].
    rewrite Hload in Hafter. cbn [snd] in Hafter.
    assert (Hin : In "e_cr0" Soil_inputs) by (unfold Soil_inputs; simpl; tauto).
    specialize (Hall "e_cr0" Hin).
    rewrite Hafter, null_e_cr0_before in Hall. discriminate Hall.
  - intros (d & s' & Hd & _). rewrite to_dict_Soil_new in Hd. discriminate Hd.
Qed.

(** ** Bulk load: what [set] assigns *)

Lemma hasattr_input (s : Soil) (k : string) :
  In k Soil_inputs ->
  hasattr s k = match attr s (storage k) with
                | Some _ => Ok true
                | None => Ok false
                end.
Proof.
  intros Hin. unfold hasattr. change (getattr s k) with (Soil_getattr s k).
  rewrite (Soil_getattr_input s k Hin). destruct (attr s (storage k)); reflexivity.
Qed.

Section SetAssigns.
Context {T : Type} `{PyObject T}.

Lemma set_loop_assigns (values : list (string * value)) (items : list string) :
  forall obj : T, set_assigns values items obj (PhysicalObject.set_loop items values obj).
Proof.
  induction items as [|item items IH]; intros obj.
  - apply set_assigns_done.
  - rewrite set_loop_step.
    destruct (hasattr obj item) as [[|]|e] eqn:Eh.
    + destruct (dict_get values item) as [v|] eqn:Ev;
        [|apply set_assigns_missing; assumption].
      unfold bind. destruct (setattr item v obj) as [[[]|e] obj'] eqn:Es.
      * apply (set_assigns_assigned values item items obj obj' v); try assumption.
        apply IH.
      * apply (set_assigns_setter_raises values item items obj obj' v); assumption.
    + apply set_assigns_lacks; [exact Eh | apply IH].
    + apply set_assigns_hasattr_raises. exact Eh.
Qed.

Lemma set_assigns_unique (values : list (string * value)) (items : list string)
      (obj : T) (r : outcome unit * T) :
  set_assigns values items obj r -> r = PhysicalObject.set_loop items values obj.
Proof.
  induction 1 as [obj
                 |item items obj r Eh _ IH
                 |item items obj e Eh
                 |item items obj Eh Ev
                 |item items obj obj' v r Eh Ev Es _ IH
                 |item items obj obj' v e Eh Ev Es];
    try rewrite set_loop_step; try rewrite Eh; try rewrite Ev;
    try (unfold bind; rewrite Es); try reflexivity; exact IH.
Qed.
End SetAssigns.

(** On a Soil on which nothing is derivable, assigning any value to an
    input stores it where the input is kept; for [unit_sat_weight] the
    value is to be a number. *)
Lemma Soil_setattr_input_value (t : Soil) (k : string) (v : value) :
  underived t -> In k Soil_inputs -> (k = "unit_sat_weight" -> v <> None) ->
  Soil_setattr k v t = (Ok tt, <[storage k := v]> t).
Proof.
  intros Hu Hin Hv. destruct v as [q|]; [apply Soil_setattr_input; assumption|].
  each_input Hin; storage_of_literal; try reflexivity.
  - rewrite Soil_setattr_relative_density.
    apply set_relative_density_stored. apply Hu.
  - rewrite Soil_setattr_unit_dry_weight.
    apply set_unit_dry_weight_stored; apply Hu.
  - contradiction (Hv eq_refl). reflexivity.
Qed.

Lemma set_loop_inputs (values : list (string * value)) (items : list string) :
  (forall k, In k items -> In k Soil_inputs) -> List.NoDup items ->
  dict_get values "unit_sat_weight" <> Some None ->
  forall t : Soil, underived t ->
    (forall k, In k items -> attr t (storage k) <> None ->
               exists v, dict_get values k = Some v) ->
    exists t' : Soil,
      PhysicalObject.set_loop items values t = (Ok tt, t')
      /\ underived t'
      /\ forall k, In k Soil_inputs ->
           (In k items -> attr t (storage k) <> None ->
            exists v, dict_get values k = Some v /\ attr t' (storage k) = Some v)
           /\ (~ In k items \/ attr t (storage k) = None ->
               attr t' (storage k) = attr t (storage k)).
Proof.
  intros Hitems Hnd Husw.
  induction items as [|item items IH]; intros t Hu Hbound.
  - exists t. split; [reflexivity|]. split; [exact Hu|].
    intros k _. split; [intros [] | reflexivity].
  - inversion Hnd as [|? ? Hnotin Hnd']; subst.
    assert (Hin : In item Soil_inputs) by (apply Hitems; left; reflexivity).
    assert (Hitems' : forall k, In k items -> In k Soil_inputs)
      by (intros k Hk; apply Hitems; right; exact Hk).
    assert (Hother : forall k, In k Soil_inputs -> k <> item ->
               storage item <> storage k).
    { intros k Hk Hne Hs. apply Hne. symmetry. apply storage_inj; assumption. }
    rewrite set_loop_step, (hasattr_input t item Hin).
    destruct (attr t (storage item)) as [x|] eqn:Ex.
    + destruct (Hbound item) as (v & Ev); [left; reflexivity | rewrite Ex; discriminate|].
      rewrite Ev. unfold bind.
      change (setattr item v t) with (Soil_setattr item v t).
      rewrite (Soil_setattr_input_value t item v Hu Hin)
        by (intros -> ->; contradiction (Husw Ev)).
      destruct (IH Hitems' Hnd' (<[storage item := v]> t)
                   (underived_store t item v Hu Hin)) as (t' & Hload & Hu' & Hattr).
      { intros k Hk Hattr. apply Hbound; [right; exact Hk|].
        rewrite attr_store_ne in Hattr; [exact Hattr|].
        apply Hother; [apply Hitems'; exact Hk|]. intros ->. contradiction. }
      exists t'. split; [exact Hload|]. split; [exact Hu'|].
      intros k Hk. destruct (Hattr k Hk) as [Hset Hkept]. split.
      * intros [<- | Hki] Hhas.
        -- exists v. split; [exact Ev|].
           rewrite Hkept by (left; exact Hnotin). apply attr_store_eq.
        -- assert (Hne : k <> item) by (intros ->; contradiction).
           destruct (Hset Hki) as (v' & Ev' & Hv').
           ++ rewrite attr_store_ne by (apply Hother; assumption). exact Hhas.
           ++ exists v'. split; assumption.
      * intros Hno.
        assert (Hne : k <> item).
        { intros ->. destruct Hno as [Hno | Hno];
            [apply Hno; left; reflexivity | rewrite Ex in Hno; discriminate Hno]. }
        rewrite Hkept.
        -- apply attr_store_ne. apply Hother; assumption.
        -- destruct Hno as [Hno | Hno].
           ++ left. intros Hki. apply Hno. right. exact Hki.
           ++ right. rewrite attr_store_ne by (apply Hother; assumption). exact Hno.
    + destruct (IH Hitems' Hnd' t Hu) as (t' & Hload & Hu' & Hattr).
      { intros k Hk Hattr. apply Hbound; [right; exact Hk | exact Hattr]. }
      exists t'. split; [exact Hload|]. split; [exact Hu'|].
      intros k Hk. destruct (Hattr k Hk) as [Hset Hkept]. split.
      * intros [<- | Hki] Hhas; [rewrite Ex in Hhas; contradiction Hhas; reflexivity|].
        apply Hset; assumption.
      * intros Hno. apply Hkept. destruct Hno as [Hno | Hno]; [|right; exact Hno].
        destruct (attr t (storage k)) eqn:Ek; [|right; reflexivity].
        left. intros Hki. apply Hno. right. exact Hki.
Qed.

(** C5 (as amended).  [add_to_obj] goes through the mapping in order,
    passes over the entries whose key is excepted or whose value is [None],
    and assigns every other entry with [setattr]; on a Soil, a key that is
    neither a property nor a double-underscore name is bound in the
    instance, whether or not it was an attribute before.
    [PhysicalObject.set] does not read the mapping at any key outside
    [inputs].  When [self.inputs] is a sequence of names, it visits them
    in order, passes over a name the object does not have and assigns to a
    name it has the value the mapping binds to it ([None] included), with
    [KeyError] when the mapping has no such key: its outcome is the one,
    and the only one, that [set_assigns] describes.  When the object has
    no [inputs], [set] does nothing; when [self.inputs] cannot be iterated,
    it raises and leaves the object as it was.  On a Soil on which nothing is derivable and
    whose [inputs] are those of the class, with a mapping that binds every
    input the Soil has (and [unit_sat_weight] to a number), [set] returns;
    every input the Soil had then reads the value of the mapping, [None]
    included, and an input it lacked is still lacking. *)
Theorem C5_bulk_load :
  (forall (T : Type) (H : PyObject T) (d : list (string * value))
          (exceptions : list string) (obj : T),
      add_to_obj d exceptions obj = setattr_all (List.filter (kept exceptions) d) obj)
  /\ (forall (s : Soil) (k : string) (q : Q),
        Soil_properties !! k = None -> dunder k = false ->
        add_to_obj [(k, Some q)] [] s = (Ok tt, <[k := Some q]> s)
        /\ getattr (<[k := Some q]> s) k = Ok (Some q))
  /\ (forall (T : Type) (H : PyObject T) (values values' : list (string * value))
             (obj : T),
        (forall k, In k (inputs obj) -> dict_get values k = dict_get values' k) ->
        PhysicalObject.set values obj = PhysicalObject.set values' obj)
  /\ (forall (T : Type) (H : PyObject T) (values : list (string * value)) (obj : T)
             (items : list string),
        get_inputs obj = Ok items ->
        set_assigns values items obj (PhysicalObject.set values obj)
        /\ forall r, set_assigns values items obj r ->
                     r = PhysicalObject.set values obj)
  /\ (forall (T : Type) (H : PyObject T) (values : list (string * value)) (obj : T)
             (e : exn),
        get_inputs obj = Raise e ->
        PhysicalObject.set values obj
        = (match e with AttributeError => Ok tt | _ => Raise e end, obj))
  /\ (forall (values : list (string * value)) (t : Soil),
        unshadowed t -> underived t ->
        (forall k, In k Soil_inputs -> hasattr t k = Ok true ->
                   exists v, dict_get values k = Some v) ->
        dict_get values "unit_sat_weight" <> Some None ->
        exists t' : Soil,
          PhysicalObject.set values t = (Ok tt, t')
          /\ forall k, In k Soil_inputs ->
               (hasattr t k = Ok true ->
                exists v, dict_get values k = Some v /\ getattr t' k = Ok v)
               /\ (hasattr t k = Ok false -> hasattr t' k = Ok false)).
Proof.
  split; [|split; [|split; [|split; [|split]]]].
  - intros T H d exceptions obj. apply add_to_obj_kept.
  - intros s k q Hp Hd. split.
    + simpl. unfold bind, ret. change (setattr k (Some q) s) with (Soil_setattr k (Some q) s).
      rewrite Soil_setattr_plain by assumption. reflexivity.
    + change (getattr (<[k := Some q]> s) k) with (Soil_getattr (<[k := Some q]> s) k).
      apply Soil_getattr_plain; [assumption | assumption | apply lookup_insert_eq].
  - intros T H values values' obj Hag. unfold PhysicalObject.set, bind, get.
    unfold inputs in Hag. destruct (get_inputs obj) as [items|e]; [|reflexivity].
    apply set_loop_agree. exact Hag.
  - intros T H values obj items Hitems.
    assert (Hset : PhysicalObject.set values obj
                   = PhysicalObject.set_loop items values obj)
      by (unfold PhysicalObject.set, bind, get; rewrite Hitems; reflexivity).
    rewrite Hset. split; [apply set_loop_assigns|].
    intros r Hr. apply set_assigns_unique. exact Hr.
  - intros T H values obj e He. unfold PhysicalObject.set, bind, get.
    rewrite He. destruct e; reflexivity.
  - intros values t Hun Hu Hbound Husw.
    assert (Hloop : PhysicalObject.set values t
                    = PhysicalObject.set_loop Soil_inputs values t).
    { unfold PhysicalObject.set, bind, get.
      rewrite (proj1 (unshadowed_lists t Hun)). reflexivity. }
    rewrite Hloop.
    destruct (set_loop_inputs values Soil_inputs (fun k Hk => Hk) Soil_inputs_NoDup
                Husw t Hu) as (t' & Hload & _ & Hattr).
    { intros k Hk Hhas. apply Hbound; [exact Hk|].
      rewrite (hasattr_input t k Hk). destruct (attr t (storage k));
        [reflexivity | contradiction Hhas; reflexivity]. }
    exists t'. split; [exact Hload|].
    intros k Hk. destruct (Hattr k Hk) as [Hset Hkept].
    rewrite (hasattr_input t k Hk), (hasattr_input t' k Hk).
    change (getattr t' k) with (Soil_getattr t' k).
    rewrite (Soil_getattr_input t' k Hk). split.
    + intros Hhas. destruct (Hset Hk) as (v & Ev & Hv).
      * intros Hnone. rewrite Hnone in Hhas. discriminate Hhas.
      * exists v. split; [exact Ev|]. rewrite Hv. reflexivity.
    + intros Hhas. rewrite Hkept; [exact Hhas|].
      right. destruct (attr t (storage k)); [discriminate Hhas | reflexivity].
Qed.

Lemma foo_not_property : Soil_properties !! "foo" = None.
Proof. vm_compute. reflexivity. Qed.

Lemma foo_not_dunder : dunder "foo" = false.
Proof. reflexivity. Qed.

Lemma C5_witness_class : unshadowed Soil_new.
Proof. split; reflexivity. Qed.

Lemma C5_witness_bound (k : string) :
  In k Soil_inputs -> hasattr Soil_new k = Ok true ->
  exists v, dict_get mostly_None k = Some v.
Proof.
  intros Hin _. unfold Soil_inputs in Hin. simpl in Hin.
  repeat (destruct Hin as [<- | Hin]; [eexists; reflexivity|]).
  contradiction Hin.
Qed.

Lemma C5_witness_sat_weight : dict_get mostly_None "unit_sat_weight" <> Some None.
Proof. discriminate. Qed.

Lemma C5_witness_inputs : get_inputs Soil_new = Ok Soil_inputs.
Proof. reflexivity. Qed.

Lemma C5_witness_hidden :
  get_inputs (<["inputs" := Some 3]> Soil_new) = Raise TypeError.
Proof. reflexivity. Qed.

Lemma C5_bulk_load_witness :
  (add_to_obj [("foo", Some 1)] [] Soil_new = (Ok tt, <["foo" := Some 1]> Soil_new)
   /\ getattr (<["foo" := Some 1]> Soil_new) "foo" = Ok (Some 1))
  /\ set_assigns mostly_None Soil_inputs Soil_new
       (PhysicalObject.set mostly_None Soil_new)
  /\ PhysicalObject.set mostly_None (<["inputs" := Some 3]> Soil_new)
     = (Raise TypeError, <["inputs" := Some 3]> Soil_new)
  /\ exists t' : Soil,
       PhysicalObject.set mostly_None Soil_new = (Ok tt, t')
       /\ forall k, In k Soil_inputs ->
            (hasattr Soil_new k = Ok true ->
             exists v, dict_get mostly_None k = Some v /\ getattr t' k = Ok v)
            /\ (hasattr Soil_new k = Ok false -> hasattr t' k = Ok false).
Proof.
  destruct C5_bulk_load as (_ & Hnew & _ & Hrel & Hraise & Hsoil).
  split; [exact (Hnew Soil_new "foo" 1 foo_not_property foo_not_dunder)|].
  split; [exact (proj1 (Hrel Soil _ mostly_None Soil_new Soil_inputs C5_witness_inputs))|].
  split; [exact (Hraise Soil _ mostly_None _ TypeError C5_witness_hidden)|].
  exact (Hsoil mostly_None Soil_new C5_witness_class Soil_new_underived
           C5_witness_bound C5_witness_sat_weight).
Defined.

Lemma foo_absent : hasattr Soil_new "foo" = Ok false.
Proof. vm_compute. reflexivity. Qed.

Lemma set_all_None_returns :
  fst (PhysicalObject.set all_None (exec (assign [("phi", Some 30)]) Soil_new)) = Ok tt.
Proof. vm_compute. reflexivity. Qed.

Lemma set_all_None_phi :
  getattr (snd (PhysicalObject.set all_None
                  (exec (assign [("phi", Some 30)]) Soil_new))) "phi" = Ok None
  /\ getattr (exec (assign [("phi", Some 30)]) Soil_new) "phi" = Ok (Some 30).
Proof. vm_compute. split; reflexivity. Qed.

(** C5 as stated fails for both bulk loads.  [add_to_obj] given
    [{"foo": 1}] on [Soil()], which has no attribute [foo], binds [foo]
    instead of ignoring the key.  [set] given a mapping that binds every
    input to [None], on a Soil with [phi = 30], assigns [None] to [phi]
    instead of skipping the entry. *)
Lemma C5_counterexample :
  ~ C5_as_stated (fun d => add_to_obj d [])
  /\ ~ C5_as_stated PhysicalObject.set.
Proof.
  split.
  - intros [Hignored _].
    assert (Hload : add_to_obj [("foo", Some 1)] [] Soil_new
                    = (Ok tt, <["foo" := Some 1]> Soil_new)).
    { simpl. unfold bind, ret.
      change (setattr "foo" (Some 1) Soil_new) with (Soil_setattr "foo" (Some 1) Soil_new).
      rewrite Soil_setattr_plain by (apply foo_not_property || apply foo_not_dunder).
      reflexivity. }
    specialize (Hignored Soil_new (<["foo" := Some 1]> Soil_new)
                         [("foo", Some 1)] "foo" (Some 1) foo_absent eq_refl Hload).
    unfold hasattr in Hignored.
    change (getattr (<["foo" := Some 1]> Soil_new) "foo")
      with (Soil_getattr (<["foo" := Some 1]> Soil_new) "foo") in Hignored.
    rewrite (Soil_getattr_plain _ "foo" (Some 1)) in Hignored
      by (apply foo_not_property || apply foo_not_dunder || apply lookup_insert_eq).
    discriminate Hignored.
  - intros [_ Hskipped].
    pose proof set_all_None_returns as Hf.
    destruct set_all_None_phi as [Hafter Hbefore].
    destruct (PhysicalObject.set all_None (exec (assign [("phi", Some 30)]) Soil_new))
      as [o s'] eqn:E.
    cbn [fst snd] in Hf, Hafter. subst o.
    assert (Hd : dict_get all_None "phi" = Some None) by reflexivity.
    specialize (Hskipped _ _ _ _ Hd E).
    rewrite Hafter, Hbefore in Hskipped. discriminate Hskipped.
Qed.

(* ===================================================================== *)
(** * Further properties of the code                                      *)
(* ===================================================================== *)

(** ** The relative_density setter *)





(** ** The order of unit_dry_weight and specific_gravity *)

(** With [specific_gravity] set and [e_curr] unset (and [e_max] unset, so
    that the [e_curr] setter stores), assigning the dry weight derives
    [e_curr]. *)
Lemma set_unit_dry_weight_derives_e_curr (s : Soil) (g u pw : Q) (o : bool) :
  e_curr s = None -> specific_gravity s = Some g -> _pw s = Some pw ->
  e_max s = None ->
  set_unit_dry_weight (Some u) o s =
    if Qeq_bool u 0
    then (Raise ZeroDivisionError, <["_unit_dry_weight" := Some u]> s)
    else (Ok tt, <["_e_curr" := Some (g * pw / u - 1)]>
                   (<["_unit_dry_weight" := Some u]> s)).
Proof.
  intros He Hg Hpw Hmax. unfold set_unit_dry_weight. soil_run. cbn.
  destruct (Qeq_bool u 0); [reflexivity|]. cbn.
  rewrite set_e_curr_unchecked; [reflexivity|].
  left. unfold_getters. slots. exact Hmax.
Qed.

Lemma assign_gravity_then_dry_weight (g u : Q) :
  assign [("specific_gravity", Some g); ("unit_dry_weight", Some u)] Soil_new =
    (if Qeq_bool u 0 then Raise ZeroDivisionError else Ok tt,
     if Qeq_bool u 0
     then <["_unit_dry_weight" := Some u]> (<["_specific_gravity" := Some g]> Soil_new)
     else <["_e_curr" := Some (g * 1000 / u - 1)]>
            (<["_unit_dry_weight" := Some u]>
               (<["_specific_gravity" := Some g]> Soil_new))).
Proof.
  unfold assign, bind.
  rewrite Soil_setattr_specific_gravity, Soil_setattr_unit_dry_weight.
  rewrite set_specific_gravity_stored by reflexivity.
  rewrite (set_unit_dry_weight_derives_e_curr _ g u 1000);
    [| unfold_getters; slots; reflexivity ..].
  destruct (Qeq_bool u 0); reflexivity.
Qed.

Lemma assign_dry_weight_then_gravity (g u : Q) :
  assign [("unit_dry_weight", Some u); ("specific_gravity", Some g)] Soil_new =
    (Ok tt, <["_specific_gravity" := Some g]>
              (<["_unit_dry_weight" := Some u]> Soil_new)).
Proof.
  unfold assign, bind.
  rewrite Soil_setattr_unit_dry_weight, Soil_setattr_specific_gravity.
  rewrite set_unit_dry_weight_stored by reflexivity.
  rewrite set_specific_gravity_stored; [reflexivity|].
  unfold_getters. slots. reflexivity.
Qed.

(** X2.  On a fresh Soil the two assignments do not commute.
    [specific_gravity = g] then [unit_dry_weight = u] stores both and
    derives [e_curr = g * pw / u - 1]; with [u = 0] it raises
    [ZeroDivisionError] after both values are stored.
    [unit_dry_weight = u] then [specific_gravity = g] stores both and
    derives nothing: [e_curr] stays unset. *)
Theorem X2_assignment_order (g u : Q) :
  (~ u == 0 ->
   let r := assign [("specific_gravity", Some g); ("unit_dry_weight", Some u)]
                   Soil_new in
   fst r = Ok tt
   /\ specific_gravity (snd r) = Some g
   /\ unit_dry_weight (snd r) = Some u
   /\ e_curr (snd r) = Some (g * 1000 / u - 1))
  /\ (u == 0 ->
      let r := assign [("specific_gravity", Some g); ("unit_dry_weight", Some u)]
                      Soil_new in
      fst r = Raise ZeroDivisionError
      /\ specific_gravity (snd r) = Some g
      /\ unit_dry_weight (snd r) = Some u
      /\ e_curr (snd r) = None)
  /\ (let r := assign [("unit_dry_weight", Some u); ("specific_gravity", Some g)]
                      Soil_new in
      fst r = Ok tt
      /\ specific_gravity (snd r) = Some g
      /\ unit_dry_weight (snd r) = Some u
      /\ e_curr (snd r) = None).
Proof.
  split; [|split].
  - intros Hu r. unfold r. rewrite assign_gravity_then_dry_weight.
    destruct (Qeq_bool u 0) eqn:E; [apply Qeq_bool_iff in E; contradiction|].
    cbn [fst snd]. unfold_getters. slots. repeat split; reflexivity.
  - intros Hu r. unfold r. rewrite assign_gravity_then_dry_weight.
    assert (E : Qeq_bool u 0 = true) by (apply Qeq_bool_iff; exact Hu).
    rewrite E. cbn [fst snd]. unfold_getters. slots. repeat split; reflexivity.
  - intros r. unfold r. rewrite assign_dry_weight_then_gravity.
    cbn [fst snd]. unfold_getters. slots. repeat split; reflexivity.
Qed.

Lemma X2_witness_nonzero : ~ 16000 == 0.
Proof. discriminate. Qed.

Lemma X2_witness_zero : 0 == 0.
Proof. reflexivity. Qed.

Lemma X2_assignment_order_witness :
  e_curr (snd (assign [("specific_gravity", Some 24);
                       ("unit_dry_weight", Some 16000)] Soil_new))
  = Some (24 * 1000 / 16000 - 1)
  /\ fst (assign [("specific_gravity", Some 24); ("unit_dry_weight", Some 0)]
                 Soil_new) = Raise ZeroDivisionError.
Proof.
  destruct (X2_assignment_order 24 16000) as (H1 & _ & _).
  destruct (X2_assignment_order 24 0) as (_ & H2 & _).
  destruct (H1 X2_witness_nonzero) as (_ & _ & _ & He).
  destruct (H2 X2_witness_zero) as (Hz & _).
  split; [exact He | exact Hz].
Defined.






(** ** The override flag *)







(** ** The unit_sat_weight setter *)

Lemma Soil_getattr_unit_weight (s : Soil) :
  Soil_getattr s "unit_weight" = Ok (unit_weight s).
Proof. reflexivity. Qed.




Lemma Qeq_bool_false_of (a b : Q) : ~ a == b -> Qeq_bool a b = false.
Proof.
  intros H. destruct (Qeq_bool a b) eqn:E; [|reflexivity].
  apply Qeq_bool_iff in E. contradiction.
Qed.

(** The cascade of the [unit_sat_weight] setter on a Soil that holds only
    [unit_dry_weight = u] and [e_curr = e]. *)
Lemma set_unit_sat_weight_cascade (e u w : Q) :
  ~ 1 + e == 0 -> ~ e / (1 + e) == 0 ->
  let s0 := <["_e_curr" := Some e]> (<["_unit_dry_weight" := Some u]> Soil_new) in
  let sat := (w - u) / 1000 / (e / (1 + e)) in
  set_unit_sat_weight (Some w) s0 =
    if Qeq_bool sat 0
    then (Raise ZeroDivisionError,
          <["_saturation" := Some sat]> (<["_unit_sat_weight" := Some w]> s0))
    else (Ok tt,
          <["_specific_gravity" := Some ((1 + e) * (w - (w - u)) / 1000)]>
            (<["_unit_dry_weight" := Some (w - (w - u))]>
               (<["_saturation" := Some sat]>
                  (<["_unit_sat_weight" := Some w]> s0)))).
Proof.
  intros He1 Hv s0 sat.
  assert (Ee : Qeq_bool (1 + e) 0 = false) by (apply Qeq_bool_false_of; exact He1).
  assert (Ev : Qeq_bool (e / (1 + e)) 0 = false) by (apply Qeq_bool_false_of; exact Hv).
  assert (Hpw : slot Soil_new "_pw" = Some 1000) by reflexivity.
  assert (Hsat : slot Soil_new "_saturation" = None) by reflexivity.
  assert (Hsg : slot Soil_new "_specific_gravity" = None) by reflexivity.
  unfold set_unit_sat_weight, _unit_moisture_weight, _unit_void_volume, s0.
  soil_run. cbn. rewrite Ee. cbn. soil_run. cbn.
  change (Qeq_bool 1000 0) with false. cbn. soil_run. cbn.
  rewrite Ee. cbn. rewrite Ev. cbn. unfold set_saturation. soil_run. cbn.
  fold sat. destruct (Qeq_bool sat 0); [reflexivity|]. cbn. soil_run. cbn.
  unfold set_unit_dry_weight. soil_run. cbn.
  change (Qeq_bool 1000 0) with false. cbn. reflexivity.
Qed.

Lemma assign_dry_weight_then_e_curr (u e : Q) :
  assign [("unit_dry_weight", Some u); ("e_curr", Some e)] Soil_new =
    (Ok tt, <["_e_curr" := Some e]> (<["_unit_dry_weight" := Some u]> Soil_new)).
Proof.
  unfold assign, bind.
  rewrite Soil_setattr_unit_dry_weight, Soil_setattr_e_curr.
  rewrite set_unit_dry_weight_stored by reflexivity.
  rewrite set_e_curr_unchecked; [reflexivity|].
  left. unfold_getters. slots. reflexivity.
Qed.

(** X6.  The cascade of the [unit_sat_weight] setter on a Soil that holds
    only [unit_dry_weight = u] and [e_curr = e], where [1 + e] and the void
    volume [e / (1 + e)] are not zero.  Assigning [unit_sat_weight = w]
    stores [w] and then the saturation
    [sat = (w - u) / pw / (e / (1 + e))].  When [sat] is zero the
    assignment raises [ZeroDivisionError] there, with both stored.
    Otherwise it returns after re-assigning the dry weight as
    [w - (w - u)], which makes the dry-weight setter store
    [specific_gravity = (1 + e) * (w - (w - u)) / pw]; [unit_weight] then
    reads the saturated weight. *)
Theorem X6_unit_sat_weight_cascade (e u w : Q) :
  ~ 1 + e == 0 -> ~ e / (1 + e) == 0 ->
  let s0 := exec (assign [("unit_dry_weight", Some u); ("e_curr", Some e)]) Soil_new in
  let r := Soil_setattr "unit_sat_weight" (Some w) s0 in
  let sat := (w - u) / 1000 / (e / (1 + e)) in
  (~ sat == 0 ->
   fst r = Ok tt
   /\ unit_sat_weight (snd r) = Some w
   /\ saturation (snd r) = Some sat
   /\ unit_dry_weight (snd r) = Some (w - (w - u))
   /\ specific_gravity (snd r) = Some ((1 + e) * (w - (w - u)) / 1000)
   /\ unit_weight (snd r) = Some w)
  /\ (sat == 0 ->
      fst r = Raise ZeroDivisionError
      /\ unit_sat_weight (snd r) = Some w
      /\ saturation (snd r) = Some sat
      /\ unit_dry_weight (snd r) = Some u
      /\ specific_gravity (snd r) = None).
Proof.
  intros He1 Hv s0 r sat.
  assert (Hr : r = set_unit_sat_weight (Some w)
                     (<["_e_curr" := Some e]> (<["_unit_dry_weight" := Some u]> Soil_new))).
  { unfold r, s0, exec. rewrite assign_dry_weight_then_e_curr.
    rewrite Soil_setattr_unit_sat_weight. reflexivity. }
  rewrite Hr, (set_unit_sat_weight_cascade e u w He1 Hv). cbv zeta. fold sat.
  split; intros Hsat.
  - rewrite (Qeq_bool_false_of sat 0 Hsat). cbn [fst snd].
    split; [reflexivity|].
    split; [unfold_getters; slots; reflexivity|].
    split; [unfold_getters; slots; reflexivity|].
    split; [unfold_getters; slots; reflexivity|].
    split; [unfold_getters; slots; reflexivity|].
    unfold unit_weight. unfold_getters. slots. unfold truthy.
    rewrite (Qeq_bool_false_of sat 0 Hsat). reflexivity.
  - rewrite (proj2 (Qeq_bool_iff sat 0) Hsat). cbn [fst snd].
    split; [reflexivity|].
    split; [unfold_getters; slots; reflexivity|].
    split; [unfold_getters; slots; reflexivity|].
    split; unfold_getters; slots; reflexivity.
Qed.

Lemma X6_witness_e : ~ 1 + (1#2) == 0.
Proof. discriminate. Qed.

Lemma X6_witness_void : ~ (1#2) / (1 + (1#2)) == 0.
Proof. discriminate. Qed.

Lemma X6_witness_w : ~ (19000 - 16000) / 1000 / ((1#2) / (1 + (1#2))) == 0.
Proof. discriminate. Qed.

Lemma X6_witness_zero : (16000 - 16000) / 1000 / ((1#2) / (1 + (1#2))) == 0.
Proof. reflexivity. Qed.

Lemma X6_unit_sat_weight_witness :
  let s0 := exec (assign [("unit_dry_weight", Some 16000); ("e_curr", Some (1#2))])
                 Soil_new in
  fst (Soil_setattr "unit_sat_weight" (Some 19000) s0) = Ok tt
  /\ unit_weight (snd (Soil_setattr "unit_sat_weight" (Some 19000) s0)) = Some 19000
  /\ fst (Soil_setattr "unit_sat_weight" (Some 16000) s0) = Raise ZeroDivisionError.
Proof.
  intros s0.
  destruct (X6_unit_sat_weight_cascade (1#2) 16000 19000 X6_witness_e X6_witness_void)
    as (H1 & _).
  destruct (X6_unit_sat_weight_cascade (1#2) 16000 16000 X6_witness_e X6_witness_void)
    as (_ & H2).
  destruct (H1 X6_witness_w) as (Hok & _ & _ & _ & _ & Huw).
  destruct (H2 X6_witness_zero) as (Hz & _).
  split; [exact Hok | split; [exact Huw | exact Hz]].
Defined.

(** ** Derived quantities *)

(** X7.  [porosity] is [e_curr / (1 + e_curr)]: for a set, non-negative
    void ratio it returns that number, which lies between 0 and 1; it
    raises [TypeError] while [e_curr] is unset and [ZeroDivisionError]
    when [1 + e_curr] is zero. *)
Theorem X7_porosity_range (s : Soil) :
  (forall e : Q, e_curr s = Some e -> 0 <= e ->
     porosity s = Ok (Some (e / (1 + e)))
     /\ 0 <= e / (1 + e) /\ e / (1 + e) <= 1)
  /\ (e_curr s = None -> porosity s = Raise TypeError)
  /\ (forall e : Q, e_curr s = Some e -> 1 + e == 0 ->
        porosity s = Raise ZeroDivisionError).
Proof.
  unfold porosity. split; [|split].
  - intros e He H0. rewrite He. cbn.
    rewrite Qeq_bool_false_of by lra. cbn.
    split; [reflexivity|].
    assert (H1 : 0 < 1 + e) by lra.
    split.
    + apply Qle_shift_div_l; [exact H1 | lra].
    + apply Qle_shift_div_r; [exact H1 | lra].
  - intros He. rewrite He. reflexivity.
  - intros e He Hz. rewrite He. cbn.
    assert (E : Qeq_bool (1 + e) 0 = true) by (apply Qeq_bool_iff; exact Hz).
    rewrite E. reflexivity.
Qed.

Lemma X7_witness_e_curr :
  e_curr (exec (assign [("e_curr", Some (1#2))]) Soil_new) = Some (1#2).
Proof. vm_compute. reflexivity. Qed.

Lemma X7_witness_sign : 0 <= 1#2.
Proof. discriminate. Qed.

Lemma X7_porosity_witness :
  porosity (exec (assign [("e_curr", Some (1#2))]) Soil_new)
  = Ok (Some ((1#2) / (1 + (1#2))))
  /\ 0 <= (1#2) / (1 + (1#2)) /\ (1#2) / (1 + (1#2)) <= 1.
Proof.
  destruct (X7_porosity_range (exec (assign [("e_curr", Some (1#2))]) Soil_new))
    as (H & _).
  exact (H (1#2) X7_witness_e_curr X7_witness_sign).
Defined.

(** ** Layers: lookup, count and round trip *)

Lemma od_get_insert (x : Q * Soil) (l : list (Q * Soil)) (d : Q) :
  Forall (fun y => ~ fst y == fst x) l ->
  od_get Qeq_bool (insert_by_depth x l) d = od_get Qeq_bool (x :: l) d.
Proof.
  induction l as [|y l IH]; intros Hne; [reflexivity|].
  inversion Hne as [|? ? Hy Hl]; subst. simpl.
  destruct (Qle_bool (fst x) (fst y)); [reflexivity|].
  destruct x as [kx vx], y as [ky vy]. simpl in *.
  rewrite (IH Hl). simpl.
  destruct (Qeq_bool ky d) eqn:Ey, (Qeq_bool kx d) eqn:Ex; try reflexivity.
  apply Qeq_bool_iff in Ey, Ex. exfalso. apply Hy. rewrite Ey, Ex. reflexivity.
Qed.

Lemma od_get_sorted (l : list (Q * Soil)) (d : Q) :
  distinct_depths l -> od_get Qeq_bool (sorted l) d = od_get Qeq_bool l d.
Proof.
  induction l as [|x l IH]; simpl; [reflexivity|].
  intros [Hx Hl]. rewrite od_get_insert.
  - destruct x as [kx vx]. simpl. rewrite (IH Hl). reflexivity.
  - apply List.Forall_forall. intros y Hy. apply (proj1 (sorted_In _ _)) in Hy.
    rewrite List.Forall_forall in Hx. apply Hx. exact Hy.
Qed.

Lemma od_get_od_set_same (l : list (Q * Soil)) (d : Q) (s : Soil) :
  od_get Qeq_bool (od_set Qeq_bool l d s) d = Some s.
Proof.
  induction l as [|[k v] l IH]; simpl.
  - rewrite Qeq_bool_refl. reflexivity.
  - destruct (Qeq_bool k d) eqn:E; simpl; rewrite E; [reflexivity | exact IH].
Qed.

Lemma length_insert_by_depth (x : Q * Soil) (l : list (Q * Soil)) :
  length (insert_by_depth x l) = S (length l).
Proof.
  induction l as [|y l IH]; simpl; [reflexivity|].
  destruct (Qle_bool (fst x) (fst y)); simpl; [reflexivity | rewrite IH; reflexivity].
Qed.

Lemma length_sorted (l : list (Q * Soil)) : length (sorted l) = length l.
Proof.
  induction l as [|x l IH]; simpl; [reflexivity|].
  rewrite length_insert_by_depth, IH. reflexivity.
Qed.

Lemma length_od_set (l : list (Q * Soil)) (d : Q) (s : Soil) :
  length (od_set Qeq_bool l d s)
  = match od_get Qeq_bool l d with
    | Some _ => length l
    | None => S (length l)
    end.
Proof.
  induction l as [|[k v] l IH]; simpl; [reflexivity|].
  destruct (Qeq_bool k d); simpl; [reflexivity|].
  rewrite IH. destruct (od_get Qeq_bool l d); reflexivity.
Qed.

(** X8.  On a profile with ascending depths, [add_layer(depth, soil)]
    never raises; afterwards the depths are still ascending, [depth] maps
    to [soil], every other depth maps to what it did, and the number of
    layers is unchanged when [depth] was present and one more when it was
    not. *)
Theorem X8_add_layer_lookup (p : SoilProfile) (depth : Q) (soil : Soil) :
  ascending (depths p) ->
  let p' := exec (add_layer depth soil) p in
  fst (add_layer depth soil p) = Ok tt
  /\ ascending (depths p')
  /\ od_get Qeq_bool (layers p') depth = Some soil
  /\ (forall d' : Q, ~ d' == depth ->
        od_get Qeq_bool (layers p') d' = od_get Qeq_bool (layers p) d')
  /\ n_layers p' = match od_get Qeq_bool (layers p) depth with
                   | Some _ => n_layers p
                   | None => S (n_layers p)
                   end.
Proof.
  intros Hasc p'.
  assert (Hd : distinct_depths (od_set Qeq_bool (_layers p) depth soil))
    by (apply od_set_distinct, ascending_distinct; exact Hasc).
  assert (Hl : layers p' = sorted (od_set Qeq_bool (_layers p) depth soil))
    by reflexivity.
  split; [reflexivity|]. split; [apply add_layer_ascending; exact Hasc|].
  split; [|split].
  - rewrite Hl, od_get_sorted by exact Hd. apply od_get_od_set_same.
  - intros d' Hne. rewrite Hl, od_get_sorted by exact Hd.
    apply od_get_od_set_other. exact Hne.
  - unfold n_layers. fold (layers p'). rewrite Hl, length_sorted.
    apply length_od_set.
Qed.

Lemma X8_add_layer_witness :
  let p' := exec (add_layer 5 Soil_new) SoilProfile_new in
  od_get Qeq_bool (layers p') 5 = Some Soil_new /\ n_layers p' = 2%nat.
Proof.
  destruct (X8_add_layer_lookup SoilProfile_new 5 Soil_new SoilProfile_new_ascending)
    as (_ & _ & Hget & _ & Hn).
  split; [exact Hget | exact Hn].
Defined.

Lemma od_del_get (l l' : list (Q * Soil)) (d : Q) :
  distinct_depths l -> od_del Qeq_bool l d = Some l' ->
  od_get Qeq_bool l' d = None
  /\ (forall d' : Q, ~ d' == d -> od_get Qeq_bool l' d' = od_get Qeq_bool l d')
  /\ length l = S (length l').
Proof.
  revert l'. induction l as [|[k v] l IH]; simpl; intros l' Hd Hdel.
  - discriminate Hdel.
  - destruct Hd as [Hk Hl]. destruct (Qeq_bool k d) eqn:E.
    + injection Hdel as <-. apply Qeq_bool_iff in E.
      split; [|split; [|reflexivity]].
      * clear IH Hl. induction l as [|[k' v'] l IHl]; simpl; [reflexivity|].
        inversion Hk as [|? ? Hk' Hkl]; subst. simpl in Hk'.
        rewrite Qeq_bool_false_of by (intros H; apply Hk'; rewrite H, E; reflexivity).
        apply IHl. exact Hkl.
      * intros d' Hne.
        rewrite Qeq_bool_false_of by (intros H; apply Hne; rewrite <- H, E; reflexivity).
        reflexivity.
    + destruct (od_del Qeq_bool l d) as [r|] eqn:Er; [|discriminate Hdel].
      injection Hdel as <-. destruct (IH r Hl eq_refl) as (H1 & H2 & H3).
      simpl. rewrite E. split; [exact H1|]. split.
      * intros d' Hne. rewrite (H2 d' Hne). reflexivity.
      * rewrite H3. reflexivity.
Qed.

(** X10.  On a profile with ascending depths, a [remove_layer(depth)] that
    finds the depth raises nothing; afterwards no layer is at [depth],
    every other depth maps to what it did, there is one layer fewer and
    the depths are still ascending.  When it raises [KeyError] the profile
    is unchanged. *)
Theorem X10_remove_layer_lookup (p : SoilProfile) (depth : Q) :
  ascending (depths p) ->
  let p' := exec (remove_layer depth) p in
  (od_get Qeq_bool (layers p) depth <> None ->
   fst (remove_layer depth p) = Ok tt
   /\ ascending (depths p')
   /\ od_get Qeq_bool (layers p') depth = None
   /\ (forall d' : Q, ~ d' == depth ->
         od_get Qeq_bool (layers p') d' = od_get Qeq_bool (layers p) d')
   /\ n_layers p = S (n_layers p'))
  /\ (od_get Qeq_bool (layers p) depth = None ->
      remove_layer depth p = (Raise KeyError, p)).
Proof.
  intros Hasc p'. split.
  - intros Hin. unfold p', exec, remove_layer, layers in *.
    destruct (od_del Qeq_bool (_layers p) depth) as [l|] eqn:E.
    + cbn [fst snd]. simpl.
      destruct (od_del_get _ _ _ (ascending_distinct _ Hasc) E) as (H1 & H2 & H3).
      split; [reflexivity|]. split; [eapply od_del_ascending; eauto|].
      split; [exact H1|]. split; [exact H2 | exact H3].
    + apply od_del_None_iff in E. contradiction.
  - intros Hout. unfold remove_layer. unfold layers in Hout.
    apply od_del_None_iff in Hout. rewrite Hout. reflexivity.
Qed.

Lemma X10_witness_present : od_get Qeq_bool (layers SoilProfile_new) 0 <> None.
Proof. discriminate. Qed.

Lemma X10_remove_layer_witness :
  fst (remove_layer 0 SoilProfile_new) = Ok tt
  /\ n_layers SoilProfile_new = S (n_layers (exec (remove_layer 0) SoilProfile_new)).
Proof.
  destruct (X10_remove_layer_lookup SoilProfile_new 0 SoilProfile_new_ascending)
    as (H & _).
  destruct (H X10_witness_present) as (Hok & _ & _ & _ & Hn).
  split; [exact Hok | exact Hn].
Defined.

Lemma od_set_absent_app (l : list (Q * Soil)) (d : Q) (s : Soil) :
  od_get Qeq_bool l d = None -> od_set Qeq_bool l d s = l ++ [(d, s)].
Proof.
  induction l as [|[k v] l IH]; simpl; [reflexivity|].
  destruct (Qeq_bool k d); [discriminate|].
  intros H. rewrite (IH H). reflexivity.
Qed.

Lemma od_get_None_keys (l : list (Q * Soil)) (d : Q) (s : Soil) :
  od_get Qeq_bool l d = None -> Forall (fun y => ~ fst y == fst (d, s)) l.
Proof.
  induction l as [|[k v] l IH]; simpl; intros H; [constructor|].
  destruct (Qeq_bool k d) eqn:E; [discriminate H|].
  constructor; [apply Qeq_bool_neq; exact E | apply IH; exact H].
Qed.

Lemma insert_before_all (x : Q * Soil) (l : list (Q * Soil)) :
  Forall (fun y => fst x <= fst y) l -> insert_by_depth x l = x :: l.
Proof.
  destruct l as [|y l]; [reflexivity|]. intros H.
  inversion H as [|? ? Hy _]; subst. simpl.
  apply Qle_bool_iff in Hy. rewrite Hy. reflexivity.
Qed.

(** Sorting an ascending mapping to which a new depth was appended puts
    the new entry at its place and leaves the others in order. *)
Lemma sorted_app_one (x : Q * Soil) (l : list (Q * Soil)) :
  ascending (map fst l) -> Forall (fun y => ~ fst y == fst x) l ->
  sorted (l ++ [x]) = insert_by_depth x l.
Proof.
  unfold ascending.
  induction l as [|y l IH]; intros Hasc Hne; [reflexivity|].
  simpl in Hasc. inversion Hasc as [|? ? Hl Hy]; subst.
  inversion Hne as [|? ? Hxy Hne']; subst.
  simpl. rewrite (IH Hl Hne').
  assert (Hyl : Forall (fun z => fst y <= fst z) l).
  { apply List.Forall_forall. intros z Hz. rewrite List.Forall_forall in Hy.
    apply Qlt_le_weak, Hy, in_map, Hz. }
  destruct (Qle_bool (fst x) (fst y)) eqn:E.
  - apply Qle_bool_iff in E.
    assert (Hlt : fst x < fst y).
    { apply Qle_lteq in E. destruct E as [E|E]; [exact E|].
      exfalso. apply Hxy. symmetry. exact E. }
    rewrite (insert_before_all x l).
    + assert (Eyx : Qle_bool (fst y) (fst x) = false).
      { destruct (Qle_bool (fst y) (fst x)) eqn:Eyx; [|reflexivity].
        apply Qle_bool_iff in Eyx. exfalso. lra. }
      simpl. rewrite Eyx.
      rewrite (insert_before_all y l Hyl). reflexivity.
    + eapply List.Forall_impl; [|exact Hyl]. intros z Hz. cbv beta in Hz. lra.
  - assert (Hlt : fst y < fst x).
    { apply Qnot_le_lt. intros H. apply Qle_bool_iff in H. congruence. }
    apply insert_before_all.
    apply List.Forall_forall. intros z Hz.
    apply (proj1 (insert_by_depth_In _ _ _)) in Hz. destruct Hz as [-> | Hz].
    + lra.
    + rewrite List.Forall_forall in Hyl. apply Hyl. exact Hz.
Qed.

Lemma od_del_insert (x : Q * Soil) (l : list (Q * Soil)) :
  Forall (fun y => ~ fst y == fst x) l ->
  od_del Qeq_bool (insert_by_depth x l) (fst x) = Some l.
Proof.
  destruct x as [d s]. simpl.
  induction l as [|[k v] l IH]; intros Hne; simpl.
  - rewrite Qeq_bool_refl. reflexivity.
  - inversion Hne as [|? ? Hk Hl]; subst. simpl in Hk.
    destruct (Qle_bool d k); simpl.
    + rewrite Qeq_bool_refl. reflexivity.
    + rewrite (Qeq_bool_false_of k d Hk), (IH Hl). reflexivity.
Qed.

(** X9.  On a profile with ascending depths, adding a layer at a depth
    that has none and then removing the layer at that depth gives back the
    profile as it was, and neither call raises. *)
Theorem X9_add_then_remove (p : SoilProfile) (depth : Q) (soil : Soil) :
  ascending (depths p) -> od_get Qeq_bool (layers p) depth = None ->
  (add_layer depth soil ;; remove_layer depth)%pym p = (Ok tt, p).
Proof.
  intros Hasc Habs. unfold layers in Habs.
  unfold bind, add_layer, _sort_layers, remove_layer, bind. simpl.
  rewrite (od_set_absent_app _ _ soil Habs).
  pose proof (od_get_None_keys _ _ soil Habs) as Hne.
  rewrite (sorted_app_one (depth, soil) _ Hasc Hne).
  pose proof (od_del_insert (depth, soil) _ Hne) as Hdel.
  cbn [fst] in Hdel. rewrite Hdel.
  destruct p; reflexivity.
Qed.

Lemma X9_witness_absent : od_get Qeq_bool (layers SoilProfile_new) 5 = None.
Proof. reflexivity. Qed.

Lemma X9_add_then_remove_witness :
  (add_layer 5 Soil_new ;; remove_layer 5)%pym SoilProfile_new
  = (Ok tt, SoilProfile_new).
Proof.
  exact (X9_add_then_remove SoilProfile_new 5 Soil_new SoilProfile_new_ascending
           X9_witness_absent).
Defined.

(** ** Positional accessors *)

Lemma index_map {A B} (f : A -> B) (l : list A) (i : nat) :
  index (map f l) i = match nth_error l i with
                      | Some a => Ok (f a)
                      | None => Raise IndexError
                      end.
Proof. unfold index. rewrite nth_error_map. destruct (nth_error l i); reflexivity. Qed.

Lemma ascending_nth (l : list Q) (i j : nat) (a b : Q) :
  ascending l -> (i < j)%nat -> nth_error l i = Some a -> nth_error l j = Some b ->
  a < b.
Proof.
  unfold ascending. intros Hasc. revert i j.
  induction Hasc as [|x l Hl IH Hx]; intros i j Hij Hi Hj.
  - destruct i; discriminate Hi.
  - destruct j as [|j]; [lia|]. simpl in Hj.
    destruct i as [|i]; simpl in Hi.
    + injection Hi as <-. rewrite List.Forall_forall in Hx.
      apply Hx. eapply nth_error_In. exact Hj.
    + apply (IH i j); [lia | exact Hi | exact Hj].
Qed.

(** X11.  [layer(i)] and [layer_depth(i)], for an index counted from the
    top: below the number of layers they return the soil and the depth of
    the same entry of the mapping, at or beyond it both raise
    [IndexError]; on ascending depths a larger index has a larger depth. *)
Theorem X11_positional_accessors (p : SoilProfile) :
  (forall i : nat, (i < n_layers p)%nat ->
     exists d s, nth_error (layers p) i = Some (d, s)
                 /\ layer_depth p i = Ok d /\ layer p i = Ok s)
  /\ (forall i : nat, (n_layers p <= i)%nat ->
        layer_depth p i = Raise IndexError /\ layer p i = Raise IndexError)
  /\ (ascending (depths p) ->
      forall (i j : nat) (di dj : Q), (i < j)%nat ->
        layer_depth p i = Ok di -> layer_depth p j = Ok dj -> di < dj).
Proof.
  unfold layer_depth, layer, depths, n_layers, layers.
  split; [|split].
  - intros i Hi. rewrite !index_map.
    destruct (nth_error (_layers p) i) as [[d s]|] eqn:E.
    + exists d, s. repeat split.
    + apply nth_error_None in E. lia.
  - intros i Hi. rewrite !index_map.
    apply nth_error_None in Hi. rewrite Hi. split; reflexivity.
  - intros Hasc i j di dj Hij Hi Hj. unfold index in Hi, Hj.
    destruct (nth_error (map fst (_layers p)) i) as [a|] eqn:Ei; [|discriminate Hi].
    destruct (nth_error (map fst (_layers p)) j) as [b|] eqn:Ej; [|discriminate Hj].
    injection Hi as <-. injection Hj as <-.
    exact (ascending_nth _ i j a b Hasc Hij Ei Ej).
Qed.

Lemma X11_witness_bound : (1 < n_layers scenario_profile)%nat.
Proof.
  unfold n_layers. rewrite scenario_layers. simpl. lia.
Qed.

Lemma X11_positional_witness :
  exists d s, nth_error (layers scenario_profile) 1 = Some (d, s)
              /\ layer_depth scenario_profile 1 = Ok d
              /\ layer scenario_profile 1 = Ok s.
Proof.
  destruct (X11_positional_accessors scenario_profile) as (H & _).
  exact (H 1%nat X11_witness_bound).
Defined.

(** ** Stress on several depths, and the error paths *)

(** X12.  [vertical_total_stress] on a sequence of depths returns, in the
    same order, what [one_vertical_total_stress] returns at each depth; it
    raises as soon as one depth raises. *)
Theorem X12_total_stress_array (p : SoilProfile) (z : list Q) :
  (forall l : list Q, vertical_total_stress_array p z = Ok l ->
     Forall2 (fun z_c sigma => one_vertical_total_stress p z_c = Ok sigma) z l)
  /\ (forall l : list Q,
        Forall2 (fun z_c sigma => one_vertical_total_stress p z_c = Ok sigma) z l ->
        vertical_total_stress_array p z = Ok l)
  /\ (forall e : exn, vertical_total_stress_array p z = Raise e ->
        exists z_c, In z_c z /\ one_vertical_total_stress p z_c = Raise e).
Proof.
  induction z as [|z_c z IH]; simpl.
  - split; [|split].
    + intros l H. injection H as <-. constructor.
    + intros l H. inversion H. reflexivity.
    + intros e H. discriminate H.
  - destruct IH as (IH1 & IH2 & IH3).
    destruct (one_vertical_total_stress p z_c) as [sigma|e0] eqn:E; cbn [obind].
    + destruct (vertical_total_stress_array p z) as [rest|e1]; cbn [obind].
      * split; [|split].
        -- intros l H. injection H as <-. constructor; [exact E | apply IH1; reflexivity].
        -- intros l H. inversion H as [|? y ? l' Hy Hl']; subst.
           rewrite E in Hy. injection Hy as <-.
           apply IH2 in Hl'. injection Hl' as <-. reflexivity.
        -- intros e H. discriminate H.
      * split; [|split].
        -- intros l H. discriminate H.
        -- intros l H. inversion H as [|? y ? l' Hy Hl']; subst.
           apply IH2 in Hl'. discriminate Hl'.
        -- intros e H. injection H as <-.
           destruct (IH3 e1 eq_refl) as (z' & Hin & Hz'). exists z'. auto.
    + split; [|split].
      * intros l H. discriminate H.
      * intros l H. inversion H as [|? y ? l' Hy Hl']; subst.
        rewrite E in Hy. discriminate Hy.
      * intros e H. injection H as <-. exists z_c. auto.
Qed.

Lemma X12_witness_array :
  vertical_total_stress_array scenario_profile [3; 7; 0] = Ok [54000; 128000; 0].
Proof. vm_compute. reflexivity. Qed.

Lemma X12_total_stress_witness :
  Forall2 (fun z_c sigma => one_vertical_total_stress scenario_profile z_c = Ok sigma)
          [3; 7; 0] [54000; 128000; 0].
Proof.
  destruct (X12_total_stress_array scenario_profile [3; 7; 0]) as (H & _).
  exact (H _ X12_witness_array).
Defined.

Lemma add_weight_unset (soil : Soil) (h t : Q) :
  unit_weight soil = None -> add_weight soil h t = Raise TypeError.
Proof. intros Hw. unfold add_weight. rewrite Hw. reflexivity. Qed.

Lemma stress_from_unweighted (pre rest : list (Q * Soil)) (d : Q) (s : Soil) (z : Q) :
  ascending (map fst (pre ++ (d, s) :: rest)) -> weighted pre ->
  unit_weight s = None -> d < z ->
  forall t : Q, stress_from (pre ++ (d, s) :: rest) z t = Raise TypeError.
Proof.
  unfold ascending, weighted. intros Hasc Hw Hs Hz.
  assert (Ez : Qgt_bool z d = true) by (apply Qgt_bool_true; exact Hz).
  induction pre as [|[d0 s0] pre IH]; intros t.
  - simpl. rewrite Ez.
    destruct rest as [|[d' s'] rest'].
    + apply add_weight_unset. exact Hs.
    + destruct (Qgt_bool z d'); rewrite add_weight_unset by exact Hs; reflexivity.
  - simpl in Hasc. inversion Hasc as [|? ? Hl Hd0]; subst.
    inversion Hw as [|? ? (w & Hw0 & _) Hw']; subst. simpl in Hw0.
    assert (Hd0d : d0 < d).
    { rewrite List.Forall_forall in Hd0. apply Hd0.
      rewrite map_app. apply in_or_app. right. left. reflexivity. }
    assert (E0 : Qgt_bool z d0 = true) by (apply Qgt_bool_true; lra).
    change (((d0, s0) :: pre) ++ (d, s) :: rest)
      with ((d0, s0) :: (pre ++ (d, s) :: rest)).
    cbn [stress_from]. rewrite E0.
    assert (Hhead : forall d1 s1 tail,
              pre ++ (d, s) :: rest = (d1, s1) :: tail -> d1 <= d).
    { intros d1 s1 tail Etail. destruct pre as [|[d2 s2] pre'].
      - injection Etail as <- _ _. lra.
      - injection Etail as <- _ _. simpl in Hl.
        inversion Hl as [|? ? _ Hd2]; subst.
        rewrite List.Forall_forall in Hd2. apply Qlt_le_weak, Hd2.
        rewrite map_app. apply in_or_app. right. left. reflexivity. }
    destruct (pre ++ (d, s) :: rest) as [|[d1 s1] tail] eqn:Etail.
    + destruct pre; discriminate Etail.
    + pose proof (Hhead d1 s1 tail eq_refl) as Hd1.
      assert (E1 : Qgt_bool z d1 = true) by (apply Qgt_bool_true; lra).
      rewrite E1, (add_weight_set s0 w) by exact Hw0. cbn [obind].
      apply (IH Hl Hw').
Qed.

(** X13.  The error paths of the stress functions.  When a layer has no
    unit weight (the layers above it having one), the total stress raises
    [TypeError] at every depth below the top of that layer; in particular
    [SoilProfile()], whose only layer is an empty Soil at depth 0, raises
    at every positive depth.  While [gwl] is unset the effective stress
    raises [TypeError] wherever the total stress returns. *)
Theorem X13_stress_error_paths (p : SoilProfile) (z : Q) :
  (forall (pre rest : list (Q * Soil)) (d : Q) (s : Soil),
     layers p = pre ++ (d, s) :: rest -> ascending (depths p) -> weighted pre ->
     unit_weight s = None -> d < z ->
     one_vertical_total_stress p z = Raise TypeError)
  /\ (forall sigma : Q, gwl p = None -> vertical_total_stress p z = Ok sigma ->
        vertical_effective_stress p z = Raise TypeError).
Proof.
  split.
  - intros pre rest d s Hl Hasc Hw Hs Hz. unfold layers, depths in *.
    rewrite one_vertical_total_stress_from, Hl.
    apply stress_from_unweighted; try assumption. rewrite <- Hl. exact Hasc.
  - intros sigma Hg Hv. unfold vertical_effective_stress. rewrite Hv, Hg. reflexivity.
Qed.

Lemma X13_witness_weighted : weighted [].
Proof. constructor. Qed.

Lemma X13_witness_below : 0 < 1.
Proof. reflexivity. Qed.

Lemma X13_witness_total : vertical_total_stress SoilProfile_new 0 = Ok 0.
Proof. reflexivity. Qed.

Lemma X13_stress_error_witness :
  one_vertical_total_stress SoilProfile_new 1 = Raise TypeError
  /\ vertical_effective_stress SoilProfile_new 0 = Raise TypeError.
Proof.
  destruct (X13_stress_error_paths SoilProfile_new 1) as (H1 & _).
  destruct (X13_stress_error_paths SoilProfile_new 0) as (_ & H2).
  split.
  - exact (H1 [] [] 0 Soil_new eq_refl SoilProfile_new_ascending X13_witness_weighted
              eq_refl X13_witness_below).
  - exact (H2 0 eq_refl X13_witness_total).
Defined.

(** ** The crust of a profile *)

(** X14.  [crust_effective_unit_weight] returns [None] for a profile with
    at most one layer.  With at least two layers, the first of unit weight
    [w] and the second at depth [h], and [gwl = g], it raises
    [ZeroDivisionError] when [h = 0] and otherwise returns
    [(h * w - (h - g) * unit_weight_water) / h]. *)
Theorem X14_crust_effective_unit_weight (p : SoilProfile) :
  ((n_layers p <= 1)%nat -> crust_effective_unit_weight p = Ok None)
  /\ (forall (d0 h w g : Q) (s0 s1 : Soil) (rest : list (Q * Soil)),
        layers p = (d0, s0) :: (h, s1) :: rest ->
        unit_weight s0 = Some w -> gwl p = Some g ->
        (h == 0 -> crust_effective_unit_weight p = Raise ZeroDivisionError)
        /\ (~ h == 0 ->
            crust_effective_unit_weight p
            = Ok (Some ((h * w - (h - g) * unit_weight_water p) / h)))).
Proof.
  split.
  - intros Hn. unfold crust_effective_unit_weight, n_layers, layers in *.
    destruct (1 <? length (_layers p))%nat eqn:E; [|reflexivity].
    apply Nat.ltb_lt in E. lia.
  - intros d0 h w g s0 s1 rest Hl Hw Hg.
    assert (Hc : crust_effective_unit_weight p =
              if Qeq_bool h 0 then Raise ZeroDivisionError
              else Ok (Some ((h * w - (h - g) * unit_weight_water p) / h))).
    { unfold crust_effective_unit_weight, layer, layer_depth, depths.
      unfold layers in Hl |- *. rewrite Hl. cbn. rewrite Hw, Hg. cbn.
      destruct (Qeq_bool h 0); reflexivity. }
    rewrite Hc. split.
    + intros Hh. rewrite (proj2 (Qeq_bool_iff h 0) Hh). reflexivity.
    + intros Hh. rewrite (Qeq_bool_false_of h 0 Hh). reflexivity.
Qed.

Lemma X14_witness_one_layer : (n_layers SoilProfile_new <= 1)%nat.
Proof. unfold n_layers. simpl. lia. Qed.

Lemma X14_witness_layers :
  layers scenario_profile
  = [(0, exec (assign [("unit_dry_weight", Some 18000)]) Soil_new);
     (5, exec (assign [("unit_dry_weight", Some 19000)]) Soil_new)].
Proof. unfold layers. exact scenario_layers. Qed.

Lemma raised_crust_profile_layers :
  layers raised_crust_profile
  = [(-1, exec (assign [("unit_dry_weight", Some 18000)]) Soil_new); (0, Soil_new)].
Proof.
  unfold layers, raised_crust_profile, SoilProfile_new.
  generalize (exec (assign [("unit_dry_weight", Some 18000)]) Soil_new). intros a.
  generalize Soil_new. intros b.
  vm_compute. reflexivity.
Qed.

Lemma raised_crust_profile_gwl : gwl raised_crust_profile = Some 0.
Proof. vm_compute. reflexivity. Qed.

Lemma X14_witness_nonzero : ~ 5 == 0.
Proof. discriminate. Qed.

Lemma X14_crust_witness :
  crust_effective_unit_weight SoilProfile_new = Ok None
  /\ crust_effective_unit_weight raised_crust_profile = Raise ZeroDivisionError
  /\ crust_effective_unit_weight scenario_profile
     = Ok (Some ((5 * 18000 - (5 - 2) * unit_weight_water scenario_profile) / 5)).
Proof.
  destruct (X14_crust_effective_unit_weight SoilProfile_new) as (H1 & _).
  destruct (X14_crust_effective_unit_weight raised_crust_profile) as (_ & H2).
  destruct (X14_crust_effective_unit_weight scenario_profile) as (_ & H3).
  destruct (H2 _ _ _ _ _ _ _ raised_crust_profile_layers
               (dry_soil_unit_weight 18000) raised_crust_profile_gwl) as (H2' & _).
  destruct (H3 _ _ _ _ _ _ _ X14_witness_layers
               (dry_soil_unit_weight 18000) scenario_gwl) as (_ & H3').
  split; [exact (H1 X14_witness_one_layer)|].
  split; [exact (H2' (Qeq_refl 0))|].
  exact (H3' X14_witness_nonzero).
Defined.

(** ** Total stress within a layer *)

Lemma stress_from_at_top (d : Q) (s : Soil) (rest : list (Q * Soil)) (t : Q) :
  Forall (Qlt d) (map fst rest) -> stress_from ((d, s) :: rest) d t = Ok t.
Proof.
  intros Hrest. cbn [stress_from].
  rewrite (proj2 (Qgt_bool_false d d)) by lra.
  apply stress_from_above. apply (List.Forall_impl _ (P := Qlt d)); [|exact Hrest].
  intros a Ha. lra.
Qed.

Lemma stress_from_two (d0 d1 : Q) (s0 s1 : Soil) (tl : list (Q * Soil)) (z t : Q) :
  stress_from ((d0, s0) :: (d1, s1) :: tl) z t
  = if Qgt_bool z d0 then
      if Qgt_bool z d1 then
        obind (add_weight s0 (d1 - d0) t)
              (fun t' => stress_from ((d1, s1) :: tl) z t')
      else add_weight s0 (z - d0) t
    else stress_from ((d1, s1) :: tl) z t.
Proof. reflexivity. Qed.

Lemma stress_from_within (pre rest : list (Q * Soil)) (d : Q) (s : Soil) (w : Q) :
  ascending (map fst (pre ++ (d, s) :: rest)) -> weighted pre ->
  unit_weight s = Some w ->
  forall t : Q, exists sigma_top : Q,
    stress_from (pre ++ (d, s) :: rest) d t = Ok sigma_top
    /\ forall z : Q, d <= z -> Forall (fun d' => z <= d') (map fst rest) ->
         exists sigma : Q,
           stress_from (pre ++ (d, s) :: rest) z t = Ok sigma
           /\ sigma == sigma_top + (z - d) * w.
Proof.
  unfold ascending, weighted. intros Hasc Hw Hs.
  induction pre as [|[d0 s0] pre IH]; intros t.
  - simpl in Hasc. inversion Hasc as [|? ? _ Hrest]; subst.
    exists t. split; [apply stress_from_at_top; exact Hrest|].
    intros z Hz Hbelow. simpl app. cbn [stress_from].
    destruct (Qgt_bool z d) eqn:Ez.
    + exists (t + (z - d) * w). split; [|reflexivity].
      destruct rest as [|[dn sn] rest']; [apply add_weight_set; exact Hs|].
      inversion Hbelow as [|? ? Hdn _]; subst. simpl in Hdn.
      rewrite (proj2 (Qgt_bool_false z dn) Hdn). apply add_weight_set. exact Hs.
    + apply Qgt_bool_false in Ez. exists t. split.
      * apply stress_from_above. exact Hbelow.
      * assert (Hzd : z == d) by lra. rewrite Hzd. ring.
  - simpl in Hasc. inversion Hasc as [|? ? Hl Hd0]; subst.
    inversion Hw as [|? ? (w0 & Hw0 & _) Hw']; subst. simpl in Hw0.
    assert (Hd0d : d0 < d).
    { rewrite List.Forall_forall in Hd0. apply Hd0.
      rewrite map_app. apply in_or_app. right. left. reflexivity. }
    specialize (IH Hl Hw').
    change (((d0, s0) :: pre) ++ (d, s) :: rest)
      with ((d0, s0) :: (pre ++ (d, s) :: rest)).
    destruct pre as [|[d1 s1] pre'].
    + (* the layer above is the last of the prefix *)
      simpl app in *. inversion Hl as [|? ? _ Hrest]; subst.
      exists (t + (d - d0) * w0). split.
      * cbn [stress_from].
        rewrite (proj2 (Qgt_bool_true d d0) Hd0d).
        rewrite (proj2 (Qgt_bool_false d d)) by lra.
        apply add_weight_set. exact Hw0.
      * intros z Hz Hbelow. cbn [stress_from].
        rewrite (proj2 (Qgt_bool_true z d0)) by lra.
        destruct (Qgt_bool z d) eqn:Ez.
        -- rewrite (add_weight_set s0 w0) by exact Hw0. cbn [obind].
           destruct (IH (t + (d - d0) * w0)) as (top & Htop & Hin).
           rewrite stress_from_at_top in Htop by exact Hrest.
           injection Htop as <-.
           destruct (Hin z Hz Hbelow) as (sigma & Hsig & Heq).
           cbn [stress_from] in Hsig. rewrite Ez in Hsig.
           exists sigma. split; [exact Hsig | exact Heq].
        -- apply Qgt_bool_false in Ez. exists (t + (z - d0) * w0). split.
           ++ apply add_weight_set. exact Hw0.
           ++ assert (Hzd : z == d) by lra. rewrite Hzd. ring.
    + (* a further layer of the prefix lies in between *)
      assert (Hd1d : d1 < d).
      { simpl in Hl. inversion Hl as [|? ? _ Hd1]; subst.
        rewrite List.Forall_forall in Hd1. apply Hd1.
        rewrite map_app. apply in_or_app. right. left. reflexivity. }
      destruct (IH (t + (d1 - d0) * w0)) as (top & Htop & Hin).
      exists top. split.
      * change (((d1, s1) :: pre') ++ (d, s) :: rest)
          with ((d1, s1) :: (pre' ++ (d, s) :: rest)) in *.
        rewrite stress_from_two.
        rewrite (proj2 (Qgt_bool_true d d0) Hd0d).
        rewrite (proj2 (Qgt_bool_true d d1) Hd1d).
        rewrite (add_weight_set s0 w0) by exact Hw0. cbn [obind].
        exact Htop.
      * intros z Hz Hbelow. destruct (Hin z Hz Hbelow) as (sigma & Hsig & Heq).
        exists sigma. split; [|exact Heq].
        change (((d1, s1) :: pre') ++ (d, s) :: rest)
          with ((d1, s1) :: (pre' ++ (d, s) :: rest)) in *.
        rewrite stress_from_two.
        rewrite (proj2 (Qgt_bool_true z d0)) by lra.
        rewrite (proj2 (Qgt_bool_true z d1)) by lra.
        rewrite (add_weight_set s0 w0) by exact Hw0. cbn [obind].
        exact Hsig.
Qed.

(** X15.  Within a layer the total stress grows linearly with the unit
    weight of that layer.  Let the layer [(d, s)] have unit weight [w], the
    layers above it have unit weights, and the depths be ascending.  Then
    the total stress is defined at the top [d] of the layer, and at every
    depth [z] from [d] down to the top of the next layer (to any depth,
    for the last layer) it is the stress at [d] plus [(z - d) * w]. *)
Theorem X15_stress_linear_within_layer
        (p : SoilProfile) (pre rest : list (Q * Soil)) (d : Q) (s : Soil) (w : Q) :
  layers p = pre ++ (d, s) :: rest -> ascending (depths p) -> weighted pre ->
  unit_weight s = Some w ->
  exists sigma_top : Q,
    one_vertical_total_stress p d = Ok sigma_top
    /\ forall z : Q, d <= z -> Forall (fun d' => z <= d') (map fst rest) ->
         exists sigma : Q,
           one_vertical_total_stress p z = Ok sigma
           /\ sigma == sigma_top + (z - d) * w.
Proof.
  intros Hl Hasc Hw Hs. unfold layers, depths in *.
  rewrite Hl in Hasc.
  destruct (stress_from_within pre rest d s w Hasc Hw Hs 0) as (top & Htop & Hin).
  exists top. rewrite one_vertical_total_stress_from, Hl. split; [exact Htop|].
  intros z Hz Hbelow. rewrite one_vertical_total_stress_from, Hl.
  apply Hin; assumption.
Qed.

Lemma X15_witness_layers :
  layers scenario_profile
  = [(0, exec (assign [("unit_dry_weight", Some 18000)]) Soil_new)]
    ++ (5, exec (assign [("unit_dry_weight", Some 19000)]) Soil_new) :: [].
Proof. unfold layers. exact scenario_layers. Qed.

Lemma X15_witness_weighted :
  weighted [(0, exec (assign [("unit_dry_weight", Some 18000)]) Soil_new)].
Proof.
  repeat constructor; simpl; eexists;
    (split; [apply dry_soil_unit_weight | discriminate]).
Qed.

Lemma X15_witness_depth : 5 <= 7.
Proof. discriminate. Qed.

Lemma X15_stress_linear_witness :
  exists sigma_top sigma : Q,
    one_vertical_total_stress scenario_profile 5 = Ok sigma_top
    /\ one_vertical_total_stress scenario_profile 7 = Ok sigma
    /\ sigma == sigma_top + (7 - 5) * 19000.
Proof.
  destruct (X15_stress_linear_within_layer scenario_profile _ _ _ _ 19000
              X15_witness_layers scenario_ascending X15_witness_weighted
              (dry_soil_unit_weight 19000)) as (top & Htop & Hin).
  destruct (Hin 7 X15_witness_depth (List.Forall_nil _)) as (sigma & Hsig & Heq).
  exists top, sigma. split; [exact Htop | split; [exact Hsig | exact Heq]].
Defined.

(** ** Bulk load: where it stops *)

Lemma add_to_obj_app {T : Type} `{PyObject T}
      (pre rest : list (string * value)) (exceptions : list string) (obj : T) :
  add_to_obj (pre ++ rest) exceptions obj
  = match add_to_obj pre exceptions obj with
    | (Ok _, obj') => add_to_obj rest exceptions obj'
    | (Raise e, obj') => (Raise e, obj')
    end.
Proof.
  revert obj. induction pre as [|[k v] pre IH]; intros obj; simpl.
  - reflexivity.
  - destruct (mem k exceptions); [apply IH|].
    destruct (is_not_None v); [|apply IH].
    unfold bind. destruct (setattr k v obj) as [[[]|e] obj']; [apply IH | reflexivity].
Qed.

Lemma Soil_setattr_read_only (k : string) (p : property) (v : value) (s : Soil) :
  Soil_properties !! k = Some p -> fset p = None ->
  Soil_setattr k v s = (Raise AttributeError, s).
Proof. intros Hp Hf. unfold Soil_setattr. rewrite Hp, Hf. reflexivity. Qed.

(** X16.  [add_to_obj] is not atomic.  When the assignment of an entry
    raises, the exception leaves [add_to_obj] with the object as the
    entries before it (and the failed setter) have made it; no later entry
    is assigned.  On a Soil, an entry whose key is a property without a
    setter ([porosity], [moisture_content], [unit_weight], ...) and whose
    value is not [None] raises [AttributeError] in this way. *)
Theorem X16_add_to_obj_stops_at_failure :
  (forall (T : Type) (H : PyObject T) (pre rest : list (string * value))
          (k : string) (q : Q) (exceptions : list string) (obj obj' obj'' : T)
          (e : exn),
      mem k exceptions = false ->
      add_to_obj pre exceptions obj = (Ok tt, obj') ->
      setattr k (Some q) obj' = (Raise e, obj'') ->
      add_to_obj (pre ++ (k, Some q) :: rest) exceptions obj = (Raise e, obj''))
  /\ (forall (pre rest : list (string * value)) (k : string) (p : property) (q : Q)
             (exceptions : list string) (s s' : Soil),
        Soil_properties !! k = Some p -> fset p = None ->
        mem k exceptions = false ->
        add_to_obj pre exceptions s = (Ok tt, s') ->
        add_to_obj (pre ++ (k, Some q) :: rest) exceptions s
        = (Raise AttributeError, s')).
Proof.
  assert (Hgen : forall (T : Type) (H : PyObject T) (pre rest : list (string * value))
          (k : string) (q : Q) (exceptions : list string) (obj obj' obj'' : T)
          (e : exn),
      mem k exceptions = false ->
      add_to_obj pre exceptions obj = (Ok tt, obj') ->
      setattr k (Some q) obj' = (Raise e, obj'') ->
      add_to_obj (pre ++ (k, Some q) :: rest) exceptions obj = (Raise e, obj'')).
  { intros T H pre rest k q exceptions obj obj' obj'' e Hk Hpre Hset.
    rewrite add_to_obj_app, Hpre. simpl. rewrite Hk. unfold bind.
    rewrite Hset. reflexivity. }
  split; [exact Hgen|].
  intros pre rest k p q exceptions s s' Hp Hf Hk Hpre.
  apply (Hgen Soil _ pre rest k q exceptions s s' s' AttributeError Hk Hpre).
  apply (Soil_setattr_read_only k p); assumption.
Qed.

Lemma X16_witness_property :
  Soil_properties !! "porosity" = Some (Property porosity None).
Proof. reflexivity. Qed.

Lemma X16_witness_before :
  add_to_obj [("phi", Some 30)] [] Soil_new
  = (Ok tt, exec (assign [("phi", Some 30)]) Soil_new).
Proof. reflexivity. Qed.

Lemma X16_add_to_obj_witness :
  add_to_obj ([("phi", Some 30)] ++ ("porosity", Some (1#2)) :: [("cohesion", Some 5)])
             [] Soil_new
  = (Raise AttributeError, exec (assign [("phi", Some 30)]) Soil_new).
Proof.
  destruct X16_add_to_obj_stops_at_failure as (_ & H).
  exact (H [("phi", Some 30)] [("cohesion", Some 5)] "porosity" _ (1#2) []
           Soil_new _ X16_witness_property eq_refl eq_refl X16_witness_before).
Defined.

(** ** What [to_dict] exports *)

Lemma dict_get_set_same {V} (out : list (string * V)) (k : string) (v : V) :
  dict_get (dict_set out k v) k = Some v.
Proof.
  unfold dict_get, dict_set. induction out as [|[k' v'] out IH]; simpl.
  - rewrite String.eqb_refl. reflexivity.
  - destruct (String.eqb k' k) eqn:E; simpl; rewrite E; [reflexivity | exact IH].
Qed.

Lemma dict_get_set_other {V} (out : list (string * V)) (k k' : string) (v : V) :
  k <> k' -> dict_get (dict_set out k v) k' = dict_get out k'.
Proof.
  intros Hne. unfold dict_get, dict_set. induction out as [|[k0 v0] out IH]; simpl.
  - destruct (String.eqb k k') eqn:E; [|reflexivity].
    apply String.eqb_eq in E. contradiction.
  - destruct (String.eqb k0 k) eqn:E; simpl.
    + apply String.eqb_eq in E. subst k0.
      destruct (String.eqb k k') eqn:E'; [|reflexivity].
      apply String.eqb_eq in E'. contradiction.
    + destruct (String.eqb k0 k'); [reflexivity | exact IH].
Qed.

Lemma In_dict_set {V} (out : list (string * V)) (k k' : string) (v v' : V) :
  In (k', v') (dict_set out k v) -> (k' = k /\ v' = v) \/ In (k', v') out.
Proof.
  unfold dict_set. induction out as [|[k0 v0] out IH]; simpl.
  - intros [Heq | []]. injection Heq as <- <-. left. split; reflexivity.
  - destruct (String.eqb k0 k) eqn:E; simpl.
    + apply String.eqb_eq in E. subst k0.
      intros [Heq | Hin]; [|right; right; exact Hin].
      injection Heq as <- <-. left. split; reflexivity.
    + intros [Heq | Hin]; [right; left; exact Heq|].
      destruct (IH Hin) as [Hl | Hr]; [left; exact Hl | right; right; exact Hr].
Qed.

Lemma dict_set_keys {V} (out : list (string * V)) (k : string) (v : V) :
  map fst (dict_set out k v)
  = match dict_get out k with
    | Some _ => map fst out
    | None => map fst out ++ [k]
    end.
Proof.
  unfold dict_get, dict_set. induction out as [|[k0 v0] out IH]; simpl.
  - reflexivity.
  - destruct (String.eqb k0 k) eqn:E; simpl; [reflexivity|].
    rewrite IH. destruct (od_get String.eqb out k); reflexivity.
Qed.

Lemma dict_get_None_keys {V} (out : list (string * V)) (k : string) :
  dict_get out k = None -> ~ In k (map fst out).
Proof.
  unfold dict_get. induction out as [|[k0 v0] out IH]; simpl.
  - intros _ [].
  - destruct (String.eqb k0 k) eqn:E; [discriminate|].
    intros Hg [Heq | Hin]; [|exact (IH Hg Hin)].
    subst k0. rewrite String.eqb_refl in E. discriminate E.
Qed.

Lemma dict_set_NoDup {V} (out : list (string * V)) (k : string) (v : V) :
  List.NoDup (map fst out) -> List.NoDup (map fst (dict_set out k v)).
Proof.
  intros Hnd. rewrite dict_set_keys.
  destruct (dict_get out k) eqn:E; [exact Hnd|].
  apply dict_get_None_keys in E.
  apply List.NoDup_rev in Hnd. rewrite <- (List.rev_involutive (map fst out ++ [k])).
  apply List.NoDup_rev. rewrite List.rev_app_distr. simpl.
  constructor; [|exact Hnd]. rewrite <- List.in_rev. exact E.
Qed.

Section ToDictEntries.
Context {T : Type} `{PyObject T}.
Variables (obj : T) (export_none : bool) (all : list string).

Lemma to_dict_loop_entries (items : list string) :
  forall out d : list (string * value),
    PhysicalObject.to_dict_loop obj items export_none out = Ok d ->
    (forall k, In k items -> In k all) ->
    List.NoDup (map fst out) -> (forall k v, In (k, v) out -> exported obj export_none all k v) ->
    List.NoDup (map fst d) /\ (forall k v, In (k, v) d -> exported obj export_none all k v).
Proof.
  induction items as [|item items IH]; intros out d Hd Hall Hnd Hout.
  - simpl in Hd. injection Hd as <-. split; assumption.
  - simpl in Hd.
    destruct (get_skip_list obj) as [skip|e0] eqn:Esk; [|discriminate Hd].
    assert (Hsk : skip = skip_list obj) by (unfold skip_list; rewrite Esk; reflexivity).
    rewrite Hsk in Hd. clear Hsk.
    assert (Hall' : forall k, In k items -> In k all)
      by (intros k Hk; apply Hall; right; exact Hk).
    destruct (mem item (skip_list obj)) eqn:Es; cbn [negb] in Hd;
      [apply (IH out d Hd Hall' Hnd Hout)|].
    destruct (getattr obj item) as [v|e] eqn:Eg; [|discriminate Hd].
    destruct (negb export_none && negb (is_not_None v)) eqn:En;
      [apply (IH out d Hd Hall' Hnd Hout)|].
    apply (IH _ d Hd Hall'); [apply dict_set_NoDup; exact Hnd|].
    intros k v' Hin. apply In_dict_set in Hin.
    destruct Hin as [[-> ->] | Hin]; [|apply Hout; exact Hin].
    unfold exported, collect_serial_value.
    split; [apply Hall; left; reflexivity|]. split; [exact Es|].
    split; [exact Eg|]. intros ->. destruct v; [discriminate | discriminate En].
Qed.

Lemma to_dict_loop_keeps (items : list string) :
  forall out d : list (string * value),
    PhysicalObject.to_dict_loop obj items export_none out = Ok d ->
    forall k v, dict_get out k = Some v -> getattr obj k = Ok v ->
                dict_get d k = Some v.
Proof.
  induction items as [|item items IH]; intros out d Hd k v Hk Hg.
  - simpl in Hd. injection Hd as <-. exact Hk.
  - simpl in Hd.
    destruct (get_skip_list obj) as [skip|e0] eqn:Esk; [|discriminate Hd].
    assert (Hsk : skip = skip_list obj) by (unfold skip_list; rewrite Esk; reflexivity).
    rewrite Hsk in Hd. clear Hsk.
    destruct (mem item (skip_list obj)); cbn [negb] in Hd;
      [apply (IH out d Hd k v Hk Hg)|].
    destruct (getattr obj item) as [v'|e] eqn:Eg; [|discriminate Hd].
    destruct (negb export_none && negb (is_not_None v'));
      [apply (IH out d Hd k v Hk Hg)|].
    apply (IH _ d Hd k v); [|exact Hg].
    destruct (String.eqb item k) eqn:E.
    + apply String.eqb_eq in E. subst item.
      rewrite Hg in Eg. injection Eg as ->.
      unfold collect_serial_value. apply dict_get_set_same.
    + rewrite dict_get_set_other; [exact Hk|].
      intros ->. rewrite String.eqb_refl in E. discriminate E.
Qed.

Lemma to_dict_loop_complete (items : list string) :
  forall out d : list (string * value),
    PhysicalObject.to_dict_loop obj items export_none out = Ok d ->
    forall k, In k items -> mem k (skip_list obj) = false ->
      exists v, getattr obj k = Ok v
                /\ (export_none = true \/ v <> None -> dict_get d k = Some v).
Proof.
  induction items as [|item items IH]; intros out d Hd k Hin Hs.
  - destruct Hin.
  - simpl in Hd.
    destruct (get_skip_list obj) as [skip|e0] eqn:Esk; [|discriminate Hd].
    assert (Hsk : skip = skip_list obj) by (unfold skip_list; rewrite Esk; reflexivity).
    rewrite Hsk in Hd. clear Hsk.
    destruct Hin as [-> | Hin].
    + rewrite Hs in Hd. cbn [negb] in Hd.
      destruct (getattr obj k) as [v|e] eqn:Eg; [|discriminate Hd].
      exists v. split; [reflexivity|]. intros Hex.
      destruct (negb export_none && negb (is_not_None v)) eqn:En.
      * destruct export_none; [discriminate En|].
        destruct v; [discriminate En|]. destruct Hex as [Hex | Hex];
          [discriminate Hex | contradiction Hex; reflexivity].
      * apply (to_dict_loop_keeps items _ d Hd); [|exact Eg].
        unfold collect_serial_value. apply dict_get_set_same.
    + destruct (mem item (skip_list obj)); cbn [negb] in Hd;
        [apply (IH out d Hd k Hin Hs)|].
      destruct (getattr obj item) as [v'|e]; [|discriminate Hd].
      destruct (negb export_none && negb (is_not_None v'));
        [apply (IH out d Hd k Hin Hs) | apply (IH _ d Hd k Hin Hs)].
Qed.
End ToDictEntries.

(** A [to_dict] that returns has gone through the names of [inputs] and
    [extra]. *)
Lemma to_dict_full_inputs {T : Type} `{PyObject T} (obj : T) (extra : list string)
      (export_none : bool) (d : list (string * value)) :
  PhysicalObject.to_dict obj extra export_none = Ok d ->
  PhysicalObject.to_dict_loop obj (inputs obj ++ extra) export_none [] = Ok d.
Proof.
  unfold PhysicalObject.to_dict, inputs.
  destruct (get_inputs obj) as [items|[]]; try discriminate; intros Hd; exact Hd.
Qed.

(** X17.  What a successful [to_dict(extra, export_none)] exports, for any
    object.  No key occurs twice; every entry has a key of [inputs] or
    [extra] that is not in [skip_list], bound to the value the attribute
    reads, which is not [None] when [export_none] is false; and every
    such key is exported with that value, unless the value is [None] and
    [export_none] is false. *)
Theorem X17_to_dict_entries (T : Type) (H : PyObject T) (obj : T)
        (extra : list string) (export_none : bool) (d : list (string * value)) :
  PhysicalObject.to_dict obj extra export_none = Ok d ->
  List.NoDup (map fst d)
  /\ (forall k v, In (k, v) d ->
        In k (inputs obj ++ extra) /\ mem k (skip_list obj) = false
        /\ getattr obj k = Ok v /\ (export_none = false -> v <> None))
  /\ (forall k, In k (inputs obj ++ extra) -> mem k (skip_list obj) = false ->
        exists v, getattr obj k = Ok v
                  /\ (export_none = true \/ v <> None -> dict_get d k = Some v)).
Proof.
  intros Hd. apply to_dict_full_inputs in Hd.
  destruct (to_dict_loop_entries obj export_none (inputs obj ++ extra) _ [] d Hd)
    as (Hnd & Hent).
  - intros k Hk. exact Hk.
  - constructor.
  - intros k v [].
  - split; [exact Hnd|]. split; [exact Hent|].
    intros k Hk Hs.
    apply (to_dict_loop_complete obj export_none _ [] d Hd k Hk Hs).
Qed.

Lemma X17_witness_dict :
  exists d, PhysicalObject.to_dict sand ["saturation"; "phi"] false = Ok d.
Proof. vm_compute. eexists. reflexivity. Qed.

Lemma X17_to_dict_witness :
  exists d : list (string * value),
    PhysicalObject.to_dict sand ["saturation"; "phi"] false = Ok d
    /\ List.NoDup (map fst d)
    /\ (forall k v, In (k, v) d ->
          In k (inputs sand ++ ["saturation"; "phi"]) /\ mem k (skip_list sand) = false
          /\ getattr sand k = Ok v /\ (false = false -> v <> None))
    /\ (forall k, In k (inputs sand ++ ["saturation"; "phi"]) ->
          mem k (skip_list sand) = false ->
          exists v, getattr sand k = Ok v
                    /\ (false = true \/ v <> None -> dict_get d k = Some v)).
Proof.
  destruct X17_witness_dict as [d Hd]. exists d. split; [exact Hd|].
  exact (X17_to_dict_entries Soil _ sand ["saturation"; "phi"] false d Hd).
Defined.

(** ** What [PhysicalObject.set] cannot bind *)

Lemma preserves_ret {A} (k : string) (a : A) : preserves k (ret a).
Proof. intros s. reflexivity. Qed.

Lemma preserves_raise {A} (k : string) (e : exn) : preserves k (raise (A := A) e).
Proof. intros s. reflexivity. Qed.

Lemma preserves_get (k : string) : preserves k get.
Proof. intros s. reflexivity. Qed.

Lemma preserves_eval {A} (k : string) (f : Soil -> outcome A) : preserves k (eval f).
Proof. intros s. reflexivity. Qed.

Lemma preserves_store (k name : string) (v : value) :
  name <> k -> preserves k (store name v).
Proof. intros Hne s. unfold store. simpl. apply lookup_insert_ne. exact Hne. Qed.

Lemma preserves_bind {A B} (k : string) (m : M Soil A) (f : A -> M Soil B) :
  preserves k m -> (forall a, preserves k (f a)) -> preserves k (bind m f).
Proof.
  intros Hm Hf s. unfold bind. specialize (Hm s).
  destruct (m s) as [[a|e] s']; simpl in *; [|exact Hm].
  rewrite Hf. exact Hm.
Qed.

Lemma preserves_try {A} (k : string) (body handler : M Soil A) :
  preserves k body -> preserves k handler ->
  preserves k (try_except_TypeError body handler).
Proof.
  intros Hb Hh s. unfold try_except_TypeError. specialize (Hb s).
  destruct (body s) as [[a|e] s']; simpl in *; [exact Hb|].
  destruct e; try exact Hb. rewrite Hh. exact Hb.
Qed.

(** The setters write private slots only: a key that the class does not
    declare is left alone. *)
Ltac frame H :=
  repeat first
    [ apply preserves_ret | apply preserves_raise | apply preserves_get
    | apply preserves_eval
    | apply preserves_store; intros <-; vm_compute in H; discriminate H
    | apply preserves_try
    | apply preserves_bind; [|intros ?]
    | match goal with
      | |- preserves _ (if ?b then _ else _) => destruct b
      end ].

Lemma set_e_curr_preserves (k : string) (v : value) :
  Soil_class !! k = None -> preserves k (set_e_curr v).
Proof. intros H. unfold set_e_curr. frame H. Qed.

Lemma set_unit_dry_weight_preserves (k : string) (v : value) (o : bool) :
  Soil_class !! k = None -> preserves k (set_unit_dry_weight v o).
Proof.
  intros H. unfold set_unit_dry_weight. frame H.
Qed.

Lemma set_unit_sat_weight_preserves (k : string) (v : value) :
  Soil_class !! k = None -> preserves k (set_unit_sat_weight v).
Proof.
  intros H. unfold set_unit_sat_weight, set_saturation. frame H.
Qed.

Lemma set_relative_density_preserves (k : string) (v : value) (o : bool) :
  Soil_class !! k = None -> preserves k (set_relative_density v o).
Proof. intros H. unfold set_relative_density. frame H. Qed.

Lemma Soil_setattr_preserves (item k : string) (v : value) :
  In item Soil_inputs -> Soil_class !! k = None -> storage item <> k ->
  preserves k (Soil_setattr item v).
Proof.
  intros Hin H Hne. each_input Hin.
  - change (Soil_setattr "g_mod" v) with (store "g_mod" v).
    apply preserves_store. exact Hne.
  - change (Soil_setattr "phi" v) with (store "_phi" v). frame H.
  - rewrite Soil_setattr_relative_density.
    apply set_relative_density_preserves. exact H.
  - rewrite Soil_setattr_unit_dry_weight.
    apply set_unit_dry_weight_preserves. exact H.
  - rewrite Soil_setattr_unit_sat_weight.
    apply set_unit_sat_weight_preserves. exact H.
  - change (Soil_setattr "cohesion" v) with (store "_cohesion" v). frame H.
  - change (Soil_setattr "poissons_ratio" v) with (store "poissons_ratio" v).
    apply preserves_store. exact Hne.
  - change (Soil_setattr "e_min" v) with (store "_e_min" v). frame H.
  - change (Soil_setattr "e_max" v) with (store "_e_max" v). frame H.
  - change (Soil_setattr "e_cr0" v) with (store "e_cr0" v).
    apply preserves_store. exact Hne.
  - change (Soil_setattr "p_cr0" v) with (store "p_cr0" v).
    apply preserves_store. exact Hne.
  - change (Soil_setattr "lamb_crl" v) with (store "lamb_crl" v).
    apply preserves_store. exact Hne.
Qed.

Lemma set_loop_frame (k : string) (items : list string)
      (values : list (string * value)) :
  (forall item, In item items -> In item Soil_inputs) ->
  forall s : Soil, attr s k = None ->
    attr (snd (PhysicalObject.set_loop items values s)) k = None.
Proof.
  induction items as [|item items IH]; intros Hitems s Hk.
  - exact Hk.
  - assert (Hclass : Soil_class !! k = None)
      by (unfold attr in Hk; destruct (s !! k); [discriminate Hk | exact Hk]).
    assert (Hin : In item Soil_inputs) by (apply Hitems; left; reflexivity).
    assert (Hitems' : forall i, In i items -> In i Soil_inputs)
      by (intros i Hi; apply Hitems; right; exact Hi).
    rewrite set_loop_step. rewrite (hasattr_input s item Hin).
    destruct (attr s (storage item)) as [x|] eqn:Ex; [|apply IH; assumption].
    destruct (dict_get values item) as [v|]; [|exact Hk].
    assert (Hne : storage item <> k) by (intros Heq; rewrite Heq, Hk in Ex; discriminate Ex).
    pose proof (Soil_setattr_preserves item k v Hin Hclass Hne s) as Hp.
    unfold bind. change (setattr item v s) with (Soil_setattr item v s).
    assert (Hk' : attr (snd (Soil_setattr item v s)) k = None)
      by (unfold attr in *; rewrite Hp; exact Hk).
    destruct (Soil_setattr item v s) as [[[]|e] s']; cbn [snd] in *;
      [apply IH; assumption | exact Hk'].
Qed.

Lemma to_dict_loop_missing (s : Soil) (k : string) (export_none : bool)
      (extra items : list string) :
  get_skip_list s = Ok [] ->
  (forall item, In item items -> In item Soil_inputs) -> In k items ->
  getattr s k = Raise AttributeError ->
  forall out, PhysicalObject.to_dict_loop s (items ++ extra) export_none out
              = Raise AttributeError.
Proof.
  intros Hskip Hitems Hin Hk.
  induction items as [|item items IH]; intros out; [destruct Hin|].
  change ((item :: items) ++ extra) with (item :: (items ++ extra)).
  cbn [PhysicalObject.to_dict_loop].
  rewrite Hskip. cbn [mem existsb negb].
  change (getattr s item) with (Soil_getattr s item).
  rewrite (Soil_getattr_input s item) by (apply Hitems; left; reflexivity).
  destruct (attr s (storage item)) as [v|] eqn:Ev; [|reflexivity].
  assert (Hin' : In k items).
  { destruct Hin as [-> | Hin]; [|exact Hin].
    change (getattr s k) with (Soil_getattr s k) in Hk.
    rewrite (Soil_getattr_input s k) in Hk by (apply Hitems; left; reflexivity).
    rewrite Ev in Hk. discriminate Hk. }
  assert (Hitems' : forall i, In i items -> In i Soil_inputs)
    by (intros i Hi; apply Hitems; right; exact Hi).
  destruct (negb export_none && negb (is_not_None v)); apply IH; assumption.
Qed.

(** X18.  [PhysicalObject.set] cannot give a Soil an input it lacks, and
    such a Soil cannot be serialised.  On a Soil whose [inputs] and
    [skip_list] are those of the class: if [hasattr(soil, k)] is false for
    a name [k] of [inputs] (on [Soil()] this is so for [g_mod] and
    [poissons_ratio], for which the class declares only [_g_mod] and
    [_poissons_ratio]), it is still false after [soil.set(values)],
    whatever [values] holds and whether or not [set] raises; [inputs] and
    [skip_list] are still those of the class; and [to_dict] on the result
    raises [AttributeError]. *)
Theorem X18_set_binds_no_missing_input
        (values : list (string * value)) (s : Soil) (k : string) :
  unshadowed s -> In k Soil_inputs -> hasattr s k = Ok false ->
  hasattr (exec (PhysicalObject.set values) s) k = Ok false
  /\ unshadowed (exec (PhysicalObject.set values) s)
  /\ forall (extra : list string) (export_none : bool),
       PhysicalObject.to_dict (exec (PhysicalObject.set values) s) extra export_none
       = Raise AttributeError.
Proof.
  intros [Hi Hs] Hin Hk. rewrite (hasattr_input s k Hin) in Hk.
  destruct (attr s (storage k)) eqn:Ek; [discriminate Hk|]. clear Hk.
  assert (Hframe : forall name, attr s name = None ->
            attr (exec (PhysicalObject.set values) s) name = None).
  { intros name Hname. unfold exec, PhysicalObject.set, bind, get.
    rewrite Soil_get_inputs, Hi.
    apply set_loop_frame; [|exact Hname]. intros item Hitem. exact Hitem. }
  assert (Hkeep : forall name, Soil_class !! name = None -> s !! name = None ->
            exec (PhysicalObject.set values) s !! name = None).
  { intros name Hc Hn.
    assert (Ha : attr s name = None) by (unfold attr; rewrite Hn; exact Hc).
    apply Hframe in Ha. unfold attr in Ha.
    destruct (exec (PhysicalObject.set values) s !! name); [discriminate Ha | reflexivity]. }
  pose proof (Hframe _ Ek) as Hafter.
  assert (Hhas : hasattr (exec (PhysicalObject.set values) s) k = Ok false)
    by (rewrite (hasattr_input _ k Hin), Hafter; reflexivity).
  assert (Hun : unshadowed (exec (PhysicalObject.set values) s))
    by (split; apply Hkeep; (reflexivity || assumption)).
  split; [exact Hhas|]. split; [exact Hun|].
  intros extra export_none.
  destruct (unshadowed_lists _ Hun) as [Hins Hskip].
  unfold PhysicalObject.to_dict. rewrite Hins.
  apply (to_dict_loop_missing _ k);
    [exact Hskip | intros item Hitem; exact Hitem | exact Hin |].
  change (getattr (exec (PhysicalObject.set values) s) k)
    with (Soil_getattr (exec (PhysicalObject.set values) s) k).
  rewrite (Soil_getattr_input _ k Hin), Hafter. reflexivity.
Qed.

Lemma X18_witness_class : unshadowed Soil_new.
Proof. split; reflexivity. Qed.

Lemma X18_witness_input : In "g_mod" Soil_inputs.
Proof. left. reflexivity. Qed.

Lemma X18_witness_missing : hasattr Soil_new "g_mod" = Ok false.
Proof. reflexivity. Qed.

Lemma X18_set_witness :
  hasattr (exec (PhysicalObject.set (map (fun k => (k, Some 1)) Soil_inputs)) Soil_new)
          "g_mod" = Ok false
  /\ unshadowed
       (exec (PhysicalObject.set (map (fun k => (k, Some 1)) Soil_inputs)) Soil_new)
  /\ forall (extra : list string) (export_none : bool),
       PhysicalObject.to_dict
         (exec (PhysicalObject.set (map (fun k => (k, Some 1)) Soil_inputs)) Soil_new)
         extra export_none
       = Raise AttributeError.
Proof.
  exact (X18_set_binds_no_missing_input (map (fun k => (k, Some 1)) Soil_inputs)
           Soil_new "g_mod" X18_witness_class X18_witness_input X18_witness_missing).
Defined.

(** ** The Output aggregator *)

Section ODLaws.
Context {K V : Type} (eqb : K -> K -> bool).
Hypothesis eqb_refl : forall k, eqb k k = true.
Hypothesis eqb_cong : forall a b c, eqb a b = true -> eqb a c = eqb b c.

Lemma od_get_set_eq (d : list (K * V)) (k : K) (v : V) :
  od_get eqb (od_set eqb d k v) k = Some v.
Proof.
  induction d as [|[k' v'] d IH]; simpl.
  - rewrite eqb_refl. reflexivity.
  - destruct (eqb k' k) eqn:E; simpl; rewrite E; [reflexivity | exact IH].
Qed.

Lemma od_get_set_ne (d : list (K * V)) (k k' : K) (v : V) :
  eqb k k' = false -> od_get eqb (od_set eqb d k v) k' = od_get eqb d k'.
Proof.
  intros Hne. induction d as [|[k0 v0] d IH]; simpl.
  - rewrite Hne. reflexivity.
  - destruct (eqb k0 k) eqn:E; simpl.
    + rewrite (eqb_cong k0 k k' E), Hne. reflexivity.
    + destruct (eqb k0 k'); [reflexivity | exact IH].
Qed.

Lemma od_set_set (d : list (K * V)) (k : K) (v v' : V) :
  od_set eqb (od_set eqb d k v) k v' = od_set eqb d k v'.
Proof.
  induction d as [|[k0 v0] d IH]; simpl.
  - rewrite eqb_refl. reflexivity.
  - destruct (eqb k0 k) eqn:E; simpl; rewrite E; [reflexivity|].
    rewrite IH. reflexivity.
Qed.

Lemma od_set_get (d : list (K * V)) (k : K) (v : V) :
  od_get eqb d k = Some v -> od_set eqb d k v = d.
Proof.
  induction d as [|[k0 v0] d IH]; simpl; [discriminate|].
  destruct (eqb k0 k); [intros [= ->]; reflexivity|].
  intros Hd. rewrite IH by exact Hd. reflexivity.
Qed.
Lemma od_get_set_eq_cong (d : list (K * V)) (k k' : K) (v : V) :
  eqb k k' = true -> exists v', od_get eqb (od_set eqb d k v) k' = Some v'.
Proof.
  intros E. induction d as [|[k0 v0] d IH]; simpl.
  - rewrite E. exists v. reflexivity.
  - destruct (eqb k0 k) eqn:E0; simpl.
    + rewrite (eqb_cong k0 k k' E0), E. exists v. reflexivity.
    + destruct (eqb k0 k'); [exists v0; reflexivity | exact IH].
Qed.
End ODLaws.

Lemma String_eqb_cong (a b c : string) :
  String.eqb a b = true -> String.eqb a c = String.eqb b c.
Proof. intros E. apply String.eqb_eq in E. subst b. reflexivity. Qed.

Lemma String_eqb_ne (a b : string) : a <> b -> String.eqb a b = false.
Proof.
  intros Hne. destruct (String.eqb a b) eqn:E; [|reflexivity].
  apply String.eqb_eq in E. contradiction.
Qed.

Lemma value_eqb_refl (k : value) : value_eqb k k = true.
Proof.
  unfold value_eqb, py_ne. destruct k as [q|]; [|reflexivity].
  rewrite (proj2 (Qeq_bool_iff q q)) by reflexivity. reflexivity.
Qed.

Lemma value_eqb_cong (a b c : value) :
  value_eqb a b = true -> value_eqb a c = value_eqb b c.
Proof.
  unfold value_eqb, py_ne.
  destruct a as [p|], b as [q|], c as [r|]; try reflexivity; try discriminate.
  rewrite !negb_involutive. intros E. apply Qeq_bool_iff in E.
  destruct (Qeq_bool q r) eqn:E'.
  - apply Qeq_bool_iff in E'. apply Qeq_bool_iff. rewrite E. exact E'.
  - destruct (Qeq_bool p r) eqn:E''; [|reflexivity].
    apply Qeq_bool_iff in E''. rewrite E in E''.
    apply Qeq_bool_iff in E''. congruence.
Qed.

Lemma models_put_present (out : Output) (mtype : string) (m_id : value) (d : sval)
      (inner : list (value * sval)) :
  od_get String.eqb (models out) mtype = Some inner ->
  models_put mtype m_id d out
  = (Ok tt, {| models := od_set String.eqb (models out) mtype
                                (od_set value_eqb inner m_id d) |}).
Proof. intros Hm. unfold models_put. rewrite Hm. reflexivity. Qed.

Lemma models_get_put (ms : list (string * list (value * sval))) (mtype : string)
      (m_id : value) (d : sval) (inner : list (value * sval)) :
  models_get {| models := od_set String.eqb ms mtype (od_set value_eqb inner m_id d) |}
             mtype m_id = Some d.
Proof.
  unfold models_get. cbn [models].
  rewrite (od_get_set_eq String.eqb String.eqb_refl).
  apply (od_get_set_eq value_eqb value_eqb_refl).
Qed.

Lemma models_get_put_other (ms : list (string * list (value * sval)))
      (mtype mtype' : string) (m_id m_id' : value) (d : sval)
      (inner : list (value * sval)) :
  od_get String.eqb ms mtype = Some inner ->
  mtype' <> mtype \/ value_eqb m_id m_id' = false ->
  models_get {| models := od_set String.eqb ms mtype (od_set value_eqb inner m_id d) |}
             mtype' m_id'
  = models_get {| models := ms |} mtype' m_id'.
Proof.
  intros Hm Hother. unfold models_get. cbn [models].
  destruct (String.eqb mtype mtype') eqn:E.
  - apply String.eqb_eq in E. subst mtype'.
    rewrite (od_get_set_eq String.eqb String.eqb_refl), Hm.
    destruct Hother as [Hne | Hne]; [contradiction Hne; reflexivity|].
    apply (od_get_set_ne value_eqb value_eqb_cong). exact Hne.
  - rewrite (od_get_set_ne String.eqb String_eqb_cong) by exact E. reflexivity.
Qed.

Lemma od_set_keeps_types {V} (ms : list (string * V)) (mtype mt : string) (x : V) :
  od_get String.eqb ms mt <> None ->
  od_get String.eqb (od_set String.eqb ms mtype x) mt <> None.
Proof.
  intros Hm. destruct (String.eqb mtype mt) eqn:E.
  - apply String.eqb_eq in E. subst mt.
    rewrite (od_get_set_eq String.eqb String.eqb_refl). discriminate.
  - rewrite (od_get_set_ne String.eqb String_eqb_cong) by exact E. exact Hm.
Qed.

Lemma standard_od_set (out : Output) (mtype : string) (x : list (value * sval)) :
  standard out -> standard {| models := od_set String.eqb (models out) mtype x |}.
Proof. intros Hs mt Hmt. cbn [models]. apply od_set_keeps_types. apply Hs. exact Hmt. Qed.

Lemma standard_present (out : Output) (mtype : string) :
  standard out -> In mtype ["soils"; "soil_profiles"; "systems"] ->
  exists inner, od_get String.eqb (models out) mtype = Some inner.
Proof.
  intros Hs Hm. specialize (Hs mtype Hm).
  destruct (od_get String.eqb (models out) mtype) as [inner|];
    [exists inner; reflexivity | contradiction Hs; reflexivity].
Qed.

Lemma Output_new_standard : standard Output_new.
Proof.
  intros mtype Hm. simpl in Hm.
  destruct Hm as [<- | [<- | [<- | []]]]; vm_compute; discriminate.
Qed.

(** X19.  [add_to_output] never raises: it creates the model type when it
    is missing, the entry then reads back under [(mtype, m_id)], and every
    entry under another model type or another id reads as before. *)
Theorem X19_add_to_output_lookup
        (out : Output) (mtype : string) (m_id : value) (d : sval) :
  exists out' : Output,
    add_to_output mtype m_id d out = (Ok tt, out')
    /\ models_get out' mtype m_id = Some d
    /\ (forall mtype' m_id',
          mtype' <> mtype \/ value_eqb m_id m_id' = false ->
          models_get out' mtype' m_id' = models_get out mtype' m_id')
    /\ (forall mt, od_get String.eqb (models out) mt <> None ->
                   od_get String.eqb (models out') mt <> None).
Proof.
  destruct out as [ms]. unfold add_to_output, bind. cbn [models].
  destruct (od_get String.eqb ms mtype) as [inner|] eqn:Em.
  - rewrite (models_put_present {| models := ms |} mtype m_id d inner Em). cbn [models].
    eexists. split; [reflexivity|]. split; [apply models_get_put|].
    split.
    + intros mtype' m_id' Hother. apply models_get_put_other; assumption.
    + intros mt Hmt. cbn [models]. apply od_set_keeps_types. exact Hmt.
  - assert (Em' : od_get String.eqb (od_set String.eqb ms mtype []) mtype = Some [])
      by apply (od_get_set_eq String.eqb String.eqb_refl).
    rewrite (models_put_present {| models := od_set String.eqb ms mtype [] |}
               mtype m_id d [] Em'). cbn [models].
    rewrite (od_set_set String.eqb String.eqb_refl).
    eexists. split; [reflexivity|]. split; [apply models_get_put|].
    split.
    + intros mtype' m_id' Hother. unfold models_get. cbn [models].
      destruct (String.eqb mtype mtype') eqn:E.
      * apply String.eqb_eq in E. subst mtype'.
        rewrite (od_get_set_eq String.eqb String.eqb_refl), Em.
        destruct Hother as [Hne | Hne]; [contradiction Hne; reflexivity|].
        cbn. rewrite Hne. reflexivity.
      * rewrite (od_get_set_ne String.eqb String_eqb_cong) by exact E. reflexivity.
    + intros mt Hmt. cbn [models]. apply od_set_keeps_types. exact Hmt.
Qed.

Section AddToDict.
Variable collect : list (Q * Soil) -> outcome sval.

Lemma add_to_dict_soil (s : Soil) (q : Q) (out : Output) :
  getattr s "id" = Ok (Some q) ->
  add_to_dict collect (ESoil s) out
  = match Soil_to_sval s with
    | Ok d => models_put "soils" (Some q) d out
    | Raise e => (Raise e, out)
    end.
Proof.
  intros Hid. unfold add_to_dict, bind, eval. cbn [entity_id].
  rewrite Hid. cbn [is_not_None negb]. destruct (Soil_to_sval s); reflexivity.
Qed.

(** X20.  [add_to_dict] on a Soil whose [id] is a number and whose
    [to_dict()] returns [d], in an output that has the standard model
    types: the call returns, [d] reads back under [("soils", id)], every
    other entry reads as before, and the standard model types are still
    there.  When [to_dict()] raises, [add_to_dict] raises the same
    exception and the output is unchanged. *)
Theorem X20_add_soil_to_output (s : Soil) (q : Q) (out : Output) :
  standard out -> getattr s "id" = Ok (Some q) ->
  (forall d, Soil_to_sval s = Ok d ->
     exists out' : Output,
       add_to_dict collect (ESoil s) out = (Ok tt, out')
       /\ models_get out' "soils" (Some q) = Some d
       /\ (forall mtype m_id,
             mtype <> "soils" \/ value_eqb (Some q) m_id = false ->
             models_get out' mtype m_id = models_get out mtype m_id)
       /\ standard out')
  /\ (forall e, Soil_to_sval s = Raise e ->
        add_to_dict collect (ESoil s) out = (Raise e, out)).
Proof.
  intros Hs Hid. rewrite (add_to_dict_soil s q out Hid). split.
  - intros d Hd. rewrite Hd.
    destruct (standard_present out "soils" Hs) as (inner & Hin);
      [left; reflexivity|].
    rewrite (models_put_present out "soils" (Some q) d inner Hin).
    eexists. split; [reflexivity|]. split; [apply models_get_put|].
    split; [|apply standard_od_set; exact Hs].
    intros mtype m_id Hother. destruct out as [ms]. cbn [models] in *.
    apply models_get_put_other; assumption.
  - intros e He. rewrite He. reflexivity.
Qed.

(** X21.  [add_to_dict] on a [CustomObject] whose [id] is a number, in an
    output that has the standard model types: the call returns, creating
    the model type named by the object's [type] when it is missing, and the
    serialised object reads back both under its own type and under
    ["systems"]. *)
Theorem X21_add_custom_to_output (c : CustomObject.t) (q : Q) (out : Output) :
  standard out -> CustomObject.id c = Some q ->
  exists out' : Output,
    add_to_dict collect (ECustom c) out = (Ok tt, out')
    /\ models_get out' (CustomObject.type c) (Some q) = Some (CustomObject_to_sval c)
    /\ models_get out' "systems" (Some q) = Some (CustomObject_to_sval c)
    /\ standard out'.
Proof.
  intros Hs Hid. unfold add_to_dict, bind, eval. cbn [entity_id].
  rewrite Hid. cbn [is_not_None negb].
  set (mtype := CustomObject.type c). set (d := CustomObject_to_sval c).
  set (out1 := match od_get String.eqb (models out) mtype with
               | Some _ => out
               | None => {| models := od_set String.eqb (models out) mtype [] |}
               end).
  assert (E1 : (match od_get String.eqb (models out) mtype with
                | Some _ => (Ok tt, out)
                | None => (Ok tt, {| models := od_set String.eqb (models out) mtype [] |})
                end) = (Ok tt, out1))
    by (unfold out1; destruct (od_get String.eqb (models out) mtype); reflexivity).
  rewrite E1.
  assert (Hs1 : standard out1).
  { unfold out1. destruct (od_get String.eqb (models out) mtype);
      [exact Hs | apply standard_od_set; exact Hs]. }
  assert (Hm1 : exists inner, od_get String.eqb (models out1) mtype = Some inner).
  { unfold out1. destruct (od_get String.eqb (models out) mtype) as [inner|] eqn:E.
    - exists inner. exact E.
    - exists []. cbn [models]. apply (od_get_set_eq String.eqb String.eqb_refl). }
  destruct Hm1 as (inner & Hm1).
  rewrite (models_put_present out1 mtype (Some q) d inner Hm1).
  set (out2 := {| models := od_set String.eqb (models out1) mtype
                                   (od_set value_eqb inner (Some q) d) |}).
  assert (Hs2 : standard out2) by (apply standard_od_set; exact Hs1).
  destruct (standard_present out2 "systems" Hs2) as (inner2 & Hin2);
    [right; right; left; reflexivity|].
  rewrite (models_put_present out2 "systems" (Some q) d inner2 Hin2).
  eexists. split; [reflexivity|].
  split; [|split; [apply models_get_put | apply standard_od_set; exact Hs2]].
  destruct (String.eqb "systems" mtype) eqn:E.
  - apply String.eqb_eq in E. rewrite <- E. apply models_get_put.
  - rewrite models_get_put_other.
    + apply models_get_put.
    + exact Hin2.
    + left. intros Heq. rewrite Heq, String.eqb_refl in E. discriminate E.
Qed.

Lemma add_layers_to_dict_app (pre rest : list (Q * Soil)) (acc : list sval)
      (out : Output) :
  add_layers_to_dict (pre ++ rest) acc out
  = match add_layers_to_dict pre acc out with
    | (Ok acc', out') => add_layers_to_dict rest acc' out'
    | (Raise e, out') => (Raise e, out')
    end.
Proof.
  revert acc out. induction pre as [|[depth s] pre IH]; intros acc out.
  - reflexivity.
  - change (((depth, s) :: pre) ++ rest) with ((depth, s) :: (pre ++ rest)).
    cbn [add_layers_to_dict]. unfold bind, eval.
    destruct (Soil_to_sval s) as [d|e]; [|reflexivity].
    destruct (getattr s "id") as [v|e]; [|reflexivity].
    destruct (models_put "soils" v d out) as [[[]|e] out']; [apply IH | reflexivity].
Qed.

Lemma add_layers_to_dict_ok (ls : list (Q * Soil)) :
  forall (acc : list sval) (ms : list (string * list (value * sval)))
         (inner : list (value * sval)),
    od_get String.eqb ms "soils" = Some inner ->
    Forall (fun y => serialisable (snd y)) ls ->
    add_layers_to_dict ls acc {| models := ms |}
    = (Ok (acc ++ map layer_entry ls),
       {| models := od_set String.eqb ms "soils" (fold_left register_layer ls inner) |}).
Proof.
  induction ls as [|[depth s] ls IH]; intros acc ms inner Hm Hall.
  - simpl. rewrite app_nil_r.
    rewrite (od_set_get String.eqb ms "soils" inner Hm). reflexivity.
  - inversion Hall as [|? ? ((d & Hd) & (v & Hv)) Hall']; subst. cbn [snd] in Hd, Hv.
    cbn [add_layers_to_dict]. unfold bind, eval. rewrite Hd, Hv.
    rewrite (models_put_present {| models := ms |} "soils" v d inner Hm).
    cbn [models].
    rewrite (IH _ _ (od_set value_eqb inner v d));
      [|apply (od_get_set_eq String.eqb String.eqb_refl) | exact Hall'].
    rewrite (od_set_set String.eqb String.eqb_refl).
    assert (Ev : soil_id_of s = v) by (unfold soil_id_of; rewrite Hv; reflexivity).
    assert (Ed : soil_sval_of s = d) by (unfold soil_sval_of; rewrite Hd; reflexivity).
    change (fold_left register_layer ((depth, s) :: ls) inner)
      with (fold_left register_layer ls (register_layer inner (depth, s))).
    change (map layer_entry ((depth, s) :: ls))
      with (layer_entry (depth, s) :: map layer_entry ls).
    replace (register_layer inner (depth, s)) with (od_set value_eqb inner v d)
      by (unfold register_layer; cbn [snd]; rewrite Ev, Ed; reflexivity).
    replace (layer_entry (depth, s))
      with (SDict [("soil_id", SStrOf v); ("depth", SVal (Some depth))])
      by (unfold layer_entry; cbn [fst snd]; rewrite Ev; reflexivity).
    rewrite <- app_assoc. reflexivity.
Qed.

Lemma fold_register_present (ls : list (Q * Soil)) :
  forall (inner : list (value * sval)) (y : Q * Soil),
    (In y ls \/ od_get value_eqb inner (soil_id_of (snd y)) <> None) ->
    od_get value_eqb (fold_left register_layer ls inner) (soil_id_of (snd y)) <> None.
Proof.
  induction ls as [|x ls IH]; intros inner y Hy.
  - destruct Hy as [[] | Hy]. exact Hy.
  - cbn [fold_left]. apply IH. destruct Hy as [[-> | Hy] | Hy].
    + right. unfold register_layer.
      rewrite (od_get_set_eq value_eqb value_eqb_refl). discriminate.
    + left. exact Hy.
    + right. unfold register_layer.
      destruct (value_eqb (soil_id_of (snd x)) (soil_id_of (snd y))) eqn:E.
      * destruct (od_get_set_eq_cong value_eqb value_eqb_cong inner
                    (soil_id_of (snd x)) (soil_id_of (snd y))
                    (soil_sval_of (snd x)) E) as (v & ->). discriminate.
      * rewrite (od_get_set_ne value_eqb value_eqb_cong) by exact E. exact Hy.
Qed.

(** X22.  [add_to_dict] on a profile with an id, all of whose layers have
    a Soil on which [to_dict()] and [id] return, in an output that has the
    standard model types.  The call returns.  The profile reads back under
    [("soil_profiles", id)] with its [layers] entry replaced by the list
    of [{soil_id: str(soil.id), depth}] in layer order.  The ["soils"]
    mapping is the one obtained by writing [soils[soil.id] =
    soil.to_dict()] for each layer in order: every layer's soil id has an
    entry, also when that id is [None], which is not checked for the soils
    of a profile. *)
Theorem X22_add_profile_to_output
        (p : SoilProfile) (q : Q) (l : sval) (out : Output)
        (inner : list (value * sval)) :
  standard out -> profile_id p = Some (Some q) -> collect (layers p) = Ok l ->
  od_get String.eqb (models out) "soils" = Some inner ->
  Forall (fun y => serialisable (snd y)) (layers p) ->
  exists out' : Output,
    add_to_dict collect (EProfile p) out = (Ok tt, out')
    /\ models_get out' "soil_profiles" (Some q)
       = Some (SDict [("gwl", SVal (gwl p));
                      ("unit_weight_water", SVal (Some (unit_weight_water p)));
                      ("layers", SList (map layer_entry (layers p)))])
    /\ od_get String.eqb (models out') "soils"
       = Some (fold_left register_layer (layers p) inner)
    /\ (forall y, In y (layers p) ->
          models_get out' "soils" (soil_id_of (snd y)) <> None)
    /\ standard out'.
Proof.
  intros Hs Hid Hl Hm Hall. destruct out as [ms]. cbn [models] in Hm.
  unfold add_to_dict, bind, eval. cbn [entity_id]. rewrite Hid.
  cbn [is_not_None negb]. unfold SoilProfile_to_dict. rewrite Hl. cbn [obind].
  rewrite (add_layers_to_dict_ok (layers p) [] ms inner Hm Hall). cbn [app].
  set (out1 := {| models := od_set String.eqb ms "soils"
                                   (fold_left register_layer (layers p) inner) |}).
  assert (Hs1 : standard out1) by (apply (standard_od_set {| models := ms |}); exact Hs).
  destruct (standard_present out1 "soil_profiles" Hs1) as (inner_p & Hp);
    [right; left; reflexivity|].
  rewrite (models_put_present out1 "soil_profiles" (Some q) _ inner_p Hp).
  eexists. split; [reflexivity|].
  split; [rewrite models_get_put; reflexivity|].
  assert (Hsoils : od_get String.eqb
                     (od_set String.eqb (models out1) "soil_profiles"
                        (od_set value_eqb inner_p (Some q)
                           (SDict (od_set String.eqb
                              [("gwl", SVal (gwl p));
                               ("unit_weight_water", SVal (Some (unit_weight_water p)));
                               ("layers", l)] "layers"
                              (SList (map layer_entry (layers p))))))) "soils"
                   = Some (fold_left register_layer (layers p) inner)).
  { rewrite (od_get_set_ne String.eqb String_eqb_cong) by reflexivity.
    unfold out1. cbn [models]. apply (od_get_set_eq String.eqb String.eqb_refl). }
  split; [exact Hsoils|].
  split; [|apply standard_od_set; exact Hs1].
  intros y Hy. unfold models_get. cbn [models]. rewrite Hsoils.
  apply fold_register_present. left. exact Hy.
Qed.

(** X23.  [add_to_dict] on a profile is not atomic.  When [to_dict()] or
    [id] raises on the Soil of a layer, while they return on the soils of
    the layers before it, [add_to_dict] raises that exception: the profile
    is not registered and no other model type changes, but the soils of
    the layers before it have been written to ["soils"].  A profile that
    still holds the [Soil()] which [SoilProfile()] puts at depth 0 fails
    in this way with [AttributeError]. *)
Theorem X23_add_profile_partial
        (p : SoilProfile) (q : Q) (l : sval) (out : Output)
        (inner : list (value * sval))
        (pre rest : list (Q * Soil)) (depth : Q) (s : Soil) (e : exn) :
  profile_id p = Some (Some q) -> collect (layers p) = Ok l ->
  od_get String.eqb (models out) "soils" = Some inner ->
  layers p = pre ++ (depth, s) :: rest ->
  Forall (fun y => serialisable (snd y)) pre ->
  Soil_to_sval s = Raise e
  \/ ((exists d, Soil_to_sval s = Ok d) /\ getattr s "id" = Raise e) ->
  exists out' : Output,
    add_to_dict collect (EProfile p) out = (Raise e, out')
    /\ od_get String.eqb (models out') "soils" = Some (fold_left register_layer pre inner)
    /\ (forall mtype, mtype <> "soils" ->
          od_get String.eqb (models out') mtype = od_get String.eqb (models out) mtype).
Proof.
  intros Hid Hl Hm Hlay Hall Hfail. destruct out as [ms]. cbn [models] in Hm.
  unfold add_to_dict, bind, eval. cbn [entity_id]. rewrite Hid.
  cbn [is_not_None negb]. unfold SoilProfile_to_dict. rewrite Hl. cbn [obind].
  rewrite Hlay, add_layers_to_dict_app.
  rewrite (add_layers_to_dict_ok pre [] ms inner Hm Hall).
  cbn [add_layers_to_dict]. unfold bind, eval.
  exists {| models := od_set String.eqb ms "soils" (fold_left register_layer pre inner) |}.
  split.
  - destruct Hfail as [Hd | ((d & Hd) & Hv)]; rewrite Hd; [reflexivity|].
    rewrite Hv. reflexivity.
  - cbn [models]. split; [apply (od_get_set_eq String.eqb String.eqb_refl)|].
    intros mtype Hne. apply (od_get_set_ne String.eqb String_eqb_cong).
    apply String_eqb_ne. intros Heq. apply Hne. symmetry. exact Heq.
Qed.
End AddToDict.

Lemma sand_1_id : getattr sand_1 "id" = Ok (Some 1).
Proof. vm_compute. reflexivity. Qed.

Lemma sand_1_sval : exists d, Soil_to_sval sand_1 = Ok d.
Proof. vm_compute. eexists. reflexivity. Qed.

Lemma sand_1_serialisable : serialisable sand_1.
Proof. split; [exact sand_1_sval | exists (Some 1); exact sand_1_id]. Qed.

Lemma bare_soil_4_id : getattr bare_soil_4 "id" = Ok (Some 4).
Proof. vm_compute. reflexivity. Qed.

Lemma bare_soil_4_sval : Soil_to_sval bare_soil_4 = Raise AttributeError.
Proof. vm_compute. reflexivity. Qed.

Lemma Soil_new_sval : Soil_to_sval Soil_new = Raise AttributeError.
Proof. vm_compute. reflexivity. Qed.

Lemma Output_new_soils : od_get String.eqb (models Output_new) "soils" = Some [].
Proof. reflexivity. Qed.

Lemma X20_add_soil_witness :
  (exists (d : sval) (out' : Output),
     Soil_to_sval sand_1 = Ok d
     /\ add_to_dict collect_nothing (ESoil sand_1) Output_new = (Ok tt, out')
     /\ models_get out' "soils" (Some 1) = Some d)
  /\ add_to_dict collect_nothing (ESoil bare_soil_4) Output_new
     = (Raise AttributeError, Output_new).
Proof.
  destruct sand_1_sval as [d Hd].
  destruct (X20_add_soil_to_output collect_nothing sand_1 1 Output_new
              Output_new_standard sand_1_id) as (H1 & _).
  destruct (X20_add_soil_to_output collect_nothing bare_soil_4 4 Output_new
              Output_new_standard bare_soil_4_id) as (_ & H2).
  destruct (H1 d Hd) as (out' & Ha & Hg & _).
  split.
  - exists d, out'. split; [exact Hd | split; [exact Ha | exact Hg]].
  - exact (H2 AttributeError bare_soil_4_sval).
Defined.

Lemma X21_add_custom_witness :
  exists out' : Output,
    add_to_dict collect_nothing (ECustom custom_3) Output_new = (Ok tt, out')
    /\ models_get out' "custom_object" (Some 3) = Some (CustomObject_to_sval custom_3)
    /\ models_get out' "systems" (Some 3) = Some (CustomObject_to_sval custom_3)
    /\ standard out'.
Proof.
  exact (X21_add_custom_to_output collect_nothing custom_3 3 Output_new
           Output_new_standard eq_refl).
Defined.

Lemma profile_2_serialisable :
  Forall (fun y => serialisable (snd y)) (layers profile_2).
Proof.
  constructor; [exact sand_1_serialisable|].
  constructor; [exact sand_1_serialisable | constructor].
Qed.

Lemma X22_add_profile_witness :
  exists out' : Output,
    add_to_dict collect_nothing (EProfile profile_2) Output_new = (Ok tt, out')
    /\ models_get out' "soil_profiles" (Some 2)
       = Some (SDict [("gwl", SVal (gwl profile_2));
                      ("unit_weight_water", SVal (Some (unit_weight_water profile_2)));
                      ("layers", SList (map layer_entry (layers profile_2)))])
    /\ od_get String.eqb (models out') "soils"
       = Some (fold_left register_layer (layers profile_2) [])
    /\ (forall y, In y (layers profile_2) ->
          models_get out' "soils" (soil_id_of (snd y)) <> None)
    /\ standard out'.
Proof.
  exact (X22_add_profile_to_output collect_nothing profile_2 2 (SDict []) Output_new []
           Output_new_standard eq_refl eq_refl Output_new_soils
           profile_2_serialisable).
Defined.

Lemma profile_1_layers : layers profile_1 = [(0, sand_1)] ++ (5, Soil_new) :: [].
Proof. reflexivity. Qed.

Lemma profile_1_above : Forall (fun y => serialisable (snd y)) [(0, sand_1)].
Proof. constructor; [exact sand_1_serialisable | constructor]. Qed.

Lemma X23_add_profile_witness :
  exists out' : Output,
    add_to_dict collect_nothing (EProfile profile_1) Output_new
    = (Raise AttributeError, out')
    /\ od_get String.eqb (models out') "soils"
       = Some (fold_left register_layer [(0, sand_1)] [])
    /\ (forall mtype, mtype <> "soils" ->
          od_get String.eqb (models out') mtype
          = od_get String.eqb (models Output_new) mtype).
Proof.
  exact (X23_add_profile_partial collect_nothing profile_1 1 (SDict []) Output_new []
           [(0, sand_1)] [] 5 Soil_new AttributeError
           eq_refl eq_refl Output_new_soils profile_1_layers profile_1_above
           (or_introl Soil_new_sval)).
Defined.

(** ** Loading what was exported *)

Lemma exported_soil_entry (s : Soil) (export_none : bool) (d : list (string * value)) :
  PhysicalObject.to_dict s [] export_none = Ok d ->
  (exists s', add_to_obj d [] Soil_new = (Ok tt, s')) /\ dict_get d "id" = None.
Proof.
  intros Hd.
  destruct (unshadowed_lists s (to_dict_returns_unshadowed s [] export_none d Hd))
    as [Hins _].
  unfold PhysicalObject.to_dict in Hd. rewrite Hins in Hd.
  destruct (to_dict_loop_entries s export_none (Soil_inputs ++ []) _ [] d Hd)
    as (Hnd & Hent).
  - intros k Hk. exact Hk.
  - constructor.
  - intros k v [].
  - assert (Hkeys : forall kv, In kv d -> In (fst kv) Soil_inputs).
    { intros [k v] Hkv. destruct (Hent k v Hkv) as (Hin & _).
      rewrite app_nil_r in Hin. exact Hin. }
    split.
    + destruct (add_to_obj_inputs d Hkeys Hnd Soil_new Soil_new_underived)
        as (s' & Hload & _).
      exists s'. exact Hload.
    + apply dict_get_absent. intros Hin. apply in_map_iff in Hin.
      destruct Hin as (kv & Hfst & Hkv). specialize (Hkeys kv Hkv).
      rewrite Hfst in Hkeys. unfold Soil_inputs in Hkeys. simpl in Hkeys.
      repeat (destruct Hkeys as [Hkeys | Hkeys]; [discriminate Hkeys|]).
      exact Hkeys.
Qed.

(** X24.  What [to_dict()] exports from a Soil cannot be loaded by
    [ecp_dict_to_objects].  The export holds the keys of [inputs], among
    which there is no ["id"]; loading the entry assigns its values to a
    new Soil and then fails with [KeyError] at [entry["id"]].  So the
    loop over a ["soils"] section raises [KeyError] when such an entry
    comes first, and returns no objects whenever the section contains
    one. *)
Theorem X24_exported_soil_cannot_be_loaded
        (s : Soil) (export_none : bool) (d : list (string * value)) (m_id : string) :
  PhysicalObject.to_dict s [] export_none = Ok d ->
  (forall rest soil_objs, load_soils ((m_id, d) :: rest) soil_objs = Raise KeyError)
  /\ (forall section soil_objs, In (m_id, d) section ->
        exists e, load_soils section soil_objs = Raise e).
Proof.
  intros Hd. destruct (exported_soil_entry s export_none d Hd) as ((s' & Hload) & Hid).
  assert (Hfirst : forall rest soil_objs,
             load_soils ((m_id, d) :: rest) soil_objs = Raise KeyError).
  { intros rest soil_objs. cbn [load_soils]. rewrite Hload, Hid. reflexivity. }
  split; [exact Hfirst|].
  induction section as [|[m entry] section IH]; intros soil_objs Hin; [destruct Hin|].
  destruct Hin as [Heq | Hin].
  - injection Heq as -> ->. exists KeyError. apply Hfirst.
  - cbn [load_soils].
    destruct (add_to_obj entry [] Soil_new) as [[[]|e] new_soil];
      [|exists e; reflexivity].
    destruct (dict_get entry "id") as [v|]; [|exists KeyError; reflexivity].
    destruct (py_int v) as [i|e]; [|exists e; reflexivity].
    cbn [obind]. apply IH. exact Hin.
Qed.

Lemma X24_witness_dict : exists d, PhysicalObject.to_dict sand [] true = Ok d.
Proof. vm_compute. eexists. reflexivity. Qed.

Lemma X24_load_witness :
  exists d : list (string * value),
    PhysicalObject.to_dict sand [] true = Ok d
    /\ load_soils [("1", d)] [] = Raise KeyError
    /\ exists e, load_soils [("0", [("id", Some 0)]); ("1", d)] [] = Raise e.
Proof.
  destruct X24_witness_dict as [d Hd]. exists d.
  destruct (X24_exported_soil_cannot_be_loaded sand true d "1" Hd) as (H1 & H2).
  split; [exact Hd|]. split; [exact (H1 [] [])|].
  apply H2. right. left. reflexivity.
Defined.
